(** * The optimize-model request handler

    A shallow embedding of [src/app/api/optimize-model/route.ts]: the [POST]
    handler that stores an uploaded glTF/GLB file, decodes it with
    glTF-Transform, runs the optimisation passes one after the other inside
    nested [try]/[catch] blocks, encodes the result and answers with a JSON
    report.

    The handler is a straight-line [async] function, so every [await] is a
    sequence point; it is embedded in a state monad whose computations
    complete the way a JavaScript block does: normally, by [return], or by
    [throw].  The libraries the handler calls (glTF-Transform, draco3dgltf,
    sharp, the file system of Node) are not part of the repository: they are
    the fields of an environment record, and every theorem is proved for all
    environments. *)

From Stdlib Require Import ZArith QArith String List Bool Lia.
From Stdlib Require Import Floats.SpecFloat.
From stdpp Require Import gmap strings list.
Import ListNotations.

Local Open Scope string_scope.
Local Open Scope Z_scope.

Set Default Proof Using "Type".

(** ** Values thrown and promises *)

(** What a [catch (error)] clause may receive: an [Error] object with its
    message and stack, or any other value (shown by [String(v)]). *)
Inductive Thrown : Type :=
| ErrorObject (message : string) (stack : option string)
| OtherValue (shown : string).

(** The settled state of an awaited promise. *)
Inductive Promise (A : Type) : Type :=
| Resolved (a : A)
| Rejected (e : Thrown).
Arguments Resolved {A} a.
Arguments Rejected {A} e.

(** [v === undefined] for the optional outcome of a call that may throw. *)
Definition succeeded (r : option Thrown) : bool :=
  match r with None => true | Some _ => false end.

(** ** The request: multipart form data *)

Record File := mkFile {
  file_name : string;
  file_arrayBuffer : Promise (list Byte.byte)
}.

Inductive FormValue : Type :=
| FormText (s : string)
| FormFile (f : File).

Definition FormData := list (string * FormValue).

(** [formData.get(name)]: the first entry of that name, or [null]. *)
Fixpoint formData_get (name : string) (fd : FormData) : option FormValue :=
  match fd with
  | [] => None
  | (k, v) :: rest => if String.eqb k name then Some v else formData_get name rest
  end.

(** ** JSON bodies and responses *)

#[warnings="-register-all"]
Inductive Json : Type :=
| JNull
| JBool (b : bool)
| JNum (q : Q)
| JStr (s : string)
| JObj (fields : list (string * Json)).

Definition JInt (z : Z) : Json := JNum (inject_Z z).

Definition json_get (key : string) (j : Json) : option Json :=
  match j with
  | JObj fields =>
      (fix find (l : list (string * Json)) : option Json :=
         match l with
         | [] => None
         | (k, v) :: rest => if String.eqb k key then Some v else find rest
         end) fields
  | _ => None
  end.

Record Response := mkResponse {
  status : Z;
  body : Json
}.

(** [NextResponse.json(body)] answers with status 200 unless told otherwise. *)
Definition NextResponse_json (body : Json) (init_status : option Z) : Response :=
  {| status := match init_status with Some st => st | None => 200 end;
     body := body |}.

(** ** The document, as far as the handler looks into it *)

Record Texture := mkTexture {
  mimeType : string;
  image : list Byte.byte
}.

Record Animation := mkAnimation {
  animation_name : string;
  keyframes : nat
}.

(** [getRoot().listAnimations()], [getRoot().listTextures()], and the rest of
    the scene (meshes, materials, nodes), which only the library reads. *)
Record Document := mkDocument {
  listAnimations : list Animation;
  listTextures : list Texture;
  scene : list Byte.byte
}.

Definition set_textures (ts : list Texture) (d : Document) : Document :=
  {| listAnimations := listAnimations d; listTextures := ts; scene := scene d |}.

(** ** Transforms and their options *)

(** The options object given to [draco(...)]; an absent key leaves the
    library default in place. *)
Record DracoOptions := mkDracoOptions {
  quantizePosition : option Z;
  quantizeNormal : option Z;
  quantizeTexcoord : option Z
}.

(** [draco()] *)
Definition draco_default : DracoOptions :=
  {| quantizePosition := None; quantizeNormal := None; quantizeTexcoord := None |}.

(** [draco({ quantizePosition: 12 })] *)
Definition draco_simple : DracoOptions :=
  {| quantizePosition := Some 12; quantizeNormal := None; quantizeTexcoord := None |}.

(** [draco({ quantizePosition: 12, quantizeNormal: 10, quantizeTexcoord: 10 })] *)
Definition draco_prequantize : DracoOptions :=
  {| quantizePosition := Some 12; quantizeNormal := Some 10; quantizeTexcoord := Some 10 |}.

(** [weld({ tolerance: 0.0001 })] *)
Definition weld_tolerance : Q := 1 # 10000.

Inductive Transform : Type :=
| dedup
| prune
| resample
| weld (tolerance : Q)
| draco (options : DracoOptions).

(** [{ encoder: sharp, targetFormat: 'webp', resize: [1024, 1024] }] *)
Record TextureOptions := mkTextureOptions {
  targetFormat : string;
  resize : Z * Z
}.

Definition webp_1024 : TextureOptions :=
  {| targetFormat := "webp"; resize := (1024, 1024) |}.

(** The bit widths a [draco] transform works with once the library defaults
    fill the absent keys.  The defaults are the library's, not the
    repository's: they are a parameter wherever they matter. *)
Record DracoBits := mkDracoBits {
  positionBits : Z;
  normalBits : Z;
  texcoordBits : Z
}.

Definition effective_bits (defaults : DracoBits) (o : DracoOptions) : DracoBits :=
  {| positionBits := default (positionBits defaults) (quantizePosition o);
     normalBits := default (normalBits defaults) (quantizeNormal o);
     texcoordBits := default (texcoordBits defaults) (quantizeTexcoord o) |}.

(** ** The environment: the request and the libraries *)

Inductive DracoModule : Type :=
| DecoderModule
| EncoderModule.

(** glTF-Transform as the handler uses it.  A transform or a texture
    recompression that throws may already have changed its argument: the
    call gives back the state it left and, when it threw, the value thrown. *)
Record Library := mkLibrary {
  io_read : string -> list Byte.byte -> Promise Document;
  io_write : string -> Document -> Promise (list Byte.byte);
  lib_transform : Transform -> Document -> Document * option Thrown;
  compressTexture : TextureOptions -> Texture -> Texture * option Thrown;
  import_weld : option Thrown
}.

(** One request.  [lib_again] answers the calls the handler makes a second
    time in its last-resort branch (re-read, dedup and prune, write): a second
    invocation need not repeat the outcome of the first.  [error_stack] is
    the [stack] the runtime gives an error it raises itself with the given
    message (the [TypeError] of a call on a value without that method). *)
Record Env := mkEnv {
  req_formData : Promise FormData;
  uuidv4 : string;
  os_tmpdir : string;
  path_join : string -> string -> string;
  writeFile : string -> list Byte.byte -> option Thrown;
  createDecoderModule : Promise DracoModule;
  createEncoderModule : Promise DracoModule;
  registerDependencies : option Thrown;
  lib : Library;
  lib_again : Library;
  error_stack : string -> string
}.

(** ** Observable events *)

Inductive LogLevel : Type := console_log | console_warn | console_error.

Inductive LogArg : Type :=
| NoArg
| ArgThrown (e : Thrown)
| ArgText (s : string)
| ArgNum (n : Z).

(** Which document object a call is made on: [document] or [document2]. *)
Inductive Receiver : Type := Main | Second.

Inductive Event : Type :=
| Console (lvl : LogLevel) (msg : string) (arg : LogArg)
| CallWriteFile (path : string) (ok : bool)
| CallCreateDecoder (ok : bool)
| CallCreateEncoder (ok : bool)
| CallRegisterDependencies (ok : bool)
| CallRead (path : string) (ok : bool)
| CallWrite (who : Receiver) (path : string) (ok : bool)
| CallTransform (who : Receiver) (t : Transform) (ok : bool)
| CallListAnimations (n : nat)
| CallListTextures (n : nat)
| CallCompressTexture (index : nat) (ok : bool)
| CallImportWeld (ok : bool).

(** ** Program state *)

(** The module-level variables of route.ts, which outlive a request. *)
Record Globals := mkGlobals {
  decoderModule : option DracoModule;
  encoderModule : option DracoModule;
  dracoInitialized : bool
}.

Record State := mkState {
  fs : gmap string (list Byte.byte);
  globals : Globals;
  document : Document;
  optimizationLevel : string
}.

Definition set_fs (f : gmap string (list Byte.byte)) (s : State) : State :=
  {| fs := f; globals := globals s;
     document := document s; optimizationLevel := optimizationLevel s |}.

Definition set_globals (g : Globals) (s : State) : State :=
  {| fs := fs s; globals := g;
     document := document s; optimizationLevel := optimizationLevel s |}.

Definition set_document (d : Document) (s : State) : State :=
  {| fs := fs s; globals := globals s;
     document := d; optimizationLevel := optimizationLevel s |}.

Definition set_level (lv : string) (s : State) : State :=
  {| fs := fs s; globals := globals s;
     document := document s; optimizationLevel := lv |}.

(** ** Completions and the monad *)

Inductive Completion (A : Type) : Type :=
| Normal (a : A)
| Return (r : Response)
| Throw (e : Thrown).
Arguments Normal {A} a.
Arguments Return {A} r.
Arguments Throw {A} e.

(** A computation changes the state, completes, and leaves the events it
    caused, oldest first. *)
Definition M (A : Type) : Type := State -> Completion A * State * list Event.

Definition ret {A} (a : A) : M A := fun s => (Normal a, s, []).

Definition bind {A B} (m : M A) (k : A -> M B) : M B :=
  fun s =>
    match m s with
    | (Normal a, s1, evs1) =>
        let '(c, s2, evs2) := k a s1 in (c, s2, (evs1 ++ evs2)%list)
    | (Return r, s1, evs1) => (Return r, s1, evs1)
    | (Throw e, s1, evs1) => (Throw e, s1, evs1)
    end.

Declare Scope js_scope.
Delimit Scope js_scope with js.
Notation "'let*' x ':=' m 'in' k" := (bind m (fun x => k))
  (at level 10, x name, m at level 100, k at level 200) : js_scope.
Notation "m ';;' k" := (bind m (fun _ => k))
  (at level 100, k at level 200, right associativity) : js_scope.
Local Open Scope js_scope.

Definition throw {A} (e : Thrown) : M A := fun s => (Throw e, s, []).
Definition return_ {A} (r : Response) : M A := fun s => (Return r, s, []).

(** [try { m } catch (e) { h e }]: only a [throw] reaches the handler. *)
Definition try_catch {A} (m : M A) (h : Thrown -> M A) : M A :=
  fun s =>
    match m s with
    | (Throw e, s1, evs1) =>
        let '(c, s2, evs2) := h e s1 in (c, s2, (evs1 ++ evs2)%list)
    | other => other
    end.

Definition await {A} (p : Promise A) : M A :=
  match p with
  | Resolved a => ret a
  | Rejected e => throw e
  end.

Definition raise_if (r : option Thrown) : M unit :=
  match r with
  | None => ret tt
  | Some e => throw e
  end.

Definition gets {A} (f : State -> A) : M A := fun s => (Normal (f s), s, []).
Definition modify (f : State -> State) : M unit := fun s => (Normal tt, f s, []).
Definition emit (e : Event) : M unit := fun s => (Normal tt, s, [e]).
Definition console (lvl : LogLevel) (msg : string) (arg : LogArg) : M unit :=
  emit (Console lvl msg arg).

(** ** Calls into the libraries *)

(** [fs.stat(path).size]; rejects when there is no such file. *)
Definition stat_size (path : string) : M Z :=
  let* files := gets fs in
  match files !! path with
  | Some bytes => ret (Z.of_nat (length bytes))
  | None => throw (ErrorObject ("ENOENT: no such file or directory, stat '" ++ path ++ "'") None)
  end.

(** [fs.writeFile(path, buffer)] *)
Definition fs_writeFile (E : Env) (path : string) (buffer : list Byte.byte) : M unit :=
  let r := writeFile E path buffer in
  emit (CallWriteFile path (succeeded r));;
  match r with
  | None => modify (fun s => set_fs (<[path := buffer]> (fs s)) s)
  | Some e => throw e
  end.

(** [io.read(path)]: read the file, then decode it. *)
Definition NodeIO_read (L : Library) (path : string) : M Document :=
  let* files := gets fs in
  match files !! path with
  | None =>
      emit (CallRead path false);;
      throw (ErrorObject ("ENOENT: no such file or directory, open '" ++ path ++ "'") None)
  | Some bytes =>
      match io_read L path bytes with
      | Resolved d => emit (CallRead path true);; ret d
      | Rejected e => emit (CallRead path false);; throw e
      end
  end.

(** [io.write(path, doc)]: encode the document, then store the bytes. *)
Definition NodeIO_write (L : Library) (who : Receiver) (path : string) (d : Document) : M unit :=
  match io_write L path d with
  | Resolved bytes =>
      emit (CallWrite who path true);;
      modify (fun s => set_fs (<[path := bytes]> (fs s)) s)
  | Rejected e => emit (CallWrite who path false);; throw e
  end.

(** [document.transform(t)] on the request's document, which keeps whatever
    the transform did to it, also when the transform throws. *)
Definition document_transform (L : Library) (t : Transform) : M unit :=
  let* d := gets document in
  let '(d', r) := lib_transform L t d in
  modify (set_document d');;
  emit (CallTransform Main t (succeeded r));;
  raise_if r.

(** [document2.transform(t1, t2, ...)] on a document held in a local
    variable: the transforms run in order and the first to throw ends it. *)
Fixpoint transform_all (L : Library) (ts : list Transform) (d : Document) : M Document :=
  match ts with
  | [] => ret d
  | t :: rest =>
      let '(d', r) := lib_transform L t d in
      emit (CallTransform Second t (succeeded r));;
      raise_if r;;
      transform_all L rest d'
  end.

(** [document.getRoot().listAnimations()] and [listTextures()] *)
Definition root_listAnimations : M (list Animation) :=
  let* d := gets document in
  emit (CallListAnimations (length (listAnimations d)));;
  ret (listAnimations d).

Definition root_listTextures : M (list Texture) :=
  let* d := gets document in
  emit (CallListTextures (length (listTextures d)));;
  ret (listTextures d).

(** [compressTexture(texture, options)] on the texture at [index] of the
    document: the texture object is changed in place. *)
Definition compress_one (L : Library) (index : nat) (t : Texture) : M unit :=
  let '(t', r) := compressTexture L webp_1024 t in
  modify (fun s => set_document (set_textures (<[index := t']> (listTextures (document s))) (document s)) s);;
  emit (CallCompressTexture index (succeeded r));;
  raise_if r.

(** [for (const texture of textures) await compressTexture(texture, ...)] *)
Fixpoint compress_each (L : Library) (index : nat) (textures : list Texture) : M unit :=
  match textures with
  | [] => ret tt
  | t :: rest => compress_one L index t;; compress_each L (S index) rest
  end.

(** ** [initializeDraco] *)

(** The function as one call runs it when no other call runs in between:
    the handler is embedded one request at a time.  The source tests the
    flag before its first [await] (line 40) and sets it after the second
    (line 55), so calls that overlap do not see each other's progress;
    [draco_step] below takes the function apart at its [await]s. *)

Definition initializeDraco (E : Env) : M (option DracoModule * option DracoModule) :=
  let* g := gets globals in
  if dracoInitialized g then ret (decoderModule g, encoderModule g)
  else
    try_catch
      (let* dec := (match createDecoderModule E with
                    | Resolved m => emit (CallCreateDecoder true);; ret m
                    | Rejected e => emit (CallCreateDecoder false);; throw e
                    end) in
       modify (fun s => set_globals {| decoderModule := Some dec;
                                       encoderModule := encoderModule (globals s);
                                       dracoInitialized := dracoInitialized (globals s) |} s);;
       let* enc := (match createEncoderModule E with
                    | Resolved m => emit (CallCreateEncoder true);; ret m
                    | Rejected e => emit (CallCreateEncoder false);; throw e
                    end) in
       modify (fun s => set_globals {| decoderModule := decoderModule (globals s);
                                       encoderModule := Some enc;
                                       dracoInitialized := true |} s);;
       console console_log "Draco 모듈 초기화 성공" NoArg;;
       let* g' := gets globals in
       ret (decoderModule g', encoderModule g'))
      (fun error =>
         console console_error "Draco 모듈 초기화 실패:" (ArgThrown error);;
         ret (None, None)).

(** ** The handler *)

(** The constants of one request that the closures of [POST] capture. *)
Record Scope := mkScope {
  fileId : string;
  tempDir : string;
  inputPath : string;
  outputPath : string;
  originalSize : Z;
  useDraco : bool
}.

(** [error instanceof Error ? error.message : String(error)] *)
Definition error_text (e : Thrown) : string :=
  match e with
  | ErrorObject m _ => m
  | OtherValue v => v
  end.

(** [list.includes(x)] on an array of strings *)
Definition includes (l : list string) (x : string) : bool :=
  existsb (String.eqb x) l.

(** [checkFileSize(stage)]: write the current document to a scratch file and
    report its size; the whole body sits in its own [try]/[catch]. *)
Definition checkFileSize (E : Env) (c : Scope) (stage : string) : M Z :=
  try_catch
    (let tempPath := path_join E (tempDir c) (fileId c ++ "-temp-" ++ stage ++ ".glb") in
     let* d := gets document in
     NodeIO_write (lib E) Main tempPath d;;
     let* currentSize := stat_size tempPath in
     console console_log ("📊 " ++ stage ++ " 후 크기") (ArgNum currentSize);;
     ret currentSize)
    (fun error =>
       console console_warn ("⚠️ " ++ stage ++ " 크기 측정 실패:") (ArgThrown error);;
       ret (originalSize c)).

(** 1단계: dedup *)
Definition stage_dedup (E : Env) (c : Scope) : M unit :=
  document_transform (lib E) dedup;;
  modify (set_level "basic");;
  console console_log "✅ Dedup 완료" NoArg;;
  checkFileSize E c "Dedup";;
  ret tt.

(** 2단계: prune *)
Definition stage_prune (E : Env) (c : Scope) : M unit :=
  document_transform (lib E) prune;;
  modify (set_level "intermediate");;
  console console_log "✅ Prune 완료" NoArg;;
  checkFileSize E c "Prune";;
  ret tt.

(** 3단계: resample, when the document has animations *)
Definition stage_resample (E : Env) (c : Scope) : M unit :=
  let* animations := root_listAnimations in
  if (0 <? length animations)%nat then
    try_catch
      (document_transform (lib E) resample;;
       modify (set_level "advanced");;
       console console_log "✅ Resample 완료" NoArg;;
       checkFileSize E c "Resample";;
       ret tt)
      (fun resampleError =>
         console console_warn "⚠️ Resample 실패:" (ArgThrown resampleError))
  else ret tt.

(** 4단계: texture compression, when the document has textures *)
Definition stage_texture (E : Env) (c : Scope) : M unit :=
  let* listed := root_listTextures in
  if (0 <? length listed)%nat then
    try_catch
      (let* textures := root_listTextures in
       console console_log "🖼️ 텍스처 발견, WebP 압축 시작..." (ArgNum (Z.of_nat (length textures)));;
       compress_each (lib E) 0 textures;;
       modify (set_level "texture-compressed");;
       console console_log "✅ 텍스처 압축 완료" NoArg;;
       checkFileSize E c "TextureCompress";;
       ret tt)
      (fun compressError =>
         console console_warn "⚠️ 텍스처 압축 실패:" (ArgThrown compressError))
  else console console_log "ℹ️ 텍스처가 없어서 압축 단계 건너뜀" NoArg.

(** 5단계: weld, with pre-quantization when weld cannot be used *)
Definition stage_mesh (E : Env) (c : Scope) : M unit :=
  try_catch
    (try_catch
       (emit (CallImportWeld (succeeded (import_weld (lib E))));;
        raise_if (import_weld (lib E));;
        document_transform (lib E) (weld weld_tolerance);;
        modify (set_level "welded");;
        console console_log "✅ Weld 기반 메시 최적화 완료" NoArg;;
        checkFileSize E c "Weld";;
        ret tt)
       (fun weldError =>
          console console_warn "⚠️ Weld 사용 불가, quantization으로 대체" NoArg;;
          try_catch
            (document_transform (lib E) (draco draco_prequantize);;
             modify (set_level "pre-quantized");;
             console console_log "✅ Pre-quantization 메시 최적화 완료" NoArg;;
             checkFileSize E c "Pre-quantization";;
             ret tt)
            (fun quantizeError =>
               console console_warn "⚠️ Pre-quantization 실패:" (ArgText (error_text quantizeError));;
               console console_log "ℹ️ 메시 최적화 건너뛰고 Draco 압축으로 진행" NoArg)))
    (fun meshOptError =>
       console console_warn "⚠️ 모든 메시 최적화 방법 실패:" (ArgText (error_text meshOptError));;
       console console_log "ℹ️ 메시 최적화 포기, Draco 압축으로 진행" NoArg).

(** 6단계: Draco, when both modules are there; one retry with fewer options *)
Definition stage_draco (E : Env) (c : Scope) : M unit :=
  if useDraco c then
    try_catch
      (document_transform (lib E) (draco draco_default);;
       modify (set_level "draco");;
       console console_log "✅ Draco 압축 완료" NoArg;;
       checkFileSize E c "Draco";;
       ret tt)
      (fun dracoError =>
         console console_warn "⚠️ Draco 압축 실패:" (ArgThrown dracoError);;
         try_catch
           (document_transform (lib E) (draco draco_simple);;
            modify (set_level "draco-simple");;
            console console_log "✅ Draco 간단 압축 완료" NoArg;;
            checkFileSize E c "Draco Simple";;
            ret tt)
           (fun dracoError2 =>
              console console_warn "⚠️ Draco 재시도도 실패:" (ArgThrown dracoError2)))
  else console console_log "ℹ️ Draco 모듈 없음, 건너뜀" NoArg.

(** The six stages in the order the [try] block runs them. *)
Definition stages (E : Env) (c : Scope) : list (M unit) :=
  [stage_dedup E c; stage_prune E c; stage_resample E c;
   stage_texture E c; stage_mesh E c; stage_draco E c].

Fixpoint sequence (ms : list (M unit)) : M unit :=
  match ms with
  | [] => ret tt
  | m :: rest => m;; sequence rest
  end.

(** The body of the minimal response (line 286). *)
Definition minimal_report (c : Scope) (level : string) : Json :=
  JObj [("message", JStr ("최소 최적화 완료 (레벨: " ++ level ++ ")"));
        ("optimizedPath", JStr (outputPath c));
        ("dracoEnabled", JBool false);
        ("optimizationLevel", JStr level);
        ("note", JStr "일부 최적화 단계에서 에러가 발생하여 최소 최적화만 적용되었습니다.")].

(** The [catch (transformError)] clause: mark the level, then try again from
    the stored input with dedup and prune only. *)
Definition minimal_fallback (E : Env) (c : Scope) : M unit :=
  let* document2 := NodeIO_read (lib_again E) (inputPath c) in
  let* document2' := transform_all (lib_again E) [dedup; prune] document2 in
  NodeIO_write (lib_again E) Second (outputPath c) document2';;
  modify (set_level "minimal");;
  console console_log "✅ 최소 최적화 완료" NoArg;;
  let* level := gets optimizationLevel in
  return_ (NextResponse_json (minimal_report c level) None).

Definition on_transform_error (E : Env) (c : Scope) (transformError : Thrown) : M unit :=
  console console_error "❌ Transform 에러:" (ArgThrown transformError);;
  modify (set_level "error");;
  try_catch
    (minimal_fallback E c)
    (fun fallbackError =>
       console console_error "❌ 최소 최적화도 실패:" (ArgThrown fallbackError)).

(** Lines 138 to 296: the level variable and the big [try]/[catch]. *)
Definition optimize (E : Env) (c : Scope) : M unit :=
  modify (set_level "none");;
  try_catch (sequence (stages E c)) (on_transform_error E c).

(** JavaScript numbers are IEEE-754 binary64 values: 53 bits of mantissa,
    rounding to nearest, ties to even. *)
Definition double : Type := spec_float.

(** A file size as a number (exact below [2^53]). *)
Definition double_of_Z (z : Z) : double := binary_normalize 53 1024 z 0 false.

Definition double_sub : double -> double -> double := SFsub 53 1024.
Definition double_div : double -> double -> double := SFdiv 53 1024.
Definition double_mul : double -> double -> double := SFmul 53 1024.

(** The rational a finite double stands for; [NaN] and the infinities stand
    for none. *)
Definition double_value (x : double) : option Q :=
  match x with
  | S754_zero _ => Some 0%Q
  | S754_finite s m e =>
      let m' := if s then Z.neg m else Z.pos m in
      Some match e with
           | Z0 => inject_Z m'
           | Z.pos p => inject_Z (m' * 2 ^ Z.pos p)
           | Z.neg p => Qred (Qmake m' (2 ^ p)%positive)
           end
  | S754_infinity _ | S754_nan => None
  end.

(** [((originalSize - finalSize) / originalSize) * 100] as JSON: the three
    operations in binary64, each rounded; the number written is the value
    of the resulting double.  With [originalSize = 0] the result is [NaN]
    or an infinity, which [JSON.stringify] writes as [null]. *)
Definition reduction_json (original final : Z) : Json :=
  let originalSize := double_of_Z original in
  let finalSize := double_of_Z final in
  match double_value
          (double_mul (double_div (double_sub originalSize finalSize) originalSize)
                      (double_of_Z 100)) with
  | Some q => JNum q
  | None => JNull
  end.

Definition applied_json (level : string) : Json :=
  JObj [("dedup", JBool (negb (String.eqb level "none")));
        ("prune", JBool (includes ["intermediate"; "advanced"; "draco"; "draco-simple";
                                   "minimal"; "welded"; "pre-quantized"] level));
        ("resample", JBool (includes ["advanced"; "draco"; "draco-simple"] level));
        ("simplify", JBool (includes ["welded"; "pre-quantized"] level));
        ("draco", JBool (includes ["draco"; "draco-simple"] level))].

Definition note_text (level : string) : string :=
  if String.eqb level "welded" then
    "Simplify 대신 Weld 기반 메시 최적화가 적용되었습니다."
  else if String.eqb level "pre-quantized" then
    "Simplify 대신 Pre-quantization 메시 최적화가 적용되었습니다."
  else "Simplify는 라이브러리 버전 호환성 문제로 인해 일시적으로 비활성화되었습니다.".

(** The body of the full response (line 316). *)
Definition full_report (c : Scope) (level : string) (finalSize : Z) : Json :=
  JObj [("message", JStr ("최적화 완료 (레벨: " ++ level ++ ")"));
        ("optimizedModelUrl", JStr ("/api/download?fileId=" ++ fileId c));
        ("dracoEnabled", JBool (includes ["draco"; "draco-simple"] level));
        ("optimizationLevel", JStr level);
        ("fileSize", JObj [("original", JInt (originalSize c));
                           ("optimized", JInt finalSize);
                           ("reduction", reduction_json (originalSize c) finalSize);
                           ("savedBytes", JInt (originalSize c - finalSize))]);
        ("applied", applied_json level);
        ("note", JStr (note_text level))].

(** Lines 298 to 350: encode the request's document, measure, report. *)
Definition encode_and_report (E : Env) (c : Scope) : M unit :=
  let* d := gets document in
  NodeIO_write (lib E) Main (outputPath c) d;;
  let* finalSize := stat_size (outputPath c) in
  console console_log "📊 === 최적화 완료 요약 ===" NoArg;;
  console console_log "📁 원본 크기" (ArgNum (originalSize c));;
  console console_log "📁 최종 크기" (ArgNum finalSize);;
  console console_log "📈 전체 압축률" (ArgNum (originalSize c - finalSize));;
  let* level := gets optimizationLevel in
  console console_log "🏆 최적화 레벨" (ArgText level);;
  console console_log "========================" NoArg;;
  return_ (NextResponse_json (full_report c level finalSize) None).

(** Lines 112 to 133: the Draco modules and their registration. *)
Definition prepare_draco (E : Env) : M bool :=
  let* modules := initializeDraco E in
  let use := match modules with (Some _, Some _) => true | _ => false end in
  (if use then
     try_catch
       (emit (CallRegisterDependencies (succeeded (registerDependencies E)));;
        raise_if (registerDependencies E);;
        console console_log "Draco 의존성 등록 성공" NoArg)
       (fun depError => console console_warn "Draco 의존성 등록 실패:" (ArgThrown depError))
   else ret tt);;
  ret use.

(** Lines 73 to 135: store the upload, measure it, set up the I/O, decode. *)
Definition receive (E : Env) (file : File) : M Scope :=
  let* buffer := await (file_arrayBuffer file) in
  let fileId := uuidv4 E in
  let fileName := if String.eqb (file_name file) "" then "model.glb" else file_name file in
  let tempDir := os_tmpdir E in
  let inputPath := path_join E tempDir (fileId ++ "-" ++ fileName) in
  let outputPath := path_join E tempDir (fileId ++ "-optimized.glb") in
  fs_writeFile E inputPath buffer;;
  let* originalSize := stat_size inputPath in
  console console_log "📁 원본 파일 크기" (ArgNum originalSize);;
  let* useDraco := prepare_draco E in
  let* document := NodeIO_read (lib E) inputPath in
  modify (set_document document);;
  ret {| fileId := fileId; tempDir := tempDir; inputPath := inputPath;
         outputPath := outputPath; originalSize := originalSize; useDraco := useDraco |}.

(** The outer [catch (error)] clause: a 500 answer. *)
Definition on_error (error : Thrown) : M unit :=
  let errorMessage :=
    match error with
    | ErrorObject m _ => m
    | OtherValue _ => "최적화 중 오류가 발생했습니다."
    end in
  let details :=
    match error with
    | ErrorObject _ (Some st) => [("details", JStr st)]
    | _ => []
    end in
  console console_error "파일 저장 에러:" (ArgThrown error);;
  return_ (NextResponse_json (JObj (("error", JStr errorMessage) :: details)) (Some 500)).

(** A [TypeError] raised by the runtime: an [Error] object, with its stack. *)
Definition TypeError (E : Env) (message : string) : Thrown :=
  ErrorObject message (Some (error_stack E message)).

(** The body of [POST], inside its outer [try]. *)
Definition handle (E : Env) : M unit :=
  let* formData := await (req_formData E) in
  match formData_get "file" formData with
  | None =>
      return_ (NextResponse_json (JObj [("error", JStr "파일이 없습니다.")]) (Some 400))
  | Some (FormText "") =>
      return_ (NextResponse_json (JObj [("error", JStr "파일이 없습니다.")]) (Some 400))
  | Some (FormText _) =>
      throw (TypeError E "file.arrayBuffer is not a function")
  | Some (FormFile file) =>
      let* c := receive E file in
      optimize E c;;
      encode_and_report E c
  end.

Definition empty_document : Document :=
  {| listAnimations := []; listTextures := []; scene := [] |}.

(** The state a request starts in: the files already on disk and the module
    variables as earlier requests left them.  [document] and
    [optimizationLevel] are not yet declared; they are written before they
    are read. *)
Definition initial_state (files : gmap string (list Byte.byte)) (g : Globals) : State :=
  {| fs := files; globals := g;
     document := empty_document; optimizationLevel := "" |}.

(** [POST(req)]: the response, if the function returns one, the final state
    and the events of the request. *)
Definition POST (E : Env) (files : gmap string (list Byte.byte)) (g : Globals)
  : option Response * State * list Event :=
  match try_catch (handle E) on_error (initial_state files g) with
  | (Return r, s, evs) => (Some r, s, evs)
  | (_, s, evs) => (None, s, evs)
  end.

(** ** Reading the events of a request *)

Definition option_Z_eqb (a b : option Z) : bool :=
  match a, b with
  | Some x, Some y => x =? y
  | None, None => true
  | _, _ => false
  end.

Definition DracoOptions_eqb (a b : DracoOptions) : bool :=
  option_Z_eqb (quantizePosition a) (quantizePosition b)
  && option_Z_eqb (quantizeNormal a) (quantizeNormal b)
  && option_Z_eqb (quantizeTexcoord a) (quantizeTexcoord b).

(** The transforms the handler attempts on the request's document, in the
    order of the source; the texture loop counts as one. *)
Inductive Pass : Type :=
| PDedup | PPrune | PResample | PTexture | PWeld | PQuantize | PDraco | PDracoSimple.

Definition all_passes : list Pass :=
  [PDedup; PPrune; PResample; PTexture; PWeld; PQuantize; PDraco; PDracoSimple].

(** The numbered stage (1단계 to 6단계) a pass belongs to. *)
Definition stage_of (p : Pass) : nat :=
  match p with
  | PDedup => 1
  | PPrune => 2
  | PResample => 3
  | PTexture => 4
  | PWeld | PQuantize => 5
  | PDraco | PDracoSimple => 6
  end%nat.

(** The pass a transform call on the request's document belongs to. *)
Definition pass_of_transform (t : Transform) : Pass :=
  match t with
  | dedup => PDedup
  | prune => PPrune
  | resample => PResample
  | weld _ => PWeld
  | draco o =>
      if DracoOptions_eqb o draco_prequantize then PQuantize
      else if DracoOptions_eqb o draco_simple then PDracoSimple
      else PDraco
  end.

Definition Pass_eqb (p q : Pass) : bool :=
  match p, q with
  | PDedup, PDedup | PPrune, PPrune | PResample, PResample | PTexture, PTexture
  | PWeld, PWeld | PQuantize, PQuantize | PDraco, PDraco | PDracoSimple, PDracoSimple => true
  | _, _ => false
  end.

(** A call of pass [p] on the request's document, with outcome [ok]. *)
Definition call_of (p : Pass) (ok : bool) (ev : Event) : bool :=
  match ev with
  | CallTransform Main t ok' => Pass_eqb (pass_of_transform t) p && Bool.eqb ok ok'
  | CallCompressTexture _ ok' => Pass_eqb PTexture p && Bool.eqb ok ok'
  | CallImportWeld false => Pass_eqb PWeld p && negb ok
  | _ => false
  end.

Definition failed_call (p : Pass) (ev : Event) : bool := call_of p false ev.

(** The console line the handler writes when pass [p] has thrown. *)
Definition failure_message (p : Pass) : LogLevel * string :=
  match p with
  | PDedup | PPrune => (console_error, "❌ Transform 에러:")
  | PResample => (console_warn, "⚠️ Resample 실패:")
  | PTexture => (console_warn, "⚠️ 텍스처 압축 실패:")
  | PWeld => (console_warn, "⚠️ Weld 사용 불가, quantization으로 대체")
  | PQuantize => (console_warn, "⚠️ Pre-quantization 실패:")
  | PDraco => (console_warn, "⚠️ Draco 압축 실패:")
  | PDracoSimple => (console_warn, "⚠️ Draco 재시도도 실패:")
  end.

Definition LogLevel_eqb (a b : LogLevel) : bool :=
  match a, b with
  | console_log, console_log | console_warn, console_warn | console_error, console_error => true
  | _, _ => false
  end.

Definition failure_report (p : Pass) (ev : Event) : bool :=
  match ev with
  | Console lvl msg _ =>
      LogLevel_eqb lvl (fst (failure_message p)) && String.eqb msg (snd (failure_message p))
  | _ => false
  end.

(** The first thing stage [n] does that leaves an event: the transform call
    of stages 1 and 2, the list queries of stages 3 and 4, the import of
    stage 5, and for stage 6 the first Draco call or the line that says the
    modules are missing. *)
Definition stage_entered (n : nat) (ev : Event) : bool :=
  match n, ev with
  | 1%nat, CallTransform Main dedup _ => true
  | 2%nat, CallTransform Main prune _ => true
  | 3%nat, CallListAnimations _ => true
  | 4%nat, CallListTextures _ => true
  | 5%nat, CallImportWeld _ => true
  | 6%nat, CallTransform Main (draco o) _ => DracoOptions_eqb o draco_default
  | 6%nat, Console console_log msg NoArg => String.eqb msg "ℹ️ Draco 모듈 없음, 건너뜀"
  | _, _ => false
  end.

(** A pass executed on some document: a transform or a texture recompression. *)
Definition pass_event (ev : Event) : bool :=
  match ev with
  | CallTransform _ _ _ | CallCompressTexture _ _ => true
  | _ => false
  end.

(** An event of the pipeline proper, as opposed to the request's set-up. *)
Definition pipeline_event (ev : Event) : bool :=
  match ev with
  | CallTransform _ _ _ | CallCompressTexture _ _ | CallImportWeld _
  | CallListAnimations _ | CallListTextures _ => true
  | _ => false
  end.

(** Every failed call of [p] in the list has its report further on. *)
Fixpoint reported (p : Pass) (evs : list Event) : bool :=
  match evs with
  | [] => true
  | ev :: rest =>
      (if failed_call p ev then existsb (failure_report p) rest else true)
      && reported p rest
  end.

(** The final write: an [io.write] of the request's document that throws
    into the outer [catch]. *)
Definition final_write_failed (evs : list Event) : Prop :=
  exists pre path e,
    evs = (pre ++ [CallWrite Main path false;
                   Console console_error "파일 저장 에러:" (ArgThrown e)])%list.

(** ** The optimization level as a measure of progress *)

(** The position of a level in the order of the stages. *)
Definition rank (level : string) : nat :=
  if String.eqb level "basic" then 1
  else if String.eqb level "intermediate" then 2
  else if String.eqb level "advanced" then 3
  else if String.eqb level "texture-compressed" then 4
  else if String.eqb level "welded" then 5
  else if String.eqb level "pre-quantized" then 5
  else if String.eqb level "draco" then 6
  else if String.eqb level "draco-simple" then 6
  else 0.

Definition level_of_pass (p : Pass) : string :=
  match p with
  | PDedup => "basic"
  | PPrune => "intermediate"
  | PResample => "advanced"
  | PTexture => "texture-compressed"
  | PWeld => "welded"
  | PQuantize => "pre-quantized"
  | PDraco => "draco"
  | PDracoSimple => "draco-simple"
  end.

(** The stage an event completes, if any.  A transform completes its stage
    when it returns; the texture stage is complete when the last of the
    [textures] listed has been recompressed. *)
Definition completes (textures : nat) (ev : Event) : option Pass :=
  match ev with
  | CallTransform Main t true => Some (pass_of_transform t)
  | CallCompressTexture i true => if (S i =? textures)%nat then Some PTexture else None
  | _ => None
  end.

(** One event of progress: the number of textures last listed and the
    highest level reached. *)
Definition progress_step (st : nat * string) (ev : Event) : nat * string :=
  let textures := match ev with CallListTextures n => n | _ => fst st end in
  match completes textures ev with
  | Some p =>
      (textures, if (rank (snd st) <=? rank (level_of_pass p))%nat
                 then level_of_pass p else snd st)
  | None => (textures, snd st)
  end.

(** The highest stage the events show as successfully reached. *)
Definition highest_reached (evs : list Event) : string :=
  snd (fold_left progress_step evs (0%nat, "none")).

(** Two states that differ at most in the optimization level. *)
Definition same_but_level (s1 s2 : State) : Prop :=
  fs s1 = fs s2 /\ globals s1 = globals s2 /\ document s1 = document s2.

(** ** The texture loop, read as a function *)

(** The index of the first texture whose recompression throws. *)
Fixpoint first_failure (L : Library) (textures : list Texture) : option nat :=
  match textures with
  | [] => None
  | t :: rest =>
      match snd (compressTexture L webp_1024 t) with
      | Some _ => Some 0%nat
      | None => option_map S (first_failure L rest)
      end
  end.

(** The dedup and prune calls of stages 1 and 2 on a document: the document
    they leave and what was thrown, if anything. *)
Definition early_passes (L : Library) (d : Document) : Document * option Thrown :=
  let '(d1, r1) := lib_transform L dedup d in
  match r1 with
  | Some e => (d1, Some e)
  | None => lib_transform L prune d1
  end.

(** The transform and recompression calls among the events, in order. *)
Definition pass_calls (evs : list Event) : list Event := List.filter pass_event evs.

Definition resolved {A} (p : Promise A) : bool :=
  match p with Resolved _ => true | Rejected _ => false end.

(** Both Draco modules can be had: they are cached from an earlier request,
    or both can be created now. *)
Definition modules_available (E : Env) (g : Globals) : bool :=
  if dracoInitialized g
  then bool_decide (is_Some (decoderModule g)) && bool_decide (is_Some (encoderModule g))
  else resolved (createDecoderModule E) && resolved (createEncoderModule E).

Definition set_useDraco (b : bool) (c : Scope) : Scope :=
  {| fileId := fileId c; tempDir := tempDir c; inputPath := inputPath c;
     outputPath := outputPath c; originalSize := originalSize c; useDraco := b |}.

(** The loop of stage 4 as a function of the textures listed ([todo]) and
    the textures of the document ([current]): the textures it leaves, what
    it threw, and the calls it made. *)
Fixpoint texture_loop (L : Library) (index : nat) (todo current : list Texture)
  : list Texture * option Thrown * list Event :=
  match todo with
  | [] => (current, None, [])
  | t :: rest =>
      let '(t', r) := compressTexture L webp_1024 t in
      let current' := <[index := t']> current in
      match r with
      | Some e => (current', Some e, [CallCompressTexture index false])
      | None =>
          let '(final, r', evs) := texture_loop L (S index) rest current' in
          (final, r', CallCompressTexture index true :: evs)
      end
  end.

(** Two states that differ at most in the textures of the document. *)
Definition same_but_textures (s1 s2 : State) : Prop :=
  fs s1 = fs s2 /\ globals s1 = globals s2
  /\ optimizationLevel s1 = optimizationLevel s2
  /\ listAnimations (document s1) = listAnimations (document s2)
  /\ scene (document s1) = scene (document s2).

(** ** Segments of the event list *)

Definition stage_numbers : list nat := [1; 2; 3; 4; 5; 6]%nat.

(** Stages after the one of pass [p]. *)
Definition later_stages (p : Pass) : list nat :=
  List.filter (fun n => (stage_of p <? n)%nat) stage_numbers.

(** An event that is neither a call on the request's document nor the
    entry of a stage: console lines, file traffic, calls on [document2]. *)
Definition aside (ev : Event) : bool :=
  match ev with
  | CallTransform Main _ _ | CallCompressTexture _ _ | CallImportWeld _
  | CallListAnimations _ | CallListTextures _ => false
  | Console console_log msg NoArg => negb (String.eqb msg "ℹ️ Draco 모듈 없음, 건너뜀")
  | _ => true
  end.

(** No call in the list belongs to a pass of another stage than [k]. *)
Definition calls_within (k : nat) (evs : list Event) : bool :=
  forallb (fun ev =>
             forallb (fun p => implb (call_of p false ev || call_of p true ev)
                                     (stage_of p =? k)%nat) all_passes) evs.

(** No event in the list is the entry of another stage than [k]. *)
Definition entries_within (k : nat) (evs : list Event) : bool :=
  forallb (fun ev =>
             forallb (fun n => implb (stage_entered n ev) (n =? k)%nat) stage_numbers) evs.

(** What the events of stage [k] look like in every run: only calls of the
    stage's own passes, every failure reported, the stage entered and no
    other. *)
Definition segment (k : nat) (evs : list Event) : bool :=
  calls_within k evs
  && forallb (fun p => reported p evs) all_passes
  && existsb (stage_entered k) evs
  && entries_within k evs.

(** After a failed call of [p]: the report, and every later stage entered
    (if the failure is one the pipeline recovers from) or none of them. *)
Definition recovers (p : Pass) : bool := (3 <=? stage_of p)%nat.

Definition continues_after (p : Pass) (post : list Event) : bool :=
  existsb (failure_report p) post
  && forallb (fun n => Bool.eqb (recovers p) (existsb (stage_entered n) post))
             (later_stages p).

(** Every failed call of [p] in the list is followed as [continues_after]
    says. *)
Fixpoint contained (p : Pass) (evs : list Event) : bool :=
  match evs with
  | [] => true
  | ev :: post =>
      (if failed_call p ev then continues_after p post else true) && contained p post
  end.

(** What holds of a stage that cannot fail the request: from every state it
    completes normally, its events form a segment, and its effect on the
    level is the progress its events show. *)
Definition stage_summary (k : nat) (m : M unit) : Prop :=
  forall s, exists s' evs,
    m s = (Normal tt, s', evs)
    /\ segment k evs = true
    /\ forall n, (rank (optimizationLevel s) < k)%nat ->
         exists n',
           fold_left progress_step evs (n, optimizationLevel s)
             = (n', optimizationLevel s')
           /\ (rank (optimizationLevel s') <= k)%nat.

(** What holds of stages 1 and 2, whose transform is not guarded: when the
    transform throws the stage throws the same value with that call as its
    only event, and otherwise the stage behaves as [stage_summary] says. *)
Definition early_summary (E : Env) (k : nat) (t : Transform) (m : M unit) : Prop :=
  forall s,
    match lib_transform (lib E) t (document s) with
    | (d', Some e) =>
        m s = (Throw e, set_document d' s, [CallTransform Main t false])
    | (d', None) =>
        exists s' evs,
          m s = (Normal tt, s', evs)
          /\ document s' = d'
          /\ segment k evs = true
          /\ (forall p, existsb (failed_call p) evs = false)
          /\ forall n, (rank (optimizationLevel s) < k)%nat ->
               exists n',
                 fold_left progress_step evs (n, optimizationLevel s)
                   = (n', optimizationLevel s')
                 /\ (rank (optimizationLevel s') <= k)%nat
    end.

(** An event of the request's set-up or of its reporting: no transform, no
    recompression, no encoding. *)
Definition setup_event (ev : Event) : bool :=
  aside ev && match ev with
              | CallTransform _ _ _ | CallWrite _ _ _ => false
              | _ => true
              end.

(** The handler from line 138 on, under the outer [catch]: what happens to
    a request once its file is stored and decoded. *)
Definition pipeline (E : Env) (c : Scope) : M unit :=
  try_catch (optimize E c;; encode_and_report E c) on_error.

(** The answer a completion stands for. *)
Definition answer_of {A} (res : Completion A) : option Response :=
  match res with
  | Return r => Some r
  | _ => None
  end.

(** How a request that has come through [optimize] in state [s] ends: the
    full report when the final [io.write] resolves, a 500 answer from the
    outer [catch] when it rejects. *)
Definition finishes (E : Env) (c : Scope) (s : State)
    (res : Completion unit) (s' : State) (tail : list Event) : Prop :=
  match io_write (lib E) (outputPath c) (document s) with
  | Resolved bytes =>
      res = Return (NextResponse_json
                      (full_report c (optimizationLevel s) (Z.of_nat (length bytes))) None)
      /\ s' = set_fs (<[outputPath c := bytes]> (fs s)) s
      /\ exists R, tail = CallWrite Main (outputPath c) true :: R
                   /\ forallb setup_event R = true
  | Rejected e =>
      (exists r, res = Return r /\ status r = 500)
      /\ s' = s
      /\ tail = [CallWrite Main (outputPath c) false;
                 Console console_error "파일 저장 에러:" (ArgThrown e)]
  end.

(** ** Isolation of failures *)



(** The parts of what [POST] gives back. *)
Definition answer (x : option Response * State * list Event) : option Response := fst (fst x).
Definition final_state (x : option Response * State * list Event) : State := snd (fst x).
Definition events (x : option Response * State * list Event) : list Event := snd x.

(** ** The texture stage *)

(** What the library would make of one texture. *)
Definition recompressed (L : Library) (t : Texture) : Texture :=
  fst (compressTexture L webp_1024 t).

Definition recompression_fails (L : Library) (t : Texture) : bool :=
  negb (succeeded (snd (compressTexture L webp_1024 t))).

(** Textures are processed independently, as the specification has it: in a
    document with two textures or more, every texture whose recompression
    succeeds ends up recompressed, and every other keeps its bytes. *)
Definition textures_independent (L : Library) (before after : list Texture) : Prop :=
  (2 <= length before)%nat ->
  forall i t, before !! i = Some t ->
    after !! i = Some (if recompression_fails L t then t else recompressed L t).

(** ** The upload *)

(** [inputPath] of line 79, where the upload is stored and read back. *)
Definition upload_path (E : Env) (file : File) : string :=
  path_join E (os_tmpdir E)
    (uuidv4 E ++ "-" ++ (if String.eqb (file_name file) "" then "model.glb" else file_name file)).

(** ** The mesh stage *)

(** What becomes of the attempt to weld: nothing is called when [weld]
    cannot be had, otherwise the transform runs with the tolerance of the
    source. *)
Definition weld_outcome (L : Library) (d : Document) : Document * option Thrown :=
  match import_weld L with
  | Some e => (d, Some e)
  | None => lib_transform L (weld weld_tolerance) d
  end.

(** The width of a float32 component, which is how glTF stores positions,
    normals and texture coordinates before any quantization. *)
Definition float32_bits : Z := 32.

(** ** Resampling *)

(** Pass [p] was called on the request's document, whatever came of it. *)
Definition call_made (p : Pass) (evs : list Event) : bool :=
  existsb (fun ev => call_of p true ev || call_of p false ev) evs.

(** Resampling follows the animations of the decoded document [d], as the
    specification has it: resample is called exactly when [d] has an
    animation, and when it has none dedup and prune are called all the
    same. *)
Definition resample_follows_animations (d : Document) (evs : list Event) : Prop :=
  (call_made PResample evs = true <-> listAnimations d <> [])
  /\ (listAnimations d = [] -> call_made PDedup evs = true /\ call_made PPrune evs = true).

(** ** The level is written, not read *)

(** A computation that does not look at the optimization level: started in
    two states that differ at most there, it completes the same way, with
    the same events, in states that again differ at most there. *)
Definition level_blind {A} (m : M A) : Prop :=
  forall s1 s2, same_but_level s1 s2 ->
    let '(c1, t1, evs1) := m s1 in
    let '(c2, t2, evs2) := m s2 in
    c1 = c2 /\ evs1 = evs2 /\ same_but_level t1 t2.

(** The level follows the progress of the request, as the specification has
    it: when the request ends, the level is the highest stage its events
    show as successfully reached. *)
Definition level_tracks_progress (x : option Response * State * list Event) : Prop :=
  optimizationLevel (final_state x) = highest_reached (events x).

(** What [stage_summary] and [early_summary] have in common: the stage does
    not [return], and when it completes normally its effect on the level is
    the progress its events show. *)
Definition stage_progress (k : nat) (m : M unit) : Prop :=
  forall s, exists res s' evs,
    m s = (res, s', evs)
    /\ (forall r, res <> Return r)
    /\ (res = Normal tt ->
        forall n, (rank (optimizationLevel s) < k)%nat ->
          exists n',
            fold_left progress_step evs (n, optimizationLevel s)
              = (n', optimizationLevel s')
            /\ (rank (optimizationLevel s') <= k)%nat).

(** ** The report *)

(** An entry of the [applied] object of a response. *)
Definition applied_entry (name : string) (r : Response) : option Json :=
  match json_get "applied" (body r) with
  | Some a => json_get name a
  | None => None
  end.

(** The report matches the run, as the specification has it: the response
    has a level and a [fileSize], and each entry of its map of stages is true
    exactly when the stage's pass was run on the request's document. *)
Definition report_matches_run (r : Response) (evs : list Event) : Prop :=
  (exists lv, json_get "optimizationLevel" (body r) = Some (JStr lv))
  /\ (exists sizes, json_get "fileSize" (body r) = Some sizes)
  /\ applied_entry "dedup" r = Some (JBool (call_made PDedup evs))
  /\ applied_entry "prune" r = Some (JBool (call_made PPrune evs))
  /\ applied_entry "resample" r = Some (JBool (call_made PResample evs))
  /\ applied_entry "simplify" r
     = Some (JBool (call_made PWeld evs || call_made PQuantize evs))
  /\ applied_entry "draco" r
     = Some (JBool (call_made PDraco evs || call_made PDracoSimple evs)).

(** A Draco attempt of stage 6 that succeeded. *)
Definition draco_succeeded (ev : Event) : bool :=
  call_of PDraco true ev || call_of PDracoSimple true ev.

(** [outputPath] of line 80, where the optimized document is written. *)
Definition output_path (E : Env) : string :=
  path_join E (os_tmpdir E) (uuidv4 E ++ "-optimized.glb").

(** The [fileSize] object of the full report for an upload of [uploaded]
    bytes and an output of [encoded] bytes. *)
Definition fileSize_json (uploaded encoded : Z) : Json :=
  JObj [("original", JInt uploaded);
        ("optimized", JInt encoded);
        ("reduction", reduction_json uploaded encoded);
        ("savedBytes", JInt (uploaded - encoded))].

(** ** The last-resort branch fails too *)

(** The request is answered with status 200 and level "error", as the
    specification has it whenever an early pass throws and the last-resort
    branch fails as well. *)
Definition answered_with_error_level (x : option Response * State * list Event) : Prop :=
  exists r, answer x = Some r
            /\ status r = 200
            /\ json_get "optimizationLevel" (body r) = Some (JStr "error").

(** The line the handler logs when the last-resort branch has failed. *)
Definition fallback_failed (ev : Event) : bool :=
  match ev with
  | Console console_error msg (ArgThrown _) => String.eqb msg "❌ 최소 최적화도 실패:"
  | _ => false
  end.

(** ** The last-resort branch *)

(** What the [catch (transformError)] clause makes of the files it finds:
    the bytes it writes to the output path when every step of its [try]
    succeeds (the input read again, [dedup], [prune], [io.write]), and
    nothing when one of them throws. *)
Definition last_resort_output (E : Env) (c : Scope) (files : gmap string (list Byte.byte))
  : option (list Byte.byte) :=
  match files !! inputPath c with
  | None => None
  | Some stored =>
      match io_read (lib_again E) (inputPath c) stored with
      | Rejected _ => None
      | Resolved document2 =>
          match lib_transform (lib_again E) dedup document2 with
          | (_, Some _) => None
          | (d1, None) =>
              match lib_transform (lib_again E) prune d1 with
              | (_, Some _) => None
              | (d2, None) =>
                  match io_write (lib_again E) (outputPath c) d2 with
                  | Resolved out => Some out
                  | Rejected _ => None
                  end
              end
          end
      end
  end.

(** A read of a file, or a call on the second document. *)
Definition second_document_event (ev : Event) : bool :=
  match ev with
  | CallRead _ _ | CallTransform Second _ _ | CallWrite Second _ _ => true
  | _ => false
  end.

(** The calls of a run of the last-resort branch: the input is read again;
    [dedup], [prune] and the write of the output follow, each only when the
    call before it succeeded; there is no other call. *)
Definition last_resort_run (input output : string) (calls : list Event) : Prop :=
  calls = [CallRead input false]
  \/ calls = [CallRead input true; CallTransform Second dedup false]
  \/ calls = [CallRead input true; CallTransform Second dedup true;
              CallTransform Second prune false]
  \/ exists ok,
       calls = [CallRead input true; CallTransform Second dedup true;
                CallTransform Second prune true; CallWrite Second output ok].


(** ** Sample requests

    Concrete environments on which the theorems below are instantiated. *)

Definition glb_bytes : list Byte.byte :=
  [Byte.x67; Byte.x6c; Byte.x54; Byte.x46; Byte.x02; Byte.x00; Byte.x00; Byte.x00].

Definition png_texture (b : Byte.byte) : Texture :=
  {| mimeType := "image/png"; image := [Byte.x89; Byte.x50; Byte.x4e; Byte.x47; b; b] |}.

Definition webp_texture (b : Byte.byte) : Texture :=
  {| mimeType := "image/webp"; image := [Byte.x52; b] |}.

Definition walk : Animation := {| animation_name := "walk"; keyframes := 24 |}.

(** One animation, two PNG textures. *)
Definition sample_document : Document :=
  {| listAnimations := [walk];
     listTextures := [png_texture Byte.x01; png_texture Byte.x02];
     scene := [Byte.x10; Byte.x20; Byte.x30; Byte.x40] |}.

(** No animation, no texture. *)
Definition bare_document : Document :=
  {| listAnimations := []; listTextures := []; scene := [Byte.x10; Byte.x20] |}.

(** An encoder whose output is the scene bytes and one byte per texture. *)
Definition sample_encode (d : Document) : list Byte.byte :=
  scene d ++ map (fun _ => Byte.xff) (listTextures d).

(** A recompression that answers WebP for every texture. *)
Definition sample_compress (t : Texture) : Texture * option Thrown :=
  match image t with
  | _ :: _ :: _ :: _ :: b :: _ => (webp_texture b, None)
  | _ => (t, None)
  end.

Definition boom (what : string) : Thrown := ErrorObject what (Some ("Error: " ++ what)).

(** A library in which every call succeeds and decoding gives [d]. *)
Definition good_library (d : Document) : Library :=
  {| io_read := fun _ _ => Resolved d;
     io_write := fun _ doc => Resolved (sample_encode doc);
     lib_transform := fun _ doc => (doc, None);
     compressTexture := fun _ t => sample_compress t;
     import_weld := None |}.

(** The same library, except that the transforms selected by [fails] throw
    and leave the document as it was. *)
Definition failing_library (d : Document) (fails : Transform -> bool) : Library :=
  {| io_read := fun _ _ => Resolved d;
     io_write := fun _ doc => Resolved (sample_encode doc);
     lib_transform := fun t doc => (doc, if fails t then Some (boom "transform failed") else None);
     compressTexture := fun _ t => sample_compress t;
     import_weld := None |}.

Definition upload (name : string) : FormData :=
  [("file", FormFile {| file_name := name; file_arrayBuffer := Resolved glb_bytes |})].

Definition sample_env (fd : FormData) (L L2 : Library) : Env :=
  {| req_formData := Resolved fd;
     uuidv4 := "5f1c";
     os_tmpdir := "/tmp";
     path_join := fun a b => a ++ "/" ++ b;
     writeFile := fun _ _ => None;
     createDecoderModule := Resolved DecoderModule;
     createEncoderModule := Resolved EncoderModule;
     registerDependencies := None;
     lib := L;
     lib_again := L2;
     error_stack := fun message => "TypeError: " ++ message ++ " at POST (route.ts)" |}.

Definition fresh_globals : Globals :=
  {| decoderModule := None; encoderModule := None; dracoInitialized := false |}.

Definition is_prune (t : Transform) : bool :=
  match t with prune => true | _ => false end.

Definition is_dedup (t : Transform) : bool :=
  match t with dedup => true | _ => false end.

Definition is_resample (t : Transform) : bool :=
  match t with resample => true | _ => false end.

(** Every call succeeds. *)
Definition env_all_good : Env :=
  sample_env (upload "robot.glb") (good_library sample_document) (good_library sample_document).

(** Only prune throws, the first time and again in the last-resort branch. *)
Definition env_prune_fails : Env :=
  sample_env (upload "robot.glb")
    (failing_library sample_document is_prune) (failing_library sample_document is_prune).

(** The recompression of the first sample texture throws and leaves it
    alone; every other texture would recompress. *)
Definition first_texture_fails (t : Texture) : Texture * option Thrown :=
  match image t with
  | _ :: _ :: _ :: _ :: Byte.x01 :: _ => (t, Some (boom "unsupported image"))
  | _ => sample_compress t
  end.

Definition library_first_texture_fails : Library :=
  {| io_read := fun _ _ => Resolved sample_document;
     io_write := fun _ doc => Resolved (sample_encode doc);
     lib_transform := fun _ doc => (doc, None);
     compressTexture := fun _ t => first_texture_fails t;
     import_weld := None |}.

Definition env_first_texture_fails : Env :=
  sample_env (upload "robot.glb") library_first_texture_fails library_first_texture_fails.

Definition sample_scope : Scope :=
  {| fileId := "5f1c"; tempDir := "/tmp"; inputPath := "/tmp/5f1c-robot.glb";
     outputPath := "/tmp/5f1c-optimized.glb"; originalSize := 8; useDraco := true |}.

(** The state of a request whose document is [d], right after prune. *)
Definition state_with (d : Document) : State :=
  {| fs := ∅; globals := fresh_globals; document := d; optimizationLevel := "intermediate" |}.

(** A form that has a field, but not one called "file". *)
Definition env_no_file : Env :=
  sample_env [("model", FormFile {| file_name := "robot.glb";
                                    file_arrayBuffer := Resolved glb_bytes |})]
    (good_library sample_document) (good_library sample_document).

(** A library that cannot decode the upload. *)
Definition library_cannot_decode : Library :=
  {| io_read := fun _ _ => Rejected (boom "Invalid glTF: bad magic");
     io_write := fun _ doc => Resolved (sample_encode doc);
     lib_transform := fun _ doc => (doc, None);
     compressTexture := fun _ t => sample_compress t;
     import_weld := None |}.

Definition sample_file : File :=
  {| file_name := "robot.glb"; file_arrayBuffer := Resolved glb_bytes |}.

Definition env_corrupt_upload : Env :=
  sample_env [("file", FormFile sample_file)] library_cannot_decode library_cannot_decode.

Definition is_weld (t : Transform) : bool :=
  match t with weld _ => true | _ => false end.

Definition is_draco_default (t : Transform) : bool :=
  match t with draco o => DracoOptions_eqb o draco_default | _ => false end.

(** Only weld throws. *)
Definition env_weld_fails : Env :=
  sample_env (upload "robot.glb")
    (failing_library sample_document is_weld) (good_library sample_document).

(** Only the first Draco attempt throws. *)
Definition env_draco_fails : Env :=
  sample_env (upload "robot.glb")
    (failing_library sample_document is_draco_default) (good_library sample_document).

(** The defaults of glTF-Transform's [draco()]: 14 bits for positions, 10
    for normals, 12 for texture coordinates. *)
Definition library_draco_defaults : DracoBits :=
  {| positionBits := 14; normalBits := 10; texcoordBits := 12 |}.

(** Every call succeeds, on a document without animations or textures. *)
Definition env_bare_good : Env :=
  sample_env (upload "robot.glb") (good_library bare_document) (good_library bare_document).

(** What [receive] makes of a sample request. *)
Definition received (E : Env) : Completion Scope * State * list Event :=
  receive E sample_file (initial_state ∅ fresh_globals).

Definition received_scope (E : Env) : Scope :=
  match fst (fst (received E)) with
  | Normal c => c
  | _ => sample_scope
  end.

(** The answer of a sample request. *)
Definition sample_answer (E : Env) : Response :=
  match answer (POST E ∅ fresh_globals) with
  | Some r => r
  | None => {| status := 0; body := JNull |}
  end.

(** Prune throws, and nothing can be written any more (a full disk): the
    scratch files, the output of the last-resort branch and the final
    output all fail. *)
Definition library_disk_full : Library :=
  {| io_read := fun _ _ => Resolved sample_document;
     io_write := fun _ _ => Rejected (boom "ENOSPC: no space left on device");
     lib_transform := fun t doc => (doc, if is_prune t then Some (boom "transform failed") else None);
     compressTexture := fun _ t => sample_compress t;
     import_weld := None |}.

Definition env_disk_full : Env :=
  sample_env (upload "robot.glb") library_disk_full library_disk_full.

(** * The rest of the code

    What follows embeds the code around the optimisation handler: the
    download handler that serves the optimized file, the page that submits
    the upload and shows the answer, and the handler that applies all
    transforms in one call. *)

(** ** The download handler: [GET /api/download?fileId=...] *)

Inductive Body : Type :=
| JsonBody (j : Json)
| FileBody (bytes : list Byte.byte).

Record Download := mkDownload {
  dl_status : Z;
  dl_headers : list (string * string);
  dl_body : Body
}.

(** [GET(req)]: [fileId] is [searchParams.get("fileId")].  The file is
    looked for where the optimisation handler writes its output;
    [fs.promises.access] is taken to succeed exactly when the file is
    there. *)
Definition GET (E : Env) (files : gmap string (list Byte.byte)) (fileId : option string)
  : Download :=
  match fileId with
  | None | Some "" =>
      {| dl_status := 400; dl_headers := [];
         dl_body := JsonBody (JObj [("error", JStr "fileId 쿼리 파라미터가 필요합니다.")]) |}
  | Some id =>
      let filePath := path_join E (os_tmpdir E) (id ++ "-optimized.glb") in
      match files !! filePath with
      | Some bytes =>
          {| dl_status := 200;
             dl_headers :=
               [("Content-Type", "model/gltf-binary");
                ("Content-Disposition",
                 "attachment; filename=" ++ String (Ascii.ascii_of_nat 34) ""
                   ++ id ++ "-optimized.glb" ++ String (Ascii.ascii_of_nat 34) "")];
             dl_body := FileBody bytes |}
      | None =>
          {| dl_status := 404; dl_headers := [];
             dl_body := JsonBody (JObj [("error", JStr "파일을 찾을 수 없습니다.")]) |}
      end
  end.

(** The request sent for a link: the [fileId] of a URL of the form
    [/api/download?fileId=<id>], as [searchParams.get] finds it when the id
    needs no escaping. *)
Definition fileId_of_url (url : string) : option string :=
  let prefix := "/api/download?fileId=" in
  if String.prefix prefix url
  then Some (String.substring (String.length prefix)
               (String.length url - String.length prefix) url)
  else None.

(** ** The page: [handleSubmit] *)

Module Page.

(** The state of the component that [handleSubmit] reads and writes.
    [optimizedModelUrl] holds whatever [data.optimizedModelUrl] was, or
    nothing when that was [undefined]. *)
Record State := mkState {
  selectedFile : option File;
  brand : string;
  url : string;
  message : string;
  optimizedModelUrl : option Json
}.

(** What [fetch] and [response.json()] come to: a rejection, or a response
    with its status and its body read as JSON ([None] when the body is not
    JSON and [response.json()] rejects). *)
Inductive Fetched : Type :=
| NetworkError (e : Thrown)
| Responded (status : Z) (data : option Json).

(** [response.ok] *)
Definition ok (status : Z) : bool := (200 <=? status) && (status <=? 299).

(** JavaScript truthiness of a JSON value. *)
Definition truthy (j : Json) : bool :=
  match j with
  | JNull => false
  | JBool b => b
  | JNum q => negb (Qeq_bool q 0)
  | JStr s => negb (String.eqb s "")
  | JObj _ => true
  end.

(** [data.message || "알 수 없는 오류"] inside the template string;
    [to_string] is JavaScript's conversion of a value that is not a string.
    Reading a property of [null] throws. *)
Definition error_message (to_string : Json -> string) (data : Json) : Promise string :=
  match data with
  | JNull => Rejected (ErrorObject "Cannot read properties of null (reading 'message')" None)
  | _ =>
      Resolved
        match json_get "message" data with
        | Some (JStr m) => if String.eqb m "" then "알 수 없는 오류" else m
        | Some v => if truthy v then to_string v else "알 수 없는 오류"
        | None => "알 수 없는 오류"
        end
  end.

Definition set_message (m : string) (st : State) : State :=
  {| selectedFile := selectedFile st; brand := brand st; url := url st;
     message := m; optimizedModelUrl := optimizedModelUrl st |}.

Definition set_optimizedModelUrl (u : option Json) (st : State) : State :=
  {| selectedFile := selectedFile st; brand := brand st; url := url st;
     message := message st; optimizedModelUrl := u |}.

(** The form the page sends: the file, then the brand and the URL. *)
Definition form_of (file : File) (st : State) : FormData :=
  [("file", FormFile file); ("brand", FormText (brand st)); ("url", FormText (url st))].

(** [handleSubmit]: [send] stands for the [fetch] of the form to
    [/api/optimize-model] followed by [response.json()]. *)
Definition handleSubmit (to_string : Json -> string) (send : FormData -> Fetched)
    (st : State) : State :=
  match selectedFile st with
  | None => set_message "파일을 선택해주세요." st
  | Some file =>
      let st1 := set_message "모델을 업로드하고 최적화 중입니다..." st in
      match send (form_of file st1) with
      | NetworkError _ | Responded _ None =>
          set_message "업로드 중 네트워크 오류가 발생했습니다." st1
      | Responded status (Some data) =>
          if ok status then
            match data with
            | JNull => set_message "업로드 중 네트워크 오류가 발생했습니다."
                         (set_message "모델 최적화 및 업로드 성공!" st1)
            | _ =>
                set_optimizedModelUrl (json_get "optimizedModelUrl" data)
                  (set_message "모델 최적화 및 업로드 성공!" st1)
            end
          else
            match error_message to_string data with
            | Resolved m => set_message ("에러: " ++ m) st1
            | Rejected _ => set_message "업로드 중 네트워크 오류가 발생했습니다." st1
            end
      end
  end.

(** The link under the message is rendered when [optimizedModelUrl] is
    truthy, with that value as its [href]. *)
Definition link_shown (st : State) : option Json :=
  match optimizedModelUrl st with
  | Some u => if truthy u then Some u else None
  | None => None
  end.

End Page.

(** The request the optimisation handler sees when the page sends [fd]. *)
Definition with_form (fd : FormData) (E : Env) : Env :=
  {| req_formData := Resolved fd;
     uuidv4 := uuidv4 E; os_tmpdir := os_tmpdir E; path_join := path_join E;
     writeFile := writeFile E;
     createDecoderModule := createDecoderModule E;
     createEncoderModule := createEncoderModule E;
     registerDependencies := registerDependencies E;
     lib := lib E; lib_again := lib_again E; error_stack := error_stack E |}.

(** The page's [fetch] against the optimisation handler: the handler always
    answers with a JSON body. *)
Definition send_to_POST (E : Env) (files : gmap string (list Byte.byte)) (g : Globals)
    (fd : FormData) : Page.Fetched :=
  match answer (POST (with_form fd E) files g) with
  | Some r => Page.Responded (status r) (Some (body r))
  | None => Page.NetworkError (OtherValue "no response")
  end.

(** ** The handler that applies all transforms in one call
    ([src/unnamed/part_001]) *)

Module SinglePass.

(** The five transforms of the one [document.transform(...)] call;
    [textureCompress] is a transform of the document here. *)
Inductive Step : Type :=
| Apply (t : Transform)
| TextureCompress (o : TextureOptions).

(** [resample(), prune(), dedup(), draco(), textureCompress({...})] *)
Definition steps : list Step :=
  [Apply resample; Apply prune; Apply dedup; Apply (draco draco_default);
   TextureCompress webp_1024].

(** The request and the libraries of this handler.  [unlink] answers the
    [fs.unlink] of line 85 and [unlink_again] the one of the [catch] clause
    (line 101), which may be refused also for a file that is there;
    [error_stack] is the stack the runtime gives an error it raises
    itself. *)
Record Env := mkEnv {
  createDecoderModule : Promise DracoModule;
  createEncoderModule : Promise DracoModule;
  req_formData : Promise FormData;
  Date_now : string;
  os_tmpdir : string;
  path_join : string -> string -> string;
  writeFile : string -> list Byte.byte -> option Thrown;
  io_read : string -> list Byte.byte -> Promise Document;
  step : Step -> Document -> Document * option Thrown;
  io_writeBinary : Document -> Promise (list Byte.byte);
  unlink : string -> option Thrown;
  unlink_again : string -> option Thrown;
  error_stack : string -> string
}.

Inductive Event : Type :=
| Log (lvl : LogLevel) (msg : string) (arg : LogArg)
| CreatedDecoder (ok : bool)
| CreatedEncoder (ok : bool)
| WroteFile (path : string) (ok : bool)
| Read (path : string) (ok : bool)
| Stepped (s : Step) (ok : bool)
| WroteBinary (ok : bool)
| Unlinked (path : string) (ok : bool).

(** The files, and [tempFilePath], which is declared outside the [try] and
    read by the [catch]. *)
Record State := mkState {
  files : gmap string (list Byte.byte);
  tempFilePath : option string
}.

Inductive Completion (A : Type) : Type :=
| Normal (a : A)
| Return (r : Download)
| Throw (e : Thrown).
Arguments Normal {A} a.
Arguments Return {A} r.
Arguments Throw {A} e.

Definition M (A : Type) : Type := State -> Completion A * State * list Event.

Definition ret {A} (a : A) : M A := fun s => (Normal a, s, []).

Definition bind {A B} (m : M A) (k : A -> M B) : M B :=
  fun s =>
    match m s with
    | (Normal a, s1, evs1) =>
        let '(c, s2, evs2) := k a s1 in (c, s2, (evs1 ++ evs2)%list)
    | (Return r, s1, evs1) => (Return r, s1, evs1)
    | (Throw e, s1, evs1) => (Throw e, s1, evs1)
    end.

Declare Scope single_scope.
Delimit Scope single_scope with single.
Notation "'let*' x ':=' m 'in' k" := (bind m (fun x => k))
  (at level 10, x name, m at level 100, k at level 200) : single_scope.
Notation "m ';;' k" := (bind m (fun _ => k))
  (at level 100, k at level 200, right associativity) : single_scope.
Local Open Scope single_scope.

Definition throw {A} (e : Thrown) : M A := fun s => (Throw e, s, []).
Definition return_ {A} (r : Download) : M A := fun s => (Return r, s, []).
Definition emit (ev : Event) : M unit := fun s => (Normal tt, s, [ev]).
Definition gets {A} (f : State -> A) : M A := fun s => (Normal (f s), s, []).
Definition modify (f : State -> State) : M unit := fun s => (Normal tt, f s, []).

Definition try_catch {A} (m : M A) (h : Thrown -> M A) : M A :=
  fun s =>
    match m s with
    | (Throw e, s1, evs1) =>
        let '(c, s2, evs2) := h e s1 in (c, s2, (evs1 ++ evs2)%list)
    | other => other
    end.

(** An awaited call that leaves an event saying how it went. *)
Definition call {A} (p : Promise A) (ev : bool -> Event) : M A :=
  match p with
  | Resolved a => emit (ev true);; ret a
  | Rejected e => emit (ev false);; throw e
  end.

Definition set_files (f : gmap string (list Byte.byte)) (s : State) : State :=
  {| files := f; tempFilePath := tempFilePath s |}.

(** [fs.writeFile(path, buffer)] *)
Definition fs_writeFile (E : Env) (path : string) (buffer : list Byte.byte) : M unit :=
  match writeFile E path buffer with
  | None => emit (WroteFile path true);;
            modify (fun s => set_files (<[path := buffer]> (files s)) s)
  | Some e => emit (WroteFile path false);; throw e
  end.

(** [fs.unlink(path)]: rejects when there is no such file, and when the
    file system refuses ([attempt] says so); the file then stays. *)
Definition fs_unlink (attempt : string -> option Thrown) (path : string) : M unit :=
  let* fs := gets files in
  match fs !! path with
  | Some _ =>
      match attempt path with
      | None => emit (Unlinked path true);;
                modify (fun s => set_files (delete path (files s)) s)
      | Some e => emit (Unlinked path false);; throw e
      end
  | None => emit (Unlinked path false);;
            throw (ErrorObject ("ENOENT: no such file or directory, unlink '" ++ path ++ "'") None)
  end.

(** [io.read(path)] *)
Definition NodeIO_read (E : Env) (path : string) : M Document :=
  let* fs := gets files in
  match fs !! path with
  | None =>
      emit (Read path false);;
      throw (ErrorObject ("ENOENT: no such file or directory, open '" ++ path ++ "'") None)
  | Some bytes => call (io_read E path bytes) (Read path)
  end.

(** [document.transform(s1, s2, ...)]: in order, up to the first throw. *)
Fixpoint transform (E : Env) (todo : list Step) (d : Document) : M Document :=
  match todo with
  | [] => ret d
  | s :: rest =>
      let '(d', r) := step E s d in
      emit (Stepped s (succeeded r));;
      match r with
      | Some e => throw e
      | None => transform E rest d'
      end
  end.

Definition quote : string := String (Ascii.ascii_of_nat 34) "".

(** The body of [POST], inside its [try].  [io.read] resolves with a
    document or rejects, so the test [if (!document)] of the source never
    fires; [path.join] never gives the empty string, so [if (tempFilePath)]
    holds once the path is set. *)
Definition handle (E : Env) : M unit :=
  let* _dec := call (createDecoderModule E) CreatedDecoder in
  let* _enc := call (createEncoderModule E) CreatedEncoder in
  let* formData := (match req_formData E with
                    | Resolved fd => ret fd
                    | Rejected e => throw e
                    end) in
  match formData_get "model" formData with
  | None | Some (FormText "") =>
      return_ {| dl_status := 400; dl_headers := [];
                 dl_body := JsonBody (JObj [("error", JStr "파일이 업로드되지 않았습니다.")]) |}
  | Some (FormText _) =>
      throw (ErrorObject "file.arrayBuffer is not a function"
               (Some (error_stack E "file.arrayBuffer is not a function")))
  | Some (FormFile file) =>
      let* buffer := (match file_arrayBuffer file with
                      | Resolved b => ret b
                      | Rejected e => throw e
                      end) in
      let path := path_join E (os_tmpdir E) (Date_now E ++ "-" ++ file_name file) in
      modify (fun s => {| files := files s; tempFilePath := Some path |});;
      emit (Log console_log "!!!!!! : " (ArgText path));;
      fs_writeFile E path buffer;;
      let* document := NodeIO_read E path in
      let* document' := transform E steps document in
      let* optimizedBuffer := call (io_writeBinary E document') WroteBinary in
      fs_unlink (unlink E) path;;
      return_ {| dl_status := 200;
                 dl_headers :=
                   [("Content-Type", "model/gltf-binary");
                    ("Content-Disposition",
                     "attachment; filename=" ++ quote ++ "optimized-" ++ file_name file ++ quote)];
                 dl_body := FileBody optimizedBuffer |}
  end.

(** The [catch]: log, remove the temporary file if its path is known, and
    answer 500 with one fixed message. *)
Definition on_error (E : Env) (error : Thrown) : M unit :=
  emit (Log console_error "파일 처리 중 오류 발생:" (ArgThrown error));;
  let* path := gets tempFilePath in
  (match path with
   | Some p =>
       try_catch (fs_unlink (unlink_again E) p)
         (fun cleanupError =>
            emit (Log console_error "임시 파일 삭제 중 오류 발생:" (ArgThrown cleanupError)))
   | None => ret tt
   end);;
  return_ {| dl_status := 500; dl_headers := [];
             dl_body := JsonBody (JObj [("error", JStr "파일 처리 중 오류가 발생했습니다.")]) |}.

(** [POST(req)] *)
Definition POST (E : Env) (fs : gmap string (list Byte.byte))
  : option Download * State * list Event :=
  match try_catch (handle E) (on_error E) {| files := fs; tempFilePath := None |} with
  | (Return r, s, evs) => (Some r, s, evs)
  | (_, s, evs) => (None, s, evs)
  end.

(** The steps that were called, in order. *)
Definition steps_called (evs : list Event) : list Step :=
  flat_map (fun ev => match ev with Stepped s _ => [s] | _ => [] end) evs.

(** The document the five steps make of [d] when none throws. *)
Fixpoint run_steps (E : Env) (todo : list Step) (d : Document) : option Document :=
  match todo with
  | [] => Some d
  | s :: rest =>
      match step E s d with
      | (d', None) => run_steps E rest d'
      | (_, Some _) => None
      end
  end.

(** The path of the temporary file of an upload. *)
Definition temp_path (E : Env) (file : File) : string :=
  path_join E (os_tmpdir E) (Date_now E ++ "-" ++ file_name file).

(** The steps that threw. *)
Definition steps_failed (evs : list Event) : list Step :=
  flat_map (fun ev => match ev with Stepped s false => [s] | _ => [] end) evs.

(** The three answers of the handler. *)
Definition refused : Download :=
  {| dl_status := 400; dl_headers := [];
     dl_body := JsonBody (JObj [("error", JStr "파일이 업로드되지 않았습니다.")]) |}.

Definition failed : Download :=
  {| dl_status := 500; dl_headers := [];
     dl_body := JsonBody (JObj [("error", JStr "파일 처리 중 오류가 발생했습니다.")]) |}.

Definition served (file : File) (optimizedBuffer : list Byte.byte) : Download :=
  {| dl_status := 200;
     dl_headers :=
       [("Content-Type", "model/gltf-binary");
        ("Content-Disposition",
         "attachment; filename=" ++ quote ++ "optimized-" ++ file_name file ++ quote)];
     dl_body := FileBody optimizedBuffer |}.

(** The line the [catch] clause logs when its [fs.unlink] is refused. *)
Definition cleanup_failed (ev : Event) : bool :=
  match ev with
  | Log console_error msg (ArgThrown _) => String.eqb msg "임시 파일 삭제 중 오류 발생:"
  | _ => false
  end.

(** What a request that failed leaves of the files [fs] it found: every
    file but the temporary one as it was, and no temporary file, unless the
    [fs.unlink] of the [catch] clause was refused and said so in the log. *)
Definition cleaned_or_left (E : Env) (fs : gmap string (list Byte.byte)) (path : string)
    (left : gmap string (list Byte.byte)) (evs : list Event) : Prop :=
  (forall q, q <> path -> left !! q = fs !! q)
  /\ (left !! path = None
      \/ (is_Some (unlink_again E path) /\ existsb cleanup_failed evs = true)).

(** How a request went: refused or failed before a temporary path was
    chosen; failed after that; or served. *)
Inductive Ran (E : Env) (fs : gmap string (list Byte.byte))
    (x : option Download * State * list Event) : Prop :=
| NoUpload (r : Download) (evs : list Event)
    (Hrun : x = (Some r, {| files := fs; tempFilePath := None |}, evs))
    (Hanswer : r = refused \/ r = failed)
    (Hcalled : steps_called evs = [])
    (Hfailed : steps_failed evs = [])
| Failed (fd : FormData) (file : File) (left : gmap string (list Byte.byte))
    (evs : list Event)
    (Hform : req_formData E = Resolved fd)
    (Hfile : formData_get "model" fd = Some (FormFile file))
    (Hrun : x = (Some failed,
                 {| files := left; tempFilePath := Some (temp_path E file) |}, evs))
    (Hleft : cleaned_or_left E fs (temp_path E file) left evs)
    (Hsteps : (steps_called evs = [] /\ steps_failed evs = [])
              \/ (exists done failing rest,
                    steps = (done ++ failing :: rest)%list
                    /\ steps_called evs = (done ++ [failing])%list
                    /\ steps_failed evs = [failing])
              \/ (steps_called evs = steps /\ steps_failed evs = []))
| Served (fd : FormData) (file : File) (buffer : list Byte.byte) (d d' : Document)
    (out : list Byte.byte) (evs : list Event)
    (Hform : req_formData E = Resolved fd)
    (Hfile : formData_get "model" fd = Some (FormFile file))
    (Hbuffer : file_arrayBuffer file = Resolved buffer)
    (Hread : io_read E (temp_path E file) buffer = Resolved d)
    (Hsteps : run_steps E steps d = Some d')
    (Hout : io_writeBinary E d' = Resolved out)
    (Hunlink : unlink E (temp_path E file) = None)
    (Hrun : x = (Some (served file out),
                 {| files := delete (temp_path E file) fs;
                    tempFilePath := Some (temp_path E file) |}, evs))
    (Hcalled : steps_called evs = steps)
    (Hfailed : steps_failed evs = []).

(** A request on which every call succeeds, and one on which [draco]
    throws. *)
Definition sample_env (fails : Step -> bool) : Env :=
  {| createDecoderModule := Resolved DecoderModule;
     createEncoderModule := Resolved EncoderModule;
     req_formData := Resolved [("model", FormFile sample_file)];
     Date_now := "1700000000000";
     os_tmpdir := "/tmp";
     path_join := fun a b => a ++ "/" ++ b;
     writeFile := fun _ _ => None;
     io_read := fun _ _ => Resolved sample_document;
     step := fun s d => (d, if fails s then Some (boom "step failed") else None);
     io_writeBinary := fun d => Resolved (sample_encode d);
     unlink := fun _ => None;
     unlink_again := fun _ => None;
     error_stack := fun message => "TypeError: " ++ message |}.

Definition is_draco (s : Step) : bool :=
  match s with Apply (draco _) => true | _ => false end.

Definition env_good : Env := sample_env (fun _ => false).
Definition env_draco_fails : Env := sample_env is_draco.

(** [draco] throws, and then the temporary file cannot be removed. *)
Definition env_cleanup_refused : Env :=
  {| createDecoderModule := Resolved DecoderModule;
     createEncoderModule := Resolved EncoderModule;
     req_formData := Resolved [("model", FormFile sample_file)];
     Date_now := "1700000000000";
     os_tmpdir := "/tmp";
     path_join := fun a b => a ++ "/" ++ b;
     writeFile := fun _ _ => None;
     io_read := fun _ _ => Resolved sample_document;
     step := fun s d => (d, if is_draco s then Some (boom "step failed") else None);
     io_writeBinary := fun d => Resolved (sample_encode d);
     unlink := fun _ => None;
     unlink_again := fun _ => Some (boom "EPERM: operation not permitted, unlink");
     error_stack := fun message => "TypeError: " ++ message |}.

(** What is left of the answer when there is none. *)
Definition answer_or_refused (x : option Download * State * list Event) : Download :=
  match fst (fst x) with
  | Some r => r
  | None => refused
  end.

End SinglePass.

(** ** Vocabulary for the properties of the surrounding code *)

(** The body of an error answer of the optimisation handler: an [error]
    text and at most the [details]. *)
Definition error_body (r : Response) : Prop :=
  exists msg rest,
    body r = JObj (("error", JStr msg) :: rest)
    /\ (rest = [] \/ exists st, rest = [("details", JStr st)]).

(** A computation that removes no file. *)
Definition keeps_files {A} (m : M A) : Prop :=
  forall s p, is_Some (fs s !! p) -> is_Some (fs (snd (fst (m s))) !! p).

(** The three ways the optimisation handler answers. *)
Inductive Outcome (E : Env) (g : Globals) (x : option Response * State * list Event) : Prop :=
| Refused (r : Response)
    (Hanswer : answer x = Some r)
    (Hstatus : status r = 400 \/ status r = 500)
    (Hbody : error_body r)
| Minimal (c : Scope) (encoded : list Byte.byte)
    (Hanswer : answer x = Some (NextResponse_json (minimal_report c "minimal") None))
    (Hpath : outputPath c = output_path E)
    (Hfile : fs (final_state x) !! output_path E = Some encoded)
    (Hwritten : exists d, io_write (lib_again E) (output_path E) d = Resolved encoded)
| Full (c : Scope) (encoded : list Byte.byte)
    (Hanswer : answer x
               = Some (NextResponse_json
                         (full_report c (optimizationLevel (final_state x))
                            (Z.of_nat (length encoded))) None))
    (Hid : fileId c = uuidv4 E)
    (Hfile : fs (final_state x) !! output_path E = Some encoded)
    (Hwritten : io_write (lib E) (output_path E) (document (final_state x)) = Resolved encoded)
    (Hdraco : includes ["draco"; "draco-simple"] (optimizationLevel (final_state x))
              = existsb draco_succeeded (events x)).

(** ** Sample requests for the surrounding code *)

(** A file already in the temporary directory when the request arrives. *)
Definition disk_with_old_file : gmap string (list Byte.byte) :=
  {[ "/tmp/old-optimized.glb" := [Byte.x01; Byte.x02] ]}.

(** Neither Draco module can be created. *)
Definition env_no_draco : Env :=
  {| req_formData := Resolved (upload "robot.glb");
     uuidv4 := "5f1c";
     os_tmpdir := "/tmp";
     path_join := fun a b => a ++ "/" ++ b;
     writeFile := fun _ _ => None;
     createDecoderModule := Rejected (boom "wasm not found");
     createEncoderModule := Rejected (boom "wasm not found");
     registerDependencies := None;
     lib := good_library sample_document;
     lib_again := good_library sample_document;
     error_stack := fun message => "TypeError: " ++ message |}.

(** A text field where the file should be. *)
Definition env_text_field : Env :=
  sample_env [("file", FormText "robot.glb")]
    (good_library sample_document) (good_library sample_document).

(** An upload that has the name of the handler's own output. *)
Definition output_named_file : File :=
  {| file_name := "optimized.glb"; file_arrayBuffer := Resolved glb_bytes |}.

Definition env_output_named : Env :=
  sample_env [("file", FormFile output_named_file)]
    (good_library sample_document) (good_library sample_document).

(** The page with a file chosen and a link left from an earlier request. *)
Definition page_with_file : Page.State :=
  {| Page.selectedFile := Some sample_file; Page.brand := "Ikea";
     Page.url := "https://example.com/chair";
     Page.message := ""; Page.optimizedModelUrl := Some (JStr "/api/download?fileId=0000") |}.

(** How the page would print a value that is not a string; the handler's
    answers never make it do so. *)
Definition plain_to_string (j : Json) : string := "[object Object]".

(** Prune throws on the request's document, but not when the last-resort
    branch starts over on a document of its own. *)
Definition env_prune_fails_once : Env :=
  sample_env (upload "robot.glb")
    (failing_library sample_document is_prune) (good_library bare_document).

(** The state of a request on [sample_scope] whose upload is stored. *)
Definition state_stored : State :=
  {| fs := {[ "/tmp/5f1c-robot.glb" := glb_bytes ]}; globals := fresh_globals;
     document := sample_document; optimizationLevel := "basic" |}.

(** The modules can be created, but their registration throws. *)
Definition env_registration_fails : Env :=
  {| req_formData := Resolved (upload "robot.glb");
     uuidv4 := "5f1c";
     os_tmpdir := "/tmp";
     path_join := fun a b => a ++ "/" ++ b;
     writeFile := fun _ _ => None;
     createDecoderModule := Resolved DecoderModule;
     createEncoderModule := Resolved EncoderModule;
     registerDependencies := Some (boom "registerDependencies failed");
     lib := good_library sample_document;
     lib_again := good_library sample_document;
     error_stack := fun message => "TypeError: " ++ message |}.

(** ** [initializeDraco] between its awaits *)

(** Where a call of [initializeDraco] stands: before its test of the flag,
    suspended at the [await] of the decoder or of the encoder, or ended
    with its result. *)
Inductive DracoCall : Type :=
| AtStart
| AwaitingDecoder
| AwaitingEncoder
| Finished (result : option DracoModule * option DracoModule).

(** One stretch of a call, from where it stands to its next [await] or to
    its end, on the module variables as they are when it runs.  The first
    stretch tests the flag (line 40) and, when it is unset, calls
    [createDecoderModule] and suspends; the second stores the decoder, calls
    [createEncoderModule] and suspends; the third stores the encoder, sets
    the flag (line 55) and returns the variables.  A rejection ends the call
    in its [catch] clause. *)
Definition draco_step (E : Env) (call : DracoCall) (g : Globals)
  : DracoCall * Globals * list Event :=
  match call with
  | AtStart =>
      if dracoInitialized g
      then (Finished (decoderModule g, encoderModule g), g, [])
      else (AwaitingDecoder, g, [])
  | AwaitingDecoder =>
      match createDecoderModule E with
      | Resolved dec =>
          (AwaitingEncoder,
           {| decoderModule := Some dec; encoderModule := encoderModule g;
              dracoInitialized := dracoInitialized g |},
           [CallCreateDecoder true])
      | Rejected e =>
          (Finished (None, None), g,
           [CallCreateDecoder false;
            Console console_error "Draco 모듈 초기화 실패:" (ArgThrown e)])
      end
  | AwaitingEncoder =>
      match createEncoderModule E with
      | Resolved enc =>
          (Finished (decoderModule g, Some enc),
           {| decoderModule := decoderModule g; encoderModule := Some enc;
              dracoInitialized := true |},
           [CallCreateEncoder true; Console console_log "Draco 모듈 초기화 성공" NoArg])
      | Rejected e =>
          (Finished (None, None), g,
           [CallCreateEncoder false;
            Console console_error "Draco 모듈 초기화 실패:" (ArgThrown e)])
      end
  | Finished result => (Finished result, g, [])
  end.

(** [n] stretches of one call with nothing in between. *)
Fixpoint draco_steps (E : Env) (n : nat) (call : DracoCall) (g : Globals)
  : DracoCall * Globals * list Event :=
  match n with
  | O => (call, g, [])
  | S n' =>
      let '(call1, g1, evs1) := draco_step E call g in
      let '(call2, g2, evs2) := draco_steps E n' call1 g1 in
      (call2, g2, (evs1 ++ evs2)%list)
  end.

(** Two requests that overlap: the second starts while the first is
    suspended at its first [await]; then the first runs to its end, and
    then the second. *)
Definition overlapping_calls (E1 E2 : Env) (g : Globals)
  : DracoCall * DracoCall * Globals * list Event :=
  let '(first1, g1, evs1) := draco_step E1 AtStart g in
  let '(second1, g2, evs2) := draco_step E2 AtStart g1 in
  let '(first2, g3, evs3) := draco_steps E1 2 first1 g2 in
  let '(second2, g4, evs4) := draco_steps E2 2 second1 g3 in
  (first2, second2, g4, (evs1 ++ evs2 ++ evs3 ++ evs4)%list).

(** How often the decoder module was created. *)
Definition decoder_creations (evs : list Event) : nat :=
  length (List.filter (fun ev => match ev with CallCreateDecoder _ => true | _ => false end) evs).

(** * Properties *)

(** ** How computations run *)

Lemma bind_normal {A B} (m : M A) (k : A -> M B) s a s1 evs1 :
  m s = (Normal a, s1, evs1) ->
  bind m k s = (let '(c, s2, evs2) := k a s1 in (c, s2, (evs1 ++ evs2)%list)).
Proof. intros H. unfold bind. rewrite H. reflexivity. Qed.

Lemma bind_throw {A B} (m : M A) (k : A -> M B) s e s1 evs1 :
  m s = (Throw e, s1, evs1) -> bind m k s = (Throw e, s1, evs1).
Proof. intros H. unfold bind. rewrite H. reflexivity. Qed.

Lemma bind_return {A B} (m : M A) (k : A -> M B) s r s1 evs1 :
  m s = (Return r, s1, evs1) -> bind m k s = (Return r, s1, evs1).
Proof. intros H. unfold bind. rewrite H. reflexivity. Qed.

(** Unfold the monad and the library wrappers, and nothing else. *)
Ltac run_monad :=
  cbv beta iota zeta delta
    [bind try_catch ret throw return_ gets modify emit console raise_if await
     document_transform root_listAnimations root_listTextures].

(** [checkFileSize] never throws: it either measures the scratch file it
    wrote, or reports the failure and answers the original size. *)
Lemma checkFileSize_run E c stage s :
  let tempPath := path_join E (tempDir c) (fileId c ++ "-temp-" ++ stage ++ ".glb") in
  checkFileSize E c stage s =
    match io_write (lib E) tempPath (document s) with
    | Resolved bytes =>
        (Normal (Z.of_nat (length bytes)),
         set_fs (<[tempPath := bytes]> (fs s)) s,
         [CallWrite Main tempPath true;
          Console console_log ("📊 " ++ stage ++ " 후 크기") (ArgNum (Z.of_nat (length bytes)))])
    | Rejected e =>
        (Normal (originalSize c), s,
         [CallWrite Main tempPath false;
          Console console_warn ("⚠️ " ++ stage ++ " 크기 측정 실패:") (ArgThrown e)])
    end.
Proof.
  intros tempPath. unfold checkFileSize, try_catch, bind, gets, NodeIO_write.
  fold tempPath. destruct (io_write (lib E) tempPath (document s)) as [bytes|e]; cbn.
  - unfold stat_size, bind, gets. cbn. rewrite lookup_insert_eq. reflexivity.
  - reflexivity.
Qed.

(** ** Stage 6: Draco *)

Lemma prepare_draco_result E s :
  exists s' evs,
    prepare_draco E s = (Normal (modules_available E (globals s)), s', evs)
    /\ forallb setup_event evs = true
    /\ document s' = document s /\ fs s' = fs s.
Proof.
  unfold prepare_draco, initializeDraco, modules_available, try_catch, bind, gets.
  destruct s as [files [dec enc init] d lv]; cbn.
  destruct init; cbn.
  - destruct dec, enc; cbn; try (eexists _, _; split; [reflexivity | done]).
    destruct (registerDependencies E); cbn; eexists _, _; (split; [reflexivity | done]).
  - destruct (createDecoderModule E); cbn; [| eexists _, _; split; [reflexivity | done]].
    destruct (createEncoderModule E); cbn; [| eexists _, _; split; [reflexivity | done]].
    destruct (registerDependencies E); cbn; eexists _, _; (split; [reflexivity | done]).
Qed.

(** When the first Draco attempt of stage 6 throws, the stage makes exactly
    one more attempt, with [quantizePosition: 12] and nothing else set, on
    the document as the first attempt left it; whether or not the retry
    succeeds the stage completes normally and makes no third call. *)
Lemma stage_draco_retry
    (E : Env) (c : Scope) (s : State) (defaults : DracoBits) (d1 : Document) (e1 : Thrown) :
  useDraco c = true ->
  lib_transform (lib E) (draco draco_default) (document s) = (d1, Some e1) ->
  12 < positionBits defaults ->
  (let '(res, s', evs) := stage_draco E c s in
   let '(d2, r2) := lib_transform (lib E) (draco draco_simple) d1 in
   res = Normal tt
   /\ pass_calls evs = [CallTransform Main (draco draco_default) false;
                        CallTransform Main (draco draco_simple) (succeeded r2)]
   /\ document s' = d2
   /\ optimizationLevel s' = (if succeeded r2 then "draco-simple" else optimizationLevel s))
  /\ positionBits (effective_bits defaults draco_simple) = 12
  /\ positionBits (effective_bits defaults draco_simple)
       < positionBits (effective_bits defaults draco_default)
  /\ normalBits (effective_bits defaults draco_simple)
       = normalBits (effective_bits defaults draco_default)
  /\ texcoordBits (effective_bits defaults draco_simple)
       = texcoordBits (effective_bits defaults draco_default)
  /\ (forall s0, stage_draco E (set_useDraco false c) s0
                 = (Normal tt, s0, [Console console_log "ℹ️ Draco 모듈 없음, 건너뜀" NoArg]))
  /\ (forall s0, exists s1 evs0,
        prepare_draco E s0 = (Normal (modules_available E (globals s0)), s1, evs0)).
Proof.
  intros Huse Hfirst Hbits. repeat split; try (cbn; lia).
  - unfold stage_draco. rewrite Huse. run_monad.
    rewrite Hfirst. run_monad. cbn [document set_document].
    destruct (lib_transform (lib E) (draco draco_simple) d1) as [d2 [e2|]] eqn:Hsecond; run_monad.
    + done.
    + rewrite checkFileSize_run.
      destruct (io_write _ _ _); cbn; done.
  - intros s0. destruct (prepare_draco_result E s0) as (s1 & evs0 & H & _). eauto.
Qed.

(** ** Lists of events *)

Lemma aside_not_call p ok ev : aside ev = true -> call_of p ok ev = false.
Proof. destruct ev as [| | | | | | |[] ? ?| | | |[]]; cbn; congruence. Qed.

Lemma aside_not_entry n ev : aside ev = true -> stage_entered n ev = false.
Proof.
  destruct ev as [[] msg []| | | | | | |[] [] ?| | | |[]]; cbn;
    do 7 (try destruct n as [|n]); cbn; try congruence.
  intros H. apply negb_true_iff in H. exact H.
Qed.

Lemma asides_no_call p ok evs :
  forallb aside evs = true -> existsb (call_of p ok) evs = false.
Proof.
  induction evs as [|ev evs IH]; cbn; [done|].
  intros [Hev Hevs]%andb_true_iff. rewrite (aside_not_call p ok ev Hev). auto.
Qed.

Lemma asides_no_failure p evs :
  forallb aside evs = true -> existsb (failed_call p) evs = false.
Proof. apply asides_no_call. Qed.

Lemma asides_no_entry n evs :
  forallb aside evs = true -> existsb (stage_entered n) evs = false.
Proof.
  induction evs as [|ev evs IH]; cbn; [done|].
  intros [Hev Hevs]%andb_true_iff. rewrite (aside_not_entry n ev Hev). auto.
Qed.

Lemma no_call_reported p evs :
  existsb (failed_call p) evs = false -> reported p evs = true.
Proof.
  induction evs as [|ev evs IH]; cbn; [done|].
  intros [Hev Hevs]%orb_false_iff. rewrite Hev. auto.
Qed.

Lemma no_call_contained p evs :
  existsb (failed_call p) evs = false -> contained p evs = true.
Proof.
  induction evs as [|ev evs IH]; cbn; [done|].
  intros [Hev Hevs]%orb_false_iff. rewrite Hev. auto.
Qed.

Lemma contained_app_quiet p A B :
  existsb (failed_call p) A = false -> contained p B = true ->
  contained p (A ++ B) = true.
Proof.
  induction A as [|ev A IH]; cbn; [done|].
  intros [Hev HA]%orb_false_iff HB. rewrite Hev. auto.
Qed.

Lemma reported_app p A B :
  reported p A = true -> reported p B = true -> reported p (A ++ B) = true.
Proof.
  induction A as [|ev A IH]; cbn; [done|].
  intros [Hev HA]%andb_true_iff HB. rewrite IH by done. rewrite andb_true_r.
  destruct (failed_call p ev); [|done].
  rewrite existsb_app, Hev. done.
Qed.

Lemma reported_before p A B :
  existsb (failure_report p) B = true -> reported p B = true ->
  reported p (A ++ B) = true.
Proof.
  intros Hrep HB. induction A as [|ev A IH]; cbn; [done|].
  rewrite IH, andb_true_r. destruct (failed_call p ev); [|done].
  rewrite existsb_app, Hrep. apply orb_true_r.
Qed.

(** The segment of a recoverable pass, followed by events in which every
    later stage is entered and no call of the pass occurs. *)
Lemma contained_segment p B C :
  recovers p = true ->
  reported p B = true ->
  existsb (failed_call p) C = false ->
  forallb (fun n => existsb (stage_entered n) C) (later_stages p) = true ->
  contained p (B ++ C) = true.
Proof.
  intros Hrec HB HC Hlater. induction B as [|ev B IH]; cbn [app contained].
  - by apply no_call_contained.
  - cbn [reported] in HB. apply andb_true_iff in HB as [Hev HB]. rewrite IH, andb_true_r by done.
    destruct (failed_call p ev); [|done].
    unfold continues_after. rewrite existsb_app, Hev. cbn [orb andb].
    rewrite forallb_forall in Hlater. apply forallb_forall. intros n Hn.
    rewrite Hrec, existsb_app, (Hlater n Hn), orb_true_r. done.
Qed.


(** ** The texture loop *)

Lemma compress_each_run L todo : forall index s,
  let '(final, r, evs) := texture_loop L index todo (listTextures (document s)) in
  exists s',
    compress_each L index todo s
      = (match r with None => Normal tt | Some e => Throw e end, s', evs)
    /\ same_but_textures s s'
    /\ listTextures (document s') = final.
Proof.
  induction todo as [|t rest IH]; intros index s; cbn [texture_loop compress_each].
  - exists s. by repeat split.
  - unfold compress_one. destruct (compressTexture L webp_1024 t) as [t' [e|]] eqn:Ht; run_monad.
    + eexists. split; [reflexivity|]. by repeat split.
    + set (s1 := set_document _ s).
      specialize (IH (S index) s1).
      assert (Hs1 : listTextures (document s1) = <[index := t']> (listTextures (document s)))
        by reflexivity.
      rewrite Hs1 in IH.
      destruct (texture_loop L (S index) rest _) as [[final r] evs].
      destruct IH as (s' & Hrun & Hsame & Hfinal).
      exists s'. rewrite Hrun. split; [by destruct r|]. split; [|done].
      destruct Hsame as (? & ? & ? & ? & ?). by repeat split.
Qed.

Lemma texture_loop_calls L todo : forall index current,
  Forall (fun ev => exists j ok, ev = CallCompressTexture j ok)
         (snd (texture_loop L index todo current)).
Proof.
  induction todo as [|t rest IH]; intros index current; cbn [texture_loop]; [constructor|].
  destruct (compressTexture L webp_1024 t) as [t' [e|]].
  - repeat constructor. eauto.
  - specialize (IH (S index) (<[index := t']> current)).
    destruct (texture_loop L (S index) rest _) as [[final r] evs]. constructor; eauto.
Qed.

Lemma texture_loop_within L todo index current :
  calls_within 4 (snd (texture_loop L index todo current)) = true.
Proof.
  pose proof (texture_loop_calls L todo index current) as H. unfold calls_within.
  induction H as [|ev evs (j & ok & ->) _ IH]; [done|]. cbn [forallb]. rewrite IH.
  by destruct ok.
Qed.

Lemma texture_loop_not_entry L todo index current n :
  existsb (stage_entered n) (snd (texture_loop L index todo current)) = false.
Proof.
  pose proof (texture_loop_calls L todo index current) as H.
  induction H as [|ev evs (j & ok & ->) _ IH]; [done|]. cbn [existsb]. rewrite IH.
  by do 7 (try destruct n as [|n]).
Qed.

Lemma texture_loop_other_pass L todo index current p :
  p <> PTexture ->
  existsb (failed_call p) (snd (texture_loop L index todo current)) = false.
Proof.
  intros Hp. pose proof (texture_loop_calls L todo index current) as H.
  induction H as [|ev evs (j & ok & ->) _ IH]; [done|]. cbn [existsb]. rewrite IH.
  by destruct p, ok.
Qed.

Lemma texture_loop_success L todo : forall index current,
  snd (fst (texture_loop L index todo current)) = None ->
  existsb (failed_call PTexture) (snd (texture_loop L index todo current)) = false.
Proof.
  induction todo as [|t rest IH]; intros index current; cbn [texture_loop]; [done|].
  destruct (compressTexture L webp_1024 t) as [t' [e|]]; [done|].
  specialize (IH (S index) (<[index := t']> current)).
  destruct (texture_loop L (S index) rest _) as [[final r] evs]. cbn in *. done.
Qed.

(** ** The level as progress *)

Arguments rank : simpl never.

Lemma rank_completed p : rank (level_of_pass p) = stage_of p.
Proof. by destruct p. Qed.

Lemma progress_aside st ev :
  aside ev = true -> progress_step st ev = st.
Proof.
  destruct st as [n lv].
  destruct ev as [| | | | | | |[] ? []| | | |]; cbn; try congruence; done.
Qed.

Lemma progress_asides evs : forall st,
  forallb aside evs = true -> fold_left progress_step evs st = st.
Proof.
  induction evs as [|ev evs IH]; intros st; cbn [forallb fold_left]; [done|].
  intros [Hev Hevs]%andb_true_iff. rewrite progress_aside by done. auto.
Qed.

(** The loop completes the texture stage exactly when it recompresses the
    last of the [n] textures listed. *)
Lemma texture_loop_progress L todo : forall index current n lv,
  (index + length todo = n)%nat ->
  fold_left progress_step (snd (texture_loop L index todo current)) (n, lv)
  = (n, match snd (fst (texture_loop L index todo current)), todo with
        | None, _ :: _ =>
            if (rank lv <=? 4)%nat then "texture-compressed" else lv
        | _, _ => lv
        end).
Proof.
  induction todo as [|t rest IH]; intros index current n lv Hn; cbn [texture_loop]; [done|].
  destruct (compressTexture L webp_1024 t) as [t' [e|]]; [done|].
  specialize (IH (S index) (<[index := t']> current) n).
  destruct (texture_loop L (S index) rest _) as [[final r] evs] eqn:Hloop.
  cbn [fst snd fold_left] in *.
  destruct rest as [|t2 rest].
  - cbn in Hloop. injection Hloop as <- <- <-. cbn [fold_left].
    unfold progress_step, completes. cbn [fst snd length] in *.
    replace (S index =? n)%nat with true by (symmetry; apply Nat.eqb_eq; lia).
    done.
  - unfold progress_step at 2, completes. cbn [fst snd length] in *.
    replace (S index =? n)%nat with false by (symmetry; apply Nat.eqb_neq; lia).
    rewrite IH by lia. done.
Qed.

(** ** The stages, one by one *)

Ltac case_calls :=
  repeat first
    [ progress run_monad
    | progress cbn [document set_document set_level set_fs fst snd optimizationLevel]
    | rewrite checkFileSize_run; cbv zeta
    | match goal with
      | |- context [lib_transform ?L ?t ?d] => destruct (lib_transform L t d) as [? [?|]]
      | |- context [io_write ?L ?p ?d] => destruct (io_write L p d) as [?|?]
      | |- context [import_weld ?L] => destruct (import_weld L) as [?|]
      end ].

Ltac rank_leb :=
  repeat match goal with
  | |- context [(?a <=? rank ?l)%nat] =>
      let v := eval vm_compute in (rank l) in
      change (rank l) with v; rewrite (proj2 (Nat.leb_le a v)) by lia
  end.

Ltac rank_bound :=
  match goal with
  | |- (rank ?l <= _)%nat =>
      first [ lia | let v := eval vm_compute in (rank l) in change (rank l) with v; lia ]
  end.

Ltac summary_cases :=
  case_calls;
  (eexists _, _; split; [reflexivity|]; split;
   [ vm_compute; reflexivity
   | intros n Hrank; eexists; split; [ cbn; rank_leb; reflexivity | cbn; rank_bound ] ]).

Lemma stage_resample_summary E c : stage_summary 3 (stage_resample E c).
Proof.
  intros s. unfold stage_resample. run_monad.
  destruct (0 <? length (listAnimations (document s)))%nat; summary_cases.
Qed.

Lemma stage_mesh_summary E c : stage_summary 5 (stage_mesh E c).
Proof. intros s. unfold stage_mesh. summary_cases. Qed.

Lemma stage_draco_summary E c : stage_summary 6 (stage_draco E c).
Proof. intros s. unfold stage_draco. destruct (useDraco c); summary_cases. Qed.

Lemma segment_texture L todo index current n z msg tail :
  let loop := texture_loop L index todo current in
  forallb aside tail = true ->
  (snd (fst loop) <> None -> existsb (failure_report PTexture) tail = true) ->
  segment 4 (CallListTextures n :: CallListTextures n
             :: Console console_log msg (ArgNum z) :: (snd loop ++ tail)) = true.
Proof.
  intros loop Htail Hrep. unfold segment.
  change (CallListTextures n :: CallListTextures n
          :: Console console_log msg (ArgNum z) :: (snd loop ++ tail))%list
    with ([CallListTextures n; CallListTextures n;
           Console console_log msg (ArgNum z)] ++ (snd loop ++ tail))%list.
  apply andb_true_iff; split; [apply andb_true_iff; split; [apply andb_true_iff; split|]|].
  - unfold calls_within. rewrite !forallb_app.
    apply andb_true_iff; split; [|apply andb_true_iff; split].
    + done.
    + apply (texture_loop_within L todo index current).
    + apply forallb_forall. intros ev Hev. rewrite forallb_forall in Htail.
      apply forallb_forall. intros p _.
      rewrite !aside_not_call by auto. done.
  - apply forallb_forall. intros p _.
    assert (Hpre : forall q, existsb (failed_call q)
              [CallListTextures n; CallListTextures n; Console console_log msg (ArgNum z)] = false)
      by done.
    assert (Htl : forall q, existsb (failed_call q) tail = false)
      by (intros q; by apply asides_no_call).
    destruct (snd (fst loop)) as [e|] eqn:Hr.
    + destruct p;
        try (apply no_call_reported;
             rewrite !existsb_app, Hpre, Htl, orb_false_r; cbn [orb];
             by apply texture_loop_other_pass).
      rewrite app_assoc. apply reported_before; [by apply Hrep|].
      apply no_call_reported, Htl.
    + apply no_call_reported. rewrite !existsb_app, Hpre, Htl, orb_false_r. cbn [orb].
      destruct p; try (by apply texture_loop_other_pass).
      by apply texture_loop_success.
  - done.
  - unfold entries_within. rewrite !forallb_app.
    apply andb_true_iff; split; [|apply andb_true_iff; split].
    + done.
    + apply forallb_forall. intros ev Hev. apply forallb_forall. intros k _.
      pose proof (texture_loop_not_entry L todo index current k) as Hno.
      destruct (stage_entered k ev) eqn:Hk; [|done].
      exfalso. apply not_true_iff_false in Hno. apply Hno.
      apply existsb_exists. eauto.
    + apply forallb_forall. intros ev Hev. rewrite forallb_forall in Htail.
      apply forallb_forall. intros k _. by rewrite aside_not_entry by auto.
Qed.

Lemma stage_texture_summary E c : stage_summary 4 (stage_texture E c).
Proof.
  intros s. unfold stage_texture. run_monad.
  assert (Hcase : listTextures (document s) = []
                  \/ (0 < length (listTextures (document s)))%nat)
    by (destruct (listTextures (document s)); [by left | right; cbn; lia]).
  destruct Hcase as [Hnil|Hts].
  { rewrite Hnil. cbn [length Nat.ltb Nat.leb]. summary_cases. }
  rewrite (proj2 (Nat.ltb_lt _ _) Hts).
  pose proof (compress_each_run (lib E) (listTextures (document s)) 0 s) as Hrun.
  pose proof (texture_loop_progress (lib E) (listTextures (document s)) 0
                (listTextures (document s))) as Hprog.
  pose proof (fun n z msg tail =>
                segment_texture (lib E) (listTextures (document s)) 0
                  (listTextures (document s)) n z msg tail) as Hseg.
  destruct (texture_loop (lib E) 0 (listTextures (document s)) (listTextures (document s)))
    as [[final r] evs].
  destruct Hrun as (s1 & Hrun & (Hfs & Hg & Hlv & _) & _). rewrite Hrun.
  cbn [fst snd] in *.
  destruct (listTextures (document s)) as [|t1 rest]; [cbn in Hts; lia|].
  destruct r as [e|].
  - eexists _, _. split; [reflexivity|]. cbn [app]. split.
    + apply Hseg; done.
    + intros n Hrank. eexists. cbn [fold_left]. split.
      * rewrite fold_left_app.
        unfold progress_step at 3 4 5. cbn [completes fst snd].
        rewrite Hprog by (cbn; lia). cbn [fold_left].
        rewrite progress_aside by done. rewrite Hlv. reflexivity.
      * rewrite <- Hlv. lia.
  - case_calls.
    + eexists _, _. split; [reflexivity|]. cbn [app]. split.
      * apply Hseg; done.
      * intros n Hrank. eexists. cbn [fold_left optimizationLevel set_fs set_level]. split.
        -- rewrite fold_left_app.
           unfold progress_step at 3 4 5. cbn [completes fst snd].
           rewrite Hprog by (cbn; lia).            rewrite progress_asides by done.
           rewrite (proj2 (Nat.leb_le _ 4)) by lia. reflexivity.
        -- rank_bound.
    + eexists _, _. split; [reflexivity|]. cbn [app]. split.
      * apply Hseg; done.
      * intros n Hrank. eexists. cbn [fold_left optimizationLevel set_fs set_level]. split.
        -- rewrite fold_left_app.
           unfold progress_step at 3 4 5. cbn [completes fst snd].
           rewrite Hprog by (cbn; lia).            rewrite progress_asides by done.
           rewrite (proj2 (Nat.leb_le _ 4)) by lia. reflexivity.
        -- rank_bound.
Qed.

Ltac early_cases :=
  case_calls;
  [ reflexivity
  | eexists _, _; split; [reflexivity|]; split; [reflexivity|]; split;
    [ vm_compute; reflexivity
    | split; [by intros []|];
      intros n Hrank; eexists; split; [ cbn; rank_leb; reflexivity | cbn; rank_bound ] ] .. ].

Lemma stage_dedup_summary E c : early_summary E 1 dedup (stage_dedup E c).
Proof. intros s. unfold stage_dedup. early_cases. Qed.

Lemma stage_prune_summary E c : early_summary E 2 prune (stage_prune E c).
Proof. intros s. unfold stage_prune. early_cases. Qed.

(** The document is untouched by stages that only measure it. *)
Lemma sequence_cons m ms s :
  sequence (m :: ms) s = bind m (fun _ => sequence ms) s.
Proof. reflexivity. Qed.

Lemma sequence_snoc ms m : forall s,
  sequence (ms ++ [m]) s =
    match sequence ms s with
    | (Normal _, s1, evs1) =>
        let '(c, s2, evs2) := m s1 in
        (match c with Normal _ => Normal tt | Return r => Return r | Throw e => Throw e end,
         s2, (evs1 ++ evs2)%list)
    | other => other
    end.
Proof.
  induction ms as [|m0 ms IH]; intros s; cbn [app sequence].
  - unfold bind, ret. destruct (m s) as [[[[]|r|e] s1] evs1]; cbn; by rewrite ?app_nil_r.
  - unfold bind. destruct (m0 s) as [[[[]|r|e] s0] evs0]; [|done..].
    rewrite IH. destruct (sequence ms s0) as [[[[]|r|e] s1] evs1]; [|done..].
    destruct (m s1) as [[c s2] evs2]. by rewrite app_assoc.
Qed.

(** ** What a segment says *)

Lemma segment_calls k evs q ok :
  segment k evs = true -> stage_of q <> k -> existsb (call_of q ok) evs = false.
Proof.
  unfold segment, calls_within.
  intros [[[Hw _]%andb_true_iff _]%andb_true_iff _]%andb_true_iff Hq.
  apply not_true_is_false. intros [ev [Hin Hev]]%existsb_exists.
  rewrite forallb_forall in Hw. specialize (Hw ev Hin). rewrite forallb_forall in Hw.
  assert (Hall : In q all_passes) by (destruct q; cbn; tauto).
  specialize (Hw q Hall). apply Nat.eqb_neq in Hq. rewrite Hq in Hw.
  destruct ok; rewrite Hev in Hw; cbn in Hw; [by rewrite orb_true_r in Hw | done].
Qed.

Lemma segment_entries k evs n :
  segment k evs = true -> n <> k -> existsb (stage_entered n) evs = false.
Proof.
  unfold segment, entries_within. intros [_ Hw]%andb_true_iff Hn.
  apply not_true_is_false. intros [ev [Hin Hev]]%existsb_exists.
  rewrite forallb_forall in Hw. specialize (Hw ev Hin). rewrite forallb_forall in Hw.
  assert (Hall : In n stage_numbers).
  { do 7 (try destruct n as [|n]); cbn; try tauto; by destruct ev as [| | | | | | |[] []| | | |]. }
  specialize (Hw n Hall). apply Nat.eqb_neq in Hn. rewrite Hn, Hev in Hw. done.
Qed.

Lemma segment_entered k evs :
  segment k evs = true -> existsb (stage_entered k) evs = true.
Proof.
  unfold segment. by intros [[_ H]%andb_true_iff _]%andb_true_iff.
Qed.

Lemma segment_reported k evs p :
  segment k evs = true -> reported p evs = true.
Proof.
  unfold segment. intros [[[_ H]%andb_true_iff _]%andb_true_iff _]%andb_true_iff.
  rewrite forallb_forall in H. apply H. destruct p; cbn; tauto.
Qed.

(** ** The six stages in sequence *)

(** Dedup and prune both succeed: all six stages run, each leaving its
    segment of events. *)
Lemma stages_main_path E c s d2 :
  early_passes (lib E) (document s) = (d2, None) ->
  exists s2 s3 s4 s5 s6 T1 T2 T3 T4 T5 T6,
    sequence [stage_dedup E c; stage_prune E c] s = (Normal tt, s2, (T1 ++ T2)%list)
    /\ document s2 = d2
    /\ stage_resample E c s2 = (Normal tt, s3, T3)
    /\ stage_texture E c s3 = (Normal tt, s4, T4)
    /\ stage_mesh E c s4 = (Normal tt, s5, T5)
    /\ stage_draco E c s5 = (Normal tt, s6, T6)
    /\ sequence (stages E c) s
       = (Normal tt, s6, (T1 ++ T2 ++ T3 ++ T4 ++ T5 ++ T6)%list)
    /\ (segment 1 T1 = true /\ forall p, existsb (failed_call p) T1 = false)
    /\ (segment 2 T2 = true /\ forall p, existsb (failed_call p) T2 = false)
    /\ segment 3 T3 = true /\ segment 4 T4 = true
    /\ segment 5 T5 = true /\ segment 6 T6 = true.
Proof.
  unfold early_passes. intros Hearly.
  pose proof (stage_dedup_summary E c s) as H1.
  destruct (lib_transform (lib E) dedup (document s)) as [d1 [e|]]; [done|].
  destruct H1 as (s1 & T1 & Hrun1 & Hd1 & Hseg1 & Hq1 & _).
  pose proof (stage_prune_summary E c s1) as H2. rewrite Hd1, Hearly in H2.
  destruct H2 as (s2 & T2 & Hrun2 & Hd2 & Hseg2 & Hq2 & _).
  destruct (stage_resample_summary E c s2) as (s3 & T3 & Hrun3 & Hseg3 & _).
  destruct (stage_texture_summary E c s3) as (s4 & T4 & Hrun4 & Hseg4 & _).
  destruct (stage_mesh_summary E c s4) as (s5 & T5 & Hrun5 & Hseg5 & _).
  destruct (stage_draco_summary E c s5) as (s6 & T6 & Hrun6 & Hseg6 & _).
  exists s2, s3, s4, s5, s6, T1, T2, T3, T4, T5, T6.
  repeat match goal with |- _ /\ _ => split end; try done.
  - cbn [sequence]. unfold bind, ret. rewrite Hrun1, Hrun2. by rewrite app_nil_r.
  - unfold stages. cbn [sequence]. unfold bind, ret.
    rewrite Hrun1, Hrun2, Hrun3, Hrun4, Hrun5, Hrun6. by rewrite app_nil_r.
Qed.

(** The events of stages 1 and 2 when one of them throws: nothing fails
    before the call that throws, no later stage is entered, and that call is
    the last event. *)
Lemma stages_early_failure E c s d2 e :
  early_passes (lib E) (document s) = (d2, Some e) ->
  exists s' T p,
    sequence (stages E c) s
      = (Throw e, s', (T ++ [CallTransform Main (match p with PDedup => dedup | _ => prune end)
                               false])%list)
    /\ document s' = d2
    /\ (p = PDedup \/ p = PPrune)
    /\ (forall q, existsb (failed_call q) T = false)
    /\ (forall n, (stage_of p < n)%nat -> existsb (stage_entered n) T = false)
    /\ (forall q ok, (3 <= stage_of q)%nat -> existsb (call_of q ok) T = false)
    /\ sequence (firstn 2 (stages E c)) s = sequence (stages E c) s.
Proof.
  unfold early_passes. intros Hearly.
  pose proof (stage_dedup_summary E c s) as H1.
  destruct (lib_transform (lib E) dedup (document s)) as [d1 [e1|]].
  - injection Hearly as <- <-. exists (set_document d1 s), [], PDedup.
    unfold stages. cbn [firstn sequence].
    rewrite !(bind_throw _ _ _ _ _ _ H1).
    repeat split; try done; auto.
  - destruct H1 as (s1 & T1 & Hrun1 & Hd1 & Hseg1 & Hq1 & _).
    pose proof (stage_prune_summary E c s1) as H2. rewrite Hd1, Hearly in H2.
    exists (set_document d2 s1), T1, PPrune.
    unfold stages. cbn [firstn sequence].
    rewrite !(bind_normal _ _ _ _ _ _ Hrun1), !(bind_throw _ _ _ _ _ _ H2).
    repeat split; try done; auto.
    + intros n Hn. apply (segment_entries 1); [done|]. cbn in Hn. lia.
    + intros q ok Hq. apply (segment_calls 1); [done | lia].
Qed.

(** ** The last-resort branch, the report, the set-up *)

Lemma setup_aside evs : forallb setup_event evs = true -> forallb aside evs = true.
Proof.
  induction evs as [|ev evs IH]; cbn [forallb]; [done|].
  unfold setup_event at 1. intros [[-> _]%andb_true_iff H]%andb_true_iff. auto.
Qed.

Lemma setup_no_pass evs :
  forallb setup_event evs = true -> existsb pass_event evs = false.
Proof.
  induction evs as [|ev evs IH]; cbn [forallb existsb]; [done|].
  unfold setup_event at 1. intros [[Has Hev]%andb_true_iff H]%andb_true_iff.
  rewrite IH by done. by destruct ev.
Qed.

(** The [catch (transformError)] clause either ends the request with the
    minimal answer or completes normally with the level set to "error"; it
    never throws and never touches the request's document. *)
Lemma on_transform_error_run E c e s :
  exists res s' H,
    on_transform_error E c e s = (res, s', H)
    /\ forallb aside H = true
    /\ existsb (failure_report PDedup) H = true
    /\ document s' = document s
    /\ ((res = Normal tt /\ optimizationLevel s' = "error" /\ fs s' = fs s)
        \/ (res = Return (NextResponse_json (minimal_report c "minimal") None)
            /\ optimizationLevel s' = "minimal")).
Proof.
  unfold on_transform_error, minimal_fallback, NodeIO_read, NodeIO_write. run_monad.
  cbn [fs set_level].
  destruct (fs s !! inputPath c) as [bytes|]; run_monad;
    [|eexists _, _, _; split; [reflexivity|]; repeat split; auto].
  destruct (io_read (lib_again E) (inputPath c) bytes) as [d2|e2]; run_monad;
    [|eexists _, _, _; split; [reflexivity|]; repeat split; auto].
  cbn [transform_all].
  destruct (lib_transform (lib_again E) dedup d2) as [d3 [e3|]]; run_monad;
    [eexists _, _, _; split; [reflexivity|]; repeat split; auto|].
  destruct (lib_transform (lib_again E) prune d3) as [d4 [e4|]]; run_monad;
    [eexists _, _, _; split; [reflexivity|]; repeat split; auto|].
  destruct (io_write (lib_again E) (outputPath c) d4) as [out|e5]; run_monad;
    eexists _, _, _; (split; [reflexivity|]); repeat split; auto.
Qed.

Lemma encode_and_report_run E c s :
  match io_write (lib E) (outputPath c) (document s) with
  | Resolved bytes =>
      exists R,
        encode_and_report E c s
          = (Return (NextResponse_json
                       (full_report c (optimizationLevel s) (Z.of_nat (length bytes))) None),
             set_fs (<[outputPath c := bytes]> (fs s)) s,
             CallWrite Main (outputPath c) true :: R)
        /\ forallb setup_event R = true
  | Rejected e =>
      encode_and_report E c s = (Throw e, s, [CallWrite Main (outputPath c) false])
  end.
Proof.
  unfold encode_and_report, NodeIO_write, stat_size. run_monad.
  destruct (io_write (lib E) (outputPath c) (document s)) as [bytes|e]; run_monad; [|done].
  cbn [fs set_fs]. rewrite lookup_insert_eq. run_monad.
  eexists. split; [reflexivity|]. done.
Qed.

Lemma on_error_run e s :
  exists r,
    on_error e s = (Return r, s, [Console console_error "파일 저장 에러:" (ArgThrown e)])
    /\ status r = 500
    /\ json_get "error" (body r)
       = Some (JStr (match e with
                     | ErrorObject m _ => m
                     | OtherValue _ => "최적화 중 오류가 발생했습니다."
                     end)).
Proof. unfold on_error. run_monad. eexists. split; [reflexivity|]. by destruct e as [m [st|]|v]. Qed.

(** Storing and decoding the upload: it completes normally or throws, and
    none of its events belongs to the pipeline. *)
Lemma receive_run E file s :
  exists res s' T0,
    receive E file s = (res, s', T0)
    /\ forallb setup_event T0 = true
    /\ (forall r, res <> Return r).
Proof.
  unfold receive, fs_writeFile, stat_size, NodeIO_read. run_monad.
  destruct (file_arrayBuffer file) as [buffer|e0]; run_monad;
    [|eexists _, _, _; split; [reflexivity|]; by split].
  set (inputPath := path_join E _ _).
  destruct (writeFile E inputPath buffer) as [e1|]; run_monad;
    [eexists _, _, _; split; [reflexivity|]; by split|].
  cbn [fs set_fs]. rewrite lookup_insert_eq. run_monad.
  match goal with
  | |- context [prepare_draco E ?s1] =>
      destruct (prepare_draco_result E s1) as (s2 & evs2 & Hprep & Hevs2 & _ & Hfs2);
      rewrite Hprep
  end.
  rewrite Hfs2. cbn [fs set_fs]. rewrite lookup_insert_eq.
  destruct (io_read (lib E) inputPath buffer) as [d|e2]; run_monad;
    eexists _, _, _; (split; [reflexivity|]); (split; [|done]); cbn [app forallb];
    rewrite ?forallb_app; cbn [forallb]; rewrite ?andb_true_r; by rewrite Hevs2.
Qed.

(** The [catch (transformError)] clause by its outcome: it makes one run of
    the last-resort branch; when every step of it succeeds the clause
    answers with the minimal report, the level at "minimal" and the output
    written, and otherwise it completes normally with the level at "error"
    and the files as they were. *)
Lemma on_transform_error_chain E c e s :
  exists res s' H,
    on_transform_error E c e s = (res, s', H)
    /\ forallb aside H = true
    /\ last_resort_run (inputPath c) (outputPath c) (List.filter second_document_event H)
    /\ match last_resort_output E c (fs s) with
       | Some out =>
           res = Return (NextResponse_json (minimal_report c "minimal") None)
           /\ optimizationLevel s' = "minimal"
           /\ fs s' = <[outputPath c := out]> (fs s)
           /\ In (CallWrite Second (outputPath c) true) H
       | None =>
           res = Normal tt
           /\ optimizationLevel s' = "error"
           /\ fs s' = fs s
           /\ ~ In (CallWrite Second (outputPath c) true) H
       end.
Proof.
  unfold on_transform_error, minimal_fallback, NodeIO_read, NodeIO_write, last_resort_output,
    last_resort_run.
  run_monad. cbn [fs set_level].
  destruct (fs s !! inputPath c) as [bytes|]; run_monad.
  2: { eexists _, _, _. split; [reflexivity|]. split; [done|]. cbn [app List.filter second_document_event].
       split; [by left|]. repeat split; try done. cbn. intuition discriminate. }
  destruct (io_read (lib_again E) (inputPath c) bytes) as [d2|e2]; run_monad.
  2: { eexists _, _, _. split; [reflexivity|]. split; [done|]. cbn [app List.filter second_document_event].
       split; [by left|]. repeat split; try done. cbn. intuition discriminate. }
  cbn [transform_all].
  destruct (lib_transform (lib_again E) dedup d2) as [d3 [e3|]]; run_monad.
  { eexists _, _, _. split; [reflexivity|]. split; [done|]. cbn [app List.filter second_document_event succeeded].
    split; [right; by left|]. repeat split; try done. cbn. intuition discriminate. }
  destruct (lib_transform (lib_again E) prune d3) as [d4 [e4|]]; run_monad.
  { eexists _, _, _. split; [reflexivity|]. split; [done|]. cbn [app List.filter second_document_event succeeded].
    split; [right; right; by left|]. repeat split; try done. cbn. intuition discriminate. }
  destruct (io_write (lib_again E) (outputPath c) d4) as [out|e5]; run_monad.
  - eexists _, _, _. split; [reflexivity|]. split; [done|]. cbn [app List.filter second_document_event succeeded].
    split; [right; right; right; by exists true|]. repeat split; try done. cbn. tauto.
  - eexists _, _, _. split; [reflexivity|]. split; [done|]. cbn [app List.filter second_document_event succeeded].
    split; [right; right; right; by exists false|]. repeat split; try done.
    cbn. intuition discriminate.
Qed.

(** ** The pipeline under the outer catch *)

Lemma try_catch_bind_normal {A B} (m : M A) (k : A -> M B) h s a s1 evs1 :
  m s = (Normal a, s1, evs1) ->
  try_catch (bind m k) h s
  = (let '(c, s2, evs2) := try_catch (k a) h s1 in (c, s2, (evs1 ++ evs2)%list)).
Proof.
  intros H. unfold try_catch, bind. rewrite H.
  destruct (k a s1) as [[[b|r|e] s2] evs2]; [done..|].
  destruct (h e s2) as [[c s3] evs3]. by rewrite app_assoc.
Qed.

Lemma try_catch_bind_return {A B} (m : M A) (k : A -> M B) h s r s1 evs1 :
  m s = (Return r, s1, evs1) -> try_catch (bind m k) h s = (Return r, s1, evs1).
Proof. intros H. unfold try_catch, bind. by rewrite H. Qed.

Lemma try_catch_bind_throw {A B} (m : M A) (k : A -> M B) h s e s1 evs1 :
  m s = (Throw e, s1, evs1) ->
  try_catch (bind m k) h s
  = (let '(c, s2, evs2) := h e s1 in (c, s2, (evs1 ++ evs2)%list)).
Proof. intros H. unfold try_catch, bind. by rewrite H. Qed.

Lemma finish_run E c s :
  exists res s' tail,
    try_catch (encode_and_report E c) on_error s = (res, s', tail)
    /\ finishes E c s res s' tail.
Proof.
  pose proof (encode_and_report_run E c s) as H. unfold finishes, try_catch.
  destruct (io_write (lib E) (outputPath c) (document s)) as [bytes|e].
  - destruct H as (R & -> & HR). eexists _, _, _. split; [reflexivity|]. eauto.
  - rewrite H. destruct (on_error_run e s) as (r & -> & Hst & _).
    eexists _, _, _. split; [reflexivity|]. eauto.
Qed.

(** Dedup and prune succeed: the six stages, then the final write. *)
Lemma pipeline_main E c s d2 :
  early_passes (lib E) (document s) = (d2, None) ->
  exists s6 T res s' tail,
    sequence (stages E c) (set_level "none" s) = (Normal tt, s6, T)
    /\ pipeline E c s = (res, s', (T ++ tail)%list)
    /\ finishes E c s6 res s' tail.
Proof.
  intros Hearly.
  destruct (stages_main_path E c (set_level "none" s) d2 Hearly)
    as (s2 & s3 & s4 & s5 & s6 & T1 & T2 & T3 & T4 & T5 & T6 & _ & _ & _ & _ & _ & _ & Hrun & _).
  destruct (finish_run E c s6) as (res & s' & tail & Hfin & Hfinishes).
  eexists s6, _, res, s', tail. split; [exact Hrun|]. split; [|done].
  unfold pipeline, optimize.
  assert (Hopt : (modify (set_level "none");;
                  try_catch (sequence (stages E c)) (on_transform_error E c)) s
                 = (Normal tt, s6, (T1 ++ T2 ++ T3 ++ T4 ++ T5 ++ T6)%list)).
  { unfold bind at 1, modify, try_catch. by rewrite Hrun. }
  rewrite (try_catch_bind_normal _ _ _ _ _ _ _ Hopt), Hfin. done.
Qed.

(** Dedup or prune throws: the handler of the big [try], and then either
    the minimal answer or the final write with the level at "error". *)
Lemma pipeline_early_failure E c s d2 e :
  early_passes (lib E) (document s) = (d2, Some e) ->
  exists s1 T0 p resH sH H res s' tail,
    let T := (T0 ++ [CallTransform Main (match p with PDedup => dedup | _ => prune end)
                       false])%list in
    sequence (stages E c) (set_level "none" s) = (Throw e, s1, T)
    /\ (p = PDedup \/ p = PPrune)
    /\ (forall q, existsb (failed_call q) T0 = false)
    /\ (forall n, (stage_of p < n)%nat -> existsb (stage_entered n) T0 = false)
    /\ (forall q ok, (3 <= stage_of q)%nat -> existsb (call_of q ok) T0 = false)
    /\ on_transform_error E c e s1 = (resH, sH, H)
    /\ forallb aside H = true
    /\ existsb (failure_report PDedup) H = true
    /\ pipeline E c s = (res, s', (T ++ H ++ tail)%list)
    /\ ((resH = Return (NextResponse_json (minimal_report c "minimal") None)
         /\ res = resH /\ tail = [] /\ optimizationLevel s' = "minimal")
        \/ (resH = Normal tt /\ optimizationLevel sH = "error" /\ document sH = d2
            /\ finishes E c sH res s' tail)).
Proof.
  intros Hearly.
  destruct (stages_early_failure E c (set_level "none" s) d2 e Hearly)
    as (s1 & T0 & p & Hrun & Hdoc & Hp & Hquiet & Hentry & Hlate & _).
  destruct (on_transform_error_run E c e s1) as (resH & sH & H & HrunH & Has & Hrep & HdocH & Hres).
  exists s1, T0, p, resH, sH, H.
  set (T := (T0 ++ _)%list) in *.
  assert (Hopt : optimize E c s = (resH, sH, (T ++ H)%list)).
  { unfold optimize, bind at 1, modify, try_catch. by rewrite Hrun, HrunH. }
  destruct Hres as [(-> & Hlv & Hfs)|(-> & Hlv)].
  - destruct (finish_run E c sH) as (res & s' & tail & Hfin & Hfinishes).
    exists res, s', tail. cbv zeta. fold T.
    repeat match goal with |- _ /\ _ => split end; try done.
    + unfold pipeline. rewrite (try_catch_bind_normal _ _ _ _ _ _ _ Hopt), Hfin.
      by rewrite <- ?app_assoc.
    + right. repeat split; try done. congruence.
  - eexists _, sH, []. cbv zeta. fold T.
    repeat match goal with |- _ /\ _ => split end; try done.
    + unfold pipeline. rewrite (try_catch_bind_return _ _ _ _ _ _ _ Hopt).
      by rewrite app_nil_r.
    + left. done.
Qed.

(** ** The whole handler *)

(** A request whose upload was stored and decoded is answered by the
    pipeline. *)
Lemma POST_decoded E files g fd file c s1 T0 :
  req_formData E = Resolved fd ->
  formData_get "file" fd = Some (FormFile file) ->
  receive E file (initial_state files g) = (Normal c, s1, T0) ->
  POST E files g
  = (let '(res, s', evs) := pipeline E c s1 in (answer_of res, s', (T0 ++ evs)%list)).
Proof.
  intros Hfd Hget Hrec. unfold POST, handle. rewrite Hfd. cbn [await].
  rewrite (try_catch_bind_normal (ret fd) _ _ _ fd _ [] eq_refl), Hget.
  rewrite (try_catch_bind_normal _ _ _ _ _ _ _ Hrec). fold (pipeline E c).
  destruct (pipeline E c s1) as [[[[]|r|e] s'] evs]; by rewrite ?app_nil_l.
Qed.

(** A request that does not get as far: the answer is an error and the
    events are those of the set-up. *)
Lemma POST_not_decoded E files g :
  (forall fd file c s1 T0,
      req_formData E = Resolved fd ->
      formData_get "file" fd = Some (FormFile file) ->
      receive E file (initial_state files g) <> (Normal c, s1, T0)) ->
  exists r s evs,
    POST E files g = (Some r, s, evs)
    /\ (status r = 400 \/ status r = 500)
    /\ forallb setup_event evs = true.
Proof.
  intros Hnot. unfold POST, handle.
  destruct (req_formData E) as [fd|e0] eqn:Hfd; cbn [await];
    [|rewrite (try_catch_bind_throw (throw e0) _ _ _ e0 _ [] eq_refl);
      destruct (on_error_run e0 (initial_state files g)) as (r & -> & Hst & _);
      eexists _, _, _; split; [reflexivity|]; split; [by right | done]].
  rewrite (try_catch_bind_normal (ret fd) _ _ _ fd _ [] eq_refl).
  destruct (formData_get "file" fd) as [[text|file]|] eqn:Hget.
  - destruct text as [|a text].
    + unfold try_catch, return_. eexists _, _, _. split; [reflexivity|]. split; [by left | done].
    + unfold try_catch, throw.
      match goal with |- context [on_error ?e ?s] =>
        destruct (on_error_run e s) as (r & -> & Hst & _) end.
      eexists _, _, _. split; [reflexivity|]. split; [by right | done].
  - destruct (receive_run E file (initial_state files g)) as (res & s1 & T0 & Hrec & HT0 & Hnoret).
    destruct res as [c|r|e].
    + exfalso. by eapply Hnot.
    + exfalso. by eapply Hnoret.
    + rewrite (try_catch_bind_throw _ _ _ _ _ _ _ Hrec).
      destruct (on_error_run e s1) as (r & -> & Hst & _).
      eexists _, _, _. split; [reflexivity|]. split; [by right|].
      cbn [app]. rewrite forallb_app, HT0. done.
  - unfold try_catch, return_. eexists _, _, _. split; [reflexivity|]. split; [by left | done].
Qed.

(** ** C1: what a failing pass does to the request *)


Lemma finishes_tail E c s res s' tail :
  finishes E c s res s' tail ->
  forallb aside tail = true
  /\ exists r, res = Return r
       /\ (status r = 200
           \/ (status r = 500
               /\ exists path e,
                    tail = [CallWrite Main path false;
                            Console console_error "파일 저장 에러:" (ArgThrown e)])).
Proof.
  unfold finishes. destruct (io_write (lib E) (outputPath c) (document s)) as [bytes|e].
  - intros (-> & _ & R & -> & HR). split.
    + cbn [forallb aside]. by apply setup_aside.
    + eexists. split; [reflexivity|]. by left.
  - intros ((r & -> & Hst) & _ & ->). split; [done|].
    eexists. split; [reflexivity|]. right. eauto.
Qed.

Lemma main_path_contained p T0 T1 T2 T3 T4 T5 T6 tail :
  recovers p = true ->
  forallb aside T0 = true ->
  (forall q, existsb (failed_call q) T1 = false) ->
  (forall q, existsb (failed_call q) T2 = false) ->
  segment 3 T3 = true -> segment 4 T4 = true ->
  segment 5 T5 = true -> segment 6 T6 = true ->
  forallb aside tail = true ->
  contained p (T0 ++ (T1 ++ T2 ++ T3 ++ T4 ++ T5 ++ T6) ++ tail) = true.
Proof.
  intros Hrec H0 H1 H2 H3 H4 H5 H6 Ht.
  assert (Q0 : existsb (failed_call p) T0 = false) by by apply asides_no_call.
  assert (Qt : existsb (failed_call p) tail = false) by by apply asides_no_call.
  pose proof (H1 p) as Q1. pose proof (H2 p) as Q2.
  pose proof (segment_entered _ _ H4) as E4.
  pose proof (segment_entered _ _ H5) as E5.
  pose proof (segment_entered _ _ H6) as E6.
  destruct p; try discriminate Hrec.
  - (* resample *)
    replace (T0 ++ (T1 ++ T2 ++ T3 ++ T4 ++ T5 ++ T6) ++ tail)%list
      with ((T0 ++ T1 ++ T2) ++ T3 ++ (T4 ++ T5 ++ T6 ++ tail))%list
      by (rewrite <- !app_assoc; reflexivity).
    apply contained_app_quiet; [by rewrite !existsb_app, Q0, Q1, Q2|].
    apply contained_segment; [done | by eapply segment_reported | |].
    + rewrite !existsb_app, Qt.
      unfold failed_call. by rewrite (segment_calls 4 T4), (segment_calls 5 T5), (segment_calls 6 T6).
    + cbn [later_stages List.filter stage_numbers stage_of Nat.ltb Nat.leb forallb].
      rewrite !existsb_app, E4, E5, E6. by rewrite ?orb_true_r.
  - (* texture *)
    replace (T0 ++ (T1 ++ T2 ++ T3 ++ T4 ++ T5 ++ T6) ++ tail)%list
      with ((T0 ++ T1 ++ T2 ++ T3) ++ T4 ++ (T5 ++ T6 ++ tail))%list
      by (rewrite <- !app_assoc; reflexivity).
    apply contained_app_quiet;
      [rewrite !existsb_app, Q0, Q1, Q2; unfold failed_call; by rewrite (segment_calls 3 T3)|].
    apply contained_segment; [done | by eapply segment_reported | |].
    + rewrite !existsb_app, Qt.
      unfold failed_call. by rewrite (segment_calls 5 T5), (segment_calls 6 T6).
    + cbn [later_stages List.filter stage_numbers stage_of Nat.ltb Nat.leb forallb].
      rewrite !existsb_app, E5, E6. by rewrite ?orb_true_r.
  - (* weld *)
    replace (T0 ++ (T1 ++ T2 ++ T3 ++ T4 ++ T5 ++ T6) ++ tail)%list
      with ((T0 ++ T1 ++ T2 ++ T3 ++ T4) ++ T5 ++ (T6 ++ tail))%list
      by (rewrite <- !app_assoc; reflexivity).
    apply contained_app_quiet;
      [rewrite !existsb_app, Q0, Q1, Q2; unfold failed_call;
       by rewrite (segment_calls 3 T3), (segment_calls 4 T4)|].
    apply contained_segment; [done | by eapply segment_reported | |].
    + rewrite !existsb_app, Qt. unfold failed_call. by rewrite (segment_calls 6 T6).
    + cbn [later_stages List.filter stage_numbers stage_of Nat.ltb Nat.leb forallb].
      rewrite !existsb_app, E6. by rewrite ?orb_true_r.
  - (* pre-quantization *)
    replace (T0 ++ (T1 ++ T2 ++ T3 ++ T4 ++ T5 ++ T6) ++ tail)%list
      with ((T0 ++ T1 ++ T2 ++ T3 ++ T4) ++ T5 ++ (T6 ++ tail))%list
      by (rewrite <- !app_assoc; reflexivity).
    apply contained_app_quiet;
      [rewrite !existsb_app, Q0, Q1, Q2; unfold failed_call;
       by rewrite (segment_calls 3 T3), (segment_calls 4 T4)|].
    apply contained_segment; [done | by eapply segment_reported | |].
    + rewrite !existsb_app, Qt. unfold failed_call. by rewrite (segment_calls 6 T6).
    + cbn [later_stages List.filter stage_numbers stage_of Nat.ltb Nat.leb forallb].
      rewrite !existsb_app, E6. by rewrite ?orb_true_r.
  - (* draco *)
    replace (T0 ++ (T1 ++ T2 ++ T3 ++ T4 ++ T5 ++ T6) ++ tail)%list
      with ((T0 ++ T1 ++ T2 ++ T3 ++ T4 ++ T5) ++ T6 ++ tail)%list
      by (rewrite <- !app_assoc; reflexivity).
    apply contained_app_quiet;
      [rewrite !existsb_app, Q0, Q1, Q2; unfold failed_call;
       by rewrite (segment_calls 3 T3), (segment_calls 4 T4), (segment_calls 5 T5)|].
    apply contained_segment; [done | by eapply segment_reported | done | done].
  - (* draco, second attempt *)
    replace (T0 ++ (T1 ++ T2 ++ T3 ++ T4 ++ T5 ++ T6) ++ tail)%list
      with ((T0 ++ T1 ++ T2 ++ T3 ++ T4 ++ T5) ++ T6 ++ tail)%list
      by (rewrite <- !app_assoc; reflexivity).
    apply contained_app_quiet;
      [rewrite !existsb_app, Q0, Q1, Q2; unfold failed_call;
       by rewrite (segment_calls 3 T3), (segment_calls 4 T4), (segment_calls 5 T5)|].
    apply contained_segment; [done | by eapply segment_reported | done | done].
Qed.

Lemma early_failure_contained p p0 T0 Te H tail :
  p0 = PDedup \/ p0 = PPrune ->
  forallb aside T0 = true ->
  (forall q, existsb (failed_call q) Te = false) ->
  forallb aside H = true ->
  existsb (failure_report PDedup) H = true ->
  forallb aside tail = true ->
  contained p
    (T0 ++ (Te ++ [CallTransform Main (match p0 with PDedup => dedup | _ => prune end) false])
        ++ H ++ tail) = true.
Proof.
  intros Hp0 H0 He HH Hrep Ht.
  set (ev0 := CallTransform Main _ false).
  replace (T0 ++ (Te ++ [ev0]) ++ H ++ tail)%list
    with ((T0 ++ Te) ++ ev0 :: (H ++ tail))%list
    by (rewrite <- !app_assoc; reflexivity).
  assert (Hpost : forallb aside (H ++ tail) = true) by by rewrite forallb_app, HH, Ht.
  apply contained_app_quiet.
  { rewrite existsb_app, He. by rewrite (asides_no_failure p T0 H0). }
  cbn [contained]. apply andb_true_iff. split.
  - destruct (failed_call p ev0) eqn:Hfail; [|done].
    assert (Hpp : p = p0).
    { subst ev0. destruct Hp0 as [-> | ->]; by destruct p. }
    subst p. unfold continues_after. apply andb_true_iff. split.
    + rewrite existsb_app.
      destruct Hp0 as [-> | ->]; [by rewrite Hrep|].
      change (failure_report PPrune) with (failure_report PDedup). by rewrite Hrep.
    + apply forallb_forall. intros n _.
      rewrite (asides_no_entry n _ Hpost). by destruct Hp0 as [-> | ->].
  - apply no_call_contained. by apply asides_no_failure.
Qed.

(** Once the upload is decoded: every failure is contained, and there is
    an answer, 200 unless the final write threw. *)
Lemma pipeline_contained E c s1 T0 res s' evs p :
  forallb setup_event T0 = true ->
  pipeline E c s1 = (res, s', evs) ->
  contained p (T0 ++ evs) = true
  /\ exists r, res = Return r
       /\ (status r = 200 \/ (status r = 500 /\ final_write_failed (T0 ++ evs))).
Proof.
  intros HT0%setup_aside Hrun.
  destruct (early_passes (lib E) (document s1)) as [d2 [e|]] eqn:Hearly.
  - destruct (pipeline_early_failure E c s1 d2 e Hearly)
      as (s2 & Te & p0 & resH & sH & H & res' & s'' & tail
          & _ & Hp0 & Hquiet & _ & _ & _ & HH & Hrep & Hpipe & Hend).
    cbv zeta in Hpipe. rewrite Hrun in Hpipe. injection Hpipe as -> -> ->.
    destruct Hend as [(-> & -> & -> & _)|(-> & _ & _ & Hfin)].
    + split; [by apply early_failure_contained|].
      eexists. split; [reflexivity|]. by left.
    + apply finishes_tail in Hfin as (Htail & r & -> & Hst).
      split; [by apply early_failure_contained|].
      exists r. split; [done|].
      destruct Hst as [?|(? & path & e' & ->)]; [by left|right]. split; [done|].
      exists (T0 ++ (Te ++ [CallTransform Main
                                  match p0 with PDedup => dedup | _ => prune end false])
                 ++ H)%list, path, e'.
      by rewrite <- !app_assoc.
  - destruct (stages_main_path E c (set_level "none" s1) d2 Hearly)
      as (s2 & s3 & s4 & s5 & s6 & T1 & T2 & T3 & T4 & T5 & T6
          & _ & _ & _ & _ & _ & _ & Hseq & (_ & Q1) & (_ & Q2) & S3 & S4 & S5 & S6).
    destruct (pipeline_main E c s1 d2 Hearly) as (s6' & T & res' & s'' & tail & Hseq' & Hpipe & Hfin).
    rewrite Hseq in Hseq'. injection Hseq' as <- <-.
    rewrite Hrun in Hpipe. injection Hpipe as -> -> ->.
    apply finishes_tail in Hfin as (Htail & r & -> & Hst).
    split.
    + destruct (recovers p) eqn:Hrec; [by apply main_path_contained|].
      apply no_call_contained. rewrite !existsb_app.
      rewrite (asides_no_failure p T0 HT0), (asides_no_failure p tail Htail), Q1, Q2.
      unfold failed_call.
      destruct p; try discriminate Hrec;
        by rewrite (segment_calls 3 T3), (segment_calls 4 T4),
                   (segment_calls 5 T5), (segment_calls 6 T6).
    + exists r. split; [done|].
      destruct Hst as [?|(? & path & e' & ->)]; [by left|right]. split; [done|].
      exists (T0 ++ T1 ++ T2 ++ T3 ++ T4 ++ T5 ++ T6)%list, path, e'.
      by rewrite <- !app_assoc.
Qed.



(** ** C2: the texture stage *)

Lemma texture_loop_spec L todo : forall pre,
  let '(final, r, evs) := texture_loop L (length pre) todo (pre ++ todo) in
  match first_failure L todo with
  | None =>
      r = None
      /\ final = (pre ++ map (recompressed L) todo)%list
      /\ evs = map (fun j => CallCompressTexture j true) (seq (length pre) (length todo))
  | Some k =>
      (exists e, r = Some e)
      /\ final = (pre ++ map (recompressed L) (firstn (S k) todo) ++ skipn (S k) todo)%list
      /\ evs = (map (fun j => CallCompressTexture j true) (seq (length pre) k)
                ++ [CallCompressTexture (length pre + k) false])%list
  end.
Proof.
  induction todo as [|t rest IH]; intros pre; cbn [texture_loop first_failure].
  - cbn [map length seq]. by rewrite app_nil_r.
  - unfold recompressed in *.
    destruct (compressTexture L webp_1024 t) as [t' r0] eqn:Ht.
    assert (Hins : <[length pre := t']> (pre ++ t :: rest)%list = ((pre ++ [t']) ++ rest)%list).
    { rewrite insert_app_r_alt by lia. rewrite Nat.sub_diag. cbn. by rewrite <- app_assoc. }
    destruct r0 as [e|]; cbn [snd].
    + rewrite Hins. repeat split; eauto.
      * cbn [firstn skipn map]. rewrite Ht. cbn. by rewrite <- app_assoc.
      * cbn. by rewrite Nat.add_0_r.
    + rewrite Hins. specialize (IH (pre ++ [t'])%list).
      rewrite length_app in IH. cbn [length] in IH.
      replace (length pre + 1)%nat with (S (length pre)) in IH by lia.
      destruct (texture_loop L (S (length pre)) rest ((pre ++ [t']) ++ rest))
        as [[final r] evs].
      destruct (first_failure L rest) as [k|]; cbn [option_map].
      * destruct IH as (He & -> & ->). repeat split; [done| |].
        -- cbn [firstn skipn map]. rewrite Ht. cbn. by rewrite <- !app_assoc.
        -- cbn [seq map app]. f_equal. f_equal. f_equal. f_equal. lia.
      * destruct IH as (-> & -> & ->). repeat split.
        cbn [map]. rewrite Ht. cbn. by rewrite <- app_assoc.
Qed.

(** Stage 4 on a document that has textures: the events are the two list
    queries, the announcement, the calls of the loop, and then either the
    success tail or the one warning. *)
Lemma stage_texture_run E c s :
  listTextures (document s) <> [] ->
  let ts := listTextures (document s) in
  let '(final, r, loop_evs) := texture_loop (lib E) 0 ts ts in
  exists s' tail,
    stage_texture E c s
      = (Normal tt, s',
         CallListTextures (length ts) :: CallListTextures (length ts)
           :: Console console_log "🖼️ 텍스처 발견, WebP 압축 시작..." (ArgNum (Z.of_nat (length ts)))
           :: (loop_evs ++ tail)%list)
    /\ listTextures (document s') = final
    /\ match r with
       | Some e =>
           tail = [Console console_warn "⚠️ 텍스처 압축 실패:" (ArgThrown e)]
           /\ optimizationLevel s' = optimizationLevel s
       | None =>
           forallb aside tail = true /\ optimizationLevel s' = "texture-compressed"
       end.
Proof.
  intros Hne ts. unfold stage_texture. run_monad.
  assert (Hpos : (0 <? length (listTextures (document s)))%nat = true).
  { apply Nat.ltb_lt. destruct (listTextures (document s)); [done | cbn; lia]. }
  rewrite Hpos.
  pose proof (compress_each_run (lib E) (listTextures (document s)) 0 s) as Hrun.
  fold ts in Hrun |- *.
  destruct (texture_loop (lib E) 0 ts ts) as [[final r] evs].
  destruct Hrun as (s1 & Hrun & (_ & _ & Hlv & _) & Hfinal). rewrite Hrun.
  destruct r as [e|].
  - eexists _, _. split; [reflexivity|]. by repeat split.
  - case_calls; (eexists _, _; split; [reflexivity|]; by repeat split).
Qed.

(** C2, as the code has it.  The loop of stage 4 sits in one [try] block:
    when the recompression of the texture at index [k] is the first to
    throw, the textures before it have been recompressed, the texture at
    [k] is in the state the call that threw left it in, and the textures
    after it are never handed to the library and keep their bytes.  The
    failure is logged, the level does not change, and the stage completes
    normally. *)
Theorem texture_stage_stops_at_first_failure (E : Env) (c : Scope) (s : State) (k : nat) :
  first_failure (lib E) (listTextures (document s)) = Some k ->
  let before := listTextures (document s) in
  let after := listTextures (document (snd (fst (stage_texture E c s)))) in
  let evs := snd (stage_texture E c s) in
  fst (fst (stage_texture E c s)) = Normal tt
  /\ (forall i t, (i < k)%nat -> before !! i = Some t ->
        after !! i = Some (recompressed (lib E) t))
  /\ (forall t, before !! k = Some t -> after !! k = Some (recompressed (lib E) t))
  /\ (forall i, (k < i)%nat -> after !! i = before !! i)
  /\ In (CallCompressTexture k false) evs
  /\ (forall i ok, (k < i)%nat -> ~ In (CallCompressTexture i ok) evs)
  /\ (exists e, In (Console console_warn "⚠️ 텍스처 압축 실패:" (ArgThrown e)) evs)
  /\ optimizationLevel (snd (fst (stage_texture E c s))) = optimizationLevel s.
Proof.
  intros Hfirst before after evs.
  assert (Hne : listTextures (document s) <> []).
  { intros Hnil. by rewrite Hnil in Hfirst. }
  pose proof (stage_texture_run E c s Hne) as Hrun. cbv zeta in Hrun.
  pose proof (texture_loop_spec (lib E) (listTextures (document s)) []) as Hloop.
  cbn [app length] in Hloop. rewrite Hfirst in Hloop.
  destruct (texture_loop (lib E) 0 (listTextures (document s)) (listTextures (document s)))
    as [[final r] loop_evs].
  destruct Hloop as ((e & ->) & Hfinal & Hevs).
  destruct Hrun as (s' & tail & Hrun & Hafter & -> & Hlv).
  subst after evs before. rewrite Hrun. cbn [fst snd]. rewrite Hafter, Hfinal.
  assert (Hk : (k < length (listTextures (document s)))%nat).
  { clear -Hfirst. revert k Hfirst.
    induction (listTextures (document s)) as [|t l IH]; intros k; cbn; [done|].
    destruct (snd (compressTexture (lib E) webp_1024 t)).
    - intros [= <-]. lia.
    - destruct (first_failure (lib E) l) as [k'|]; cbn; [|done].
      intros [= <-]. specialize (IH k' eq_refl). lia. }
  repeat split.
  - intros i t Hi Ht. rewrite lookup_app_l by (rewrite length_map, length_firstn; lia).
    rewrite list_lookup_fmap, lookup_take_lt by lia. by rewrite Ht.
  - intros t Ht. rewrite lookup_app_l by (rewrite length_map, length_firstn; lia).
    rewrite list_lookup_fmap, lookup_take_lt by lia. by rewrite Ht.
  - intros i Hi. rewrite lookup_app_r by (rewrite length_map, length_firstn; lia).
    rewrite length_map, length_firstn, lookup_drop. f_equal. lia.
  - do 3 right. apply in_or_app. left. rewrite Hevs. apply in_or_app. right. by left.
  - intros i ok Hi [Hin|[Hin|[Hin|Hin]]]; try discriminate.
    apply in_app_or in Hin as [Hin|[Hin|[]]]; [|discriminate].
    rewrite Hevs in Hin. apply in_app_or in Hin as [Hin|[Hin|[]]].
    + apply in_map_iff in Hin as (j & [= <- <-] & Hj). apply in_seq in Hj. lia.
    + injection Hin as <- <-. lia.
  - exists e. do 3 right. apply in_or_app. right. by left.
  - done.
Qed.

(** The second sample texture would recompress, but the first one throws
    and the loop never reaches the second: C2 as stated fails. *)
Lemma second_texture_never_recompressed :
  ~ textures_independent (lib env_first_texture_fails)
      (listTextures sample_document)
      (listTextures
         (document
            (snd (fst (stage_texture env_first_texture_fails sample_scope
                         (state_with sample_document)))))).
Proof.
  intros Hind.
  assert (Hlen : (2 <= length (listTextures sample_document))%nat) by (cbn; lia).
  specialize (Hind Hlen 1%nat (png_texture Byte.x02) eq_refl).
  vm_compute in Hind. discriminate Hind.
Qed.

Lemma texture_stage_stops_at_first_failure_witness :
  first_failure (lib env_first_texture_fails)
    (listTextures (document (state_with sample_document))) = Some 0%nat
  /\ fst (fst (stage_texture env_first_texture_fails sample_scope
                 (state_with sample_document))) = Normal tt.
Proof.
  split; [reflexivity|].
  exact (proj1 (texture_stage_stops_at_first_failure env_first_texture_fails sample_scope
                  (state_with sample_document) 0%nat eq_refl)).
Defined.

(** ** C9 and C3: requests that never reach the pipeline *)

(** C9.  A request whose form data has no "file" field is answered with
    status 400 and an error message; the handler has done nothing else: no
    event at all (no file written, nothing decoded, no pass run), and the
    files and module variables are as they were. *)
Theorem missing_file_is_rejected (E : Env) (files : gmap string (list Byte.byte))
    (g : Globals) (fd : FormData) :
  req_formData E = Resolved fd ->
  formData_get "file" fd = None ->
  POST E files g
  = (Some {| status := 400; body := JObj [("error", JStr "파일이 없습니다.")] |},
     initial_state files g, []).
Proof.
  intros Hfd Hget. unfold POST, handle. rewrite Hfd. cbn [await].
  rewrite (try_catch_bind_normal (ret fd) _ _ _ fd _ [] eq_refl), Hget.
  reflexivity.
Qed.

Lemma missing_file_is_rejected_witness :
  POST env_no_file ∅ fresh_globals
  = (Some {| status := 400; body := JObj [("error", JStr "파일이 없습니다.")] |},
     initial_state ∅ fresh_globals, []).
Proof.
  exact (missing_file_is_rejected env_no_file ∅ fresh_globals _ eq_refl eq_refl).
Defined.

Lemma receive_decode_failure E file s bytes e :
  file_arrayBuffer file = Resolved bytes ->
  io_read (lib E) (upload_path E file) bytes = Rejected e ->
  exists e' s' T0,
    receive E file s = (Throw e', s', T0)
    /\ forallb setup_event T0 = true.
Proof.
  intros Hbuf Hread.
  unfold receive, fs_writeFile, stat_size, NodeIO_read. run_monad. rewrite Hbuf. run_monad.
  fold (upload_path E file).
  destruct (writeFile E (upload_path E file) bytes) as [e1|]; run_monad;
    [eexists _, _, _; split; [reflexivity|]; done|].
  cbn [fs set_fs]. rewrite lookup_insert_eq. run_monad.
  match goal with
  | |- context [prepare_draco E ?s1] =>
      destruct (prepare_draco_result E s1) as (s2 & evs2 & Hprep & Hevs2 & _ & Hfs2);
      rewrite Hprep
  end.
  rewrite Hfs2. cbn [fs set_fs]. rewrite lookup_insert_eq, Hread. run_monad.
  eexists _, _, _. split; [reflexivity|]. cbn [app forallb].
  rewrite ?forallb_app. cbn [forallb]. by rewrite Hevs2.
Qed.

(** C3.  When the stored upload cannot be decoded ([io.read] rejects), the
    request is answered with status 500 and an error message, and no
    transform and no texture recompression is called on any document:
    every event of the request belongs to the set-up. *)
Theorem decode_failure_is_fatal (E : Env) (files : gmap string (list Byte.byte))
    (g : Globals) (fd : FormData) (file : File) (bytes : list Byte.byte) (e : Thrown) :
  req_formData E = Resolved fd ->
  formData_get "file" fd = Some (FormFile file) ->
  file_arrayBuffer file = Resolved bytes ->
  io_read (lib E) (upload_path E file) bytes = Rejected e ->
  (exists r msg,
      answer (POST E files g) = Some r
      /\ status r = 500
      /\ json_get "error" (body r) = Some (JStr msg))
  /\ existsb pass_event (events (POST E files g)) = false
  /\ forallb setup_event (events (POST E files g)) = true.
Proof.
  intros Hfd Hget Hbuf Hread.
  destruct (receive_decode_failure E file (initial_state files g) bytes e Hbuf Hread)
    as (e' & s' & T0 & Hrec & HT0).
  assert (Hpost : exists r msg,
             POST E files g
             = (Some r, s', (T0 ++ [Console console_error "파일 저장 에러:" (ArgThrown e')])%list)
             /\ status r = 500 /\ json_get "error" (body r) = Some (JStr msg)).
  { unfold POST, handle. rewrite Hfd. cbn [await].
    rewrite (try_catch_bind_normal (ret fd) _ _ _ fd _ [] eq_refl), Hget.
    rewrite (try_catch_bind_throw _ _ _ _ _ _ _ Hrec).
    destruct (on_error_run e' s') as (r & -> & Hst & Herr). eauto. }
  destruct Hpost as (r & msg & -> & Hst & Herr). unfold answer, events. cbn [fst snd].
  assert (Hsetup : forallb setup_event
                     (T0 ++ [Console console_error "파일 저장 에러:" (ArgThrown e')]) = true)
    by (by rewrite forallb_app, HT0).
  split; [eauto|]. split; [by apply setup_no_pass | done].
Qed.

Lemma decode_failure_is_fatal_witness :
  (exists r msg,
      answer (POST env_corrupt_upload ∅ fresh_globals) = Some r
      /\ status r = 500
      /\ json_get "error" (body r) = Some (JStr msg))
  /\ existsb pass_event (events (POST env_corrupt_upload ∅ fresh_globals)) = false
  /\ forallb setup_event (events (POST env_corrupt_upload ∅ fresh_globals)) = true.
Proof.
  exact (decode_failure_is_fatal env_corrupt_upload ∅ fresh_globals
           [("file", FormFile sample_file)] sample_file glb_bytes
           (boom "Invalid glTF: bad magic") eq_refl eq_refl eq_refl eq_refl).
Defined.

(** ** Stage 5: weld, then pre-quantization *)

(** Stage 5, as far as the handler decides it.  When weld cannot be had or
    throws, the stage goes on to exactly one other transform: [draco] with
    12 bits for positions and 10 each for normals and texture coordinates;
    it is applied to the document as the weld attempt left it and the stage
    completes normally either way.  Whenever weld is called, its tolerance
    is 1e-4.  What that [draco] call does to the geometry (whether the
    components end up quantized, whether the vertex count stays) is the
    library's doing and is not stated here. *)
Lemma weld_falls_back_to_quantization
    (E : Env) (c : Scope) (s : State) (defaults : DracoBits) (d1 : Document) (e1 : Thrown) :
  weld_outcome (lib E) (document s) = (d1, Some e1) ->
  (let '(res, s', evs) := stage_mesh E c s in
   let '(d2, r2) := lib_transform (lib E) (draco draco_prequantize) d1 in
   res = Normal tt
   /\ pass_calls evs
      = ((if succeeded (import_weld (lib E))
          then [CallTransform Main (weld weld_tolerance) false] else [])
         ++ [CallTransform Main (draco draco_prequantize) (succeeded r2)])%list
   /\ document s' = d2
   /\ optimizationLevel s' = (if succeeded r2 then "pre-quantized" else optimizationLevel s))
  /\ effective_bits defaults draco_prequantize
     = {| positionBits := 12; normalBits := 10; texcoordBits := 10 |}
  /\ (positionBits (effective_bits defaults draco_prequantize) < float32_bits
      /\ normalBits (effective_bits defaults draco_prequantize) < float32_bits
      /\ texcoordBits (effective_bits defaults draco_prequantize) < float32_bits)
  /\ (weld_tolerance == 1 / 10 ^ 4)%Q
  /\ (forall s0 who tol ok,
        In (CallTransform who (weld tol) ok) (snd (stage_mesh E c s0)) ->
        tol = weld_tolerance).
Proof.
  intros Hweld. repeat split.
  - unfold weld_outcome in Hweld. unfold stage_mesh. run_monad.
    destruct (import_weld (lib E)) as [e0|]; run_monad.
    + injection Hweld as <- <-.
      destruct (lib_transform (lib E) (draco draco_prequantize) (document s)) as [d2 [e2|]];
        case_calls; done.
    + rewrite Hweld. run_monad. cbn [document set_document].
      destruct (lib_transform (lib E) (draco draco_prequantize) d1) as [d2 [e2|]];
        case_calls; done.
  - intros s0 who tol ok. unfold stage_mesh. case_calls; cbn [snd app In];
      intros Hin;
      repeat (destruct Hin as [Hin|Hin]; [try discriminate Hin; by injection Hin|]);
      done.
Qed.

Lemma weld_falls_back_to_quantization_witness :
  pass_calls (snd (stage_mesh env_weld_fails sample_scope (state_with sample_document)))
  = [CallTransform Main (weld weld_tolerance) false;
     CallTransform Main (draco draco_prequantize) true].
Proof.
  pose proof (weld_falls_back_to_quantization env_weld_fails sample_scope
                (state_with sample_document) library_draco_defaults
                sample_document (boom "transform failed") eq_refl)
    as (Hrun & _).
  destruct (stage_mesh env_weld_fails sample_scope (state_with sample_document))
    as [[res s'] evs].
  destruct (lib_transform (lib env_weld_fails) (draco draco_prequantize) sample_document)
    as [d2 r2] eqn:Hsecond.
  destruct Hrun as (_ & Hcalls & _).
  injection Hsecond as _ <-. exact Hcalls.
Defined.

(** ** C4: when resample runs *)

Lemma call_made_app p A B : call_made p (A ++ B) = call_made p A || call_made p B.
Proof. apply existsb_app. Qed.

Lemma call_made_false p evs :
  existsb (call_of p true) evs = false -> existsb (call_of p false) evs = false ->
  call_made p evs = false.
Proof.
  unfold call_made. induction evs as [|ev evs IH]; cbn [existsb]; [done|].
  intros [-> Ht]%orb_false_iff [-> Hf]%orb_false_iff. auto.
Qed.

Lemma call_made_aside p evs : forallb aside evs = true -> call_made p evs = false.
Proof. intros H. apply call_made_false; by apply asides_no_call. Qed.

Lemma call_made_segment k p evs :
  segment k evs = true -> stage_of p <> k -> call_made p evs = false.
Proof. intros H Hk. apply call_made_false; by apply (segment_calls k). Qed.

Lemma call_made_succeeded p evs :
  existsb (call_of p true) evs = true -> call_made p evs = true.
Proof.
  unfold call_made. intros [ev [Hin Hev]]%existsb_exists. apply existsb_exists.
  exists ev. by rewrite Hev.
Qed.

(** A stage that was entered and in which nothing failed has made its call
    with success (stages 1 and 2). *)
Lemma entered_and_quiet k p evs :
  (k = 1%nat /\ p = PDedup) \/ (k = 2%nat /\ p = PPrune) ->
  segment k evs = true ->
  existsb (failed_call p) evs = false ->
  existsb (call_of p true) evs = true.
Proof.
  intros Hkp Hseg Hquiet. apply segment_entered in Hseg.
  apply existsb_exists in Hseg as (ev & Hin & Hev). apply existsb_exists. exists ev.
  split; [done|].
  assert (Hnot : failed_call p ev = false).
  { apply not_true_is_false. intros Hf. apply not_true_iff_false in Hquiet. apply Hquiet.
    apply existsb_exists. eauto. }
  destruct Hkp as [[-> ->]|[-> ->]];
    destruct ev as [| | | | | | |[] [] []| | | |]; cbn in *; congruence.
Qed.

Lemma stage_resample_calls E c s :
  call_made PResample (snd (stage_resample E c s))
  = (0 <? length (listAnimations (document s)))%nat
  /\ In (CallListAnimations (length (listAnimations (document s))))
        (snd (stage_resample E c s)).
Proof.
  unfold stage_resample. run_monad.
  destruct (0 <? length (listAnimations (document s)))%nat; case_calls; by split; [|left].
Qed.

(** C4, as the code has it.  For a request whose upload was stored and
    decoded: resample is called exactly when dedup and prune have both
    succeeded and the document, as prune left it, lists at least one
    animation.  When dedup and prune succeed they have both been called;
    when the document then lists no animation, stage 3 asks for the
    animations and calls nothing, so nothing fails there.  When dedup or
    prune throws, resample is not called, whatever animations there are. *)
Theorem resample_runs_iff_animations_after_prune
    (E : Env) (files : gmap string (list Byte.byte)) (g : Globals)
    (fd : FormData) (file : File) (c : Scope) (s1 : State) (T0 : list Event) :
  req_formData E = Resolved fd ->
  formData_get "file" fd = Some (FormFile file) ->
  receive E file (initial_state files g) = (Normal c, s1, T0) ->
  let evs := events (POST E files g) in
  let '(d2, r) := early_passes (lib E) (document s1) in
  call_made PResample evs = succeeded r && (0 <? length (listAnimations d2))%nat
  /\ (succeeded r = true ->
      existsb (call_of PDedup true) evs = true
      /\ existsb (call_of PPrune true) evs = true
      /\ In (CallListAnimations (length (listAnimations d2))) evs)
  /\ (listAnimations d2 = [] -> existsb (failed_call PResample) evs = false).
Proof.
  intros Hfd Hget Hrec evs. subst evs.
  rewrite (POST_decoded E files g fd file c s1 T0 Hfd Hget Hrec).
  assert (HT0 : forallb aside T0 = true).
  { destruct (receive_run E file (initial_state files g)) as (res & s' & T & Hrun & HT & _).
    rewrite Hrec in Hrun. injection Hrun as <- <- <-. by apply setup_aside. }
  destruct (early_passes (lib E) (document s1)) as [d2 [e|]] eqn:Hearly.
  - destruct (pipeline_early_failure E c s1 d2 e Hearly)
      as (s2 & Te & p0 & resH & sH & H & res' & s'' & tail
          & _ & Hp0 & Hquiet & _ & Hlate & _ & HH & _ & Hpipe & Hend).
    cbv zeta in Hpipe. rewrite Hpipe. unfold events. cbn [snd succeeded andb].
    assert (Htail : forallb aside tail = true).
    { destruct Hend as [(_ & _ & -> & _)|(_ & _ & _ & Hfin)]; [done|].
      by apply finishes_tail in Hfin as (? & _). }
    assert (Hno : call_made PResample
                    (T0 ++ (Te ++ [CallTransform Main
                                     match p0 with PDedup => dedup | _ => prune end false])
                        ++ H ++ tail) = false).
    { rewrite !call_made_app.
      rewrite (call_made_aside _ T0), (call_made_aside _ H), (call_made_aside _ tail) by done.
      rewrite (call_made_false PResample Te) by (apply Hlate; cbn; lia).
      by destruct Hp0 as [-> | ->]. }
    split; [done|]. split; [done|]. intros _.
    apply not_true_is_false. intros [ev [Hin Hev]]%existsb_exists.
    apply not_true_iff_false in Hno. apply Hno. apply existsb_exists. exists ev.
    split; [done|]. unfold failed_call in Hev. by rewrite Hev, orb_true_r.
  - destruct (stages_main_path E c (set_level "none" s1) d2 Hearly)
      as (s2 & s3 & s4 & s5 & s6 & T1 & T2 & T3 & T4 & T5 & T6
          & _ & Hd2 & Hrun3 & _ & _ & _ & Hseq & (S1 & Q1) & (S2 & Q2) & S3 & S4 & S5 & S6).
    destruct (pipeline_main E c s1 d2 Hearly) as (s6' & T & res' & s'' & tail & Hseq' & Hpipe & Hfin).
    rewrite Hseq in Hseq'. injection Hseq' as <- <-.
    rewrite Hpipe. unfold events. cbn [snd succeeded andb].
    apply finishes_tail in Hfin as (Htail & _).
    destruct (stage_resample_calls E c s2) as (Hcalls & Hlist).
    rewrite Hrun3, Hd2 in Hcalls, Hlist. cbn [snd] in Hcalls, Hlist.
    assert (Hres : call_made PResample (T0 ++ (T1 ++ T2 ++ T3 ++ T4 ++ T5 ++ T6) ++ tail)
                   = (0 <? length (listAnimations d2))%nat).
    { rewrite !call_made_app.
      rewrite (call_made_aside _ T0), (call_made_aside _ tail) by done.
      rewrite (call_made_segment 1 PResample T1), (call_made_segment 2 PResample T2),
        (call_made_segment 4 PResample T4), (call_made_segment 5 PResample T5),
        (call_made_segment 6 PResample T6) by done.
      rewrite Hcalls. cbn [orb]. by rewrite !orb_false_r. }
    split; [done|]. split.
    + intros _. rewrite !existsb_app.
      rewrite (entered_and_quiet 1 PDedup T1), (entered_and_quiet 2 PPrune T2) by auto.
      split; [by rewrite !orb_true_r|]. split; [by rewrite !orb_true_r|].
      apply in_or_app. right. apply in_or_app. left.
      do 2 (apply in_or_app; right). apply in_or_app. by left.
    + intros Hnil. rewrite Hnil in Hres. cbn in Hres.
      apply not_true_is_false. intros [ev [Hin Hev]]%existsb_exists.
      apply not_true_iff_false in Hres. apply Hres. apply existsb_exists. exists ev.
      split; [done|]. unfold failed_call in Hev. by rewrite Hev, orb_true_r.
Qed.

Lemma resample_skipped_after_prune_failure :
  ~ resample_follows_animations sample_document
      (events (POST env_prune_fails ∅ fresh_globals)).
Proof.
  intros [Hiff _].
  assert (Hcalled : call_made PResample (events (POST env_prune_fails ∅ fresh_globals)) = true)
    by (apply Hiff; discriminate).
  vm_compute in Hcalled. discriminate Hcalled.
Qed.

(** ** C7: the level *)

Create HintDb blind.

Lemma blind_ret {A} (a : A) : level_blind (ret a).
Proof. by intros s1 s2 H. Qed.

Lemma blind_throw {A} e : level_blind (@throw A e).
Proof. by intros s1 s2 H. Qed.

Lemma blind_emit ev : level_blind (emit ev).
Proof. by intros s1 s2 H. Qed.

Lemma blind_console lvl msg arg : level_blind (console lvl msg arg).
Proof. apply blind_emit. Qed.

Lemma blind_raise_if r : level_blind (raise_if r).
Proof. destruct r; [apply blind_throw | apply blind_ret]. Qed.

Lemma blind_set_level lv : level_blind (modify (set_level lv)).
Proof. intros s1 s2 (? & ? & ?). by repeat split. Qed.

Lemma blind_bind {A B} (m : M A) (k : A -> M B) :
  level_blind m -> (forall a, level_blind (k a)) -> level_blind (bind m k).
Proof.
  intros Hm Hk s1 s2 Hs. specialize (Hm s1 s2 Hs). unfold bind.
  destruct (m s1) as [[c1 t1] evs1], (m s2) as [[c2 t2] evs2].
  destruct Hm as (<- & <- & Ht). destruct c1 as [a|r|e]; [|done..].
  specialize (Hk a t1 t2 Ht).
  destruct (k a t1) as [[c1 u1] evs1'], (k a t2) as [[c2 u2] evs2'].
  destruct Hk as (<- & <- & Hu). done.
Qed.

Lemma blind_try_catch {A} (m : M A) (h : Thrown -> M A) :
  level_blind m -> (forall e, level_blind (h e)) -> level_blind (try_catch m h).
Proof.
  intros Hm Hh s1 s2 Hs. specialize (Hm s1 s2 Hs). unfold try_catch.
  destruct (m s1) as [[c1 t1] evs1], (m s2) as [[c2 t2] evs2].
  destruct Hm as (<- & <- & Ht). destruct c1 as [a|r|e]; [done..|].
  specialize (Hh e t1 t2 Ht).
  destruct (h e t1) as [[c1 u1] evs1'], (h e t2) as [[c2 u2] evs2'].
  destruct Hh as (<- & <- & Hu). done.
Qed.

#[local] Hint Resolve blind_ret blind_throw blind_emit blind_console blind_raise_if
  blind_set_level : blind.

Lemma blind_document_transform L t : level_blind (document_transform L t).
Proof.
  intros s1 s2 (Hfs & Hg & Hd). unfold document_transform. run_monad. rewrite Hd.
  destruct (lib_transform L t (document s2)) as [d' [e|]]; run_monad; by repeat split.
Qed.

Lemma blind_checkFileSize E c stage : level_blind (checkFileSize E c stage).
Proof.
  intros s1 s2 (Hfs & Hg & Hd). rewrite !checkFileSize_run. cbv zeta. rewrite Hd.
  destruct (io_write _ _ _); [|done]. repeat split; try done. cbn. by rewrite Hfs.
Qed.

Lemma blind_compress_each L todo : forall index, level_blind (compress_each L index todo).
Proof.
  induction todo as [|t rest IH]; intros index; cbn [compress_each]; [apply blind_ret|].
  apply blind_bind; [|auto]. unfold compress_one.
  destruct (compressTexture L webp_1024 t) as [t' r].
  intros s1 s2 (Hfs & Hg & Hd). run_monad. rewrite Hd.
  destruct r; by repeat split.
Qed.

Lemma blind_listAnimations : level_blind root_listAnimations.
Proof. intros s1 s2 (Hfs & Hg & Hd). unfold root_listAnimations. run_monad. by rewrite Hd. Qed.

Lemma blind_listTextures : level_blind root_listTextures.
Proof. intros s1 s2 (Hfs & Hg & Hd). unfold root_listTextures. run_monad. by rewrite Hd. Qed.

#[local] Hint Resolve blind_document_transform blind_checkFileSize blind_compress_each
  blind_listAnimations blind_listTextures : blind.

Ltac blind :=
  repeat first
    [ solve [auto with blind]
    | apply blind_try_catch; [|intros ?]
    | apply blind_bind; [|intros ?]
    | match goal with |- level_blind (if ?b then _ else _) => destruct b end ].

(** None of the six stages looks at the level. *)
Lemma stages_level_blind E c m : In m (stages E c) -> level_blind m.
Proof.
  unfold stages. cbn [In].
  intros [<-|[<-|[<-|[<-|[<-|[<-|[]]]]]]];
    unfold stage_dedup, stage_prune, stage_resample, stage_texture, stage_mesh, stage_draco;
    blind.
Qed.

Lemma summary_progress k m : stage_summary k m -> stage_progress k m.
Proof.
  intros H s. destruct (H s) as (s' & evs & Hrun & _ & Hprog).
  exists (Normal tt), s', evs. split; [done|]. split; [done|]. intros _. exact Hprog.
Qed.

Lemma early_progress E k t m : early_summary E k t m -> stage_progress k m.
Proof.
  intros H s. specialize (H s).
  destruct (lib_transform (lib E) t (document s)) as [d' [e|]].
  - eexists _, _, _. split; [exact H|]. split; [done|]. done.
  - destruct H as (s' & evs & Hrun & _ & _ & _ & Hprog).
    exists (Normal tt), s', evs. split; [done|]. split; [done|]. intros _. exact Hprog.
Qed.

Lemma stages_progress E c k m :
  stages E c !! k = Some m -> stage_progress (S k) m.
Proof.
  unfold stages. destruct k as [|[|[|[|[|[|k]]]]]]; cbn; [intros [= <-]..|done].
  - eapply early_progress, stage_dedup_summary.
  - eapply early_progress, stage_prune_summary.
  - apply summary_progress, stage_resample_summary.
  - apply summary_progress, stage_texture_summary.
  - apply summary_progress, stage_mesh_summary.
  - apply summary_progress, stage_draco_summary.
Qed.

Lemma sequence_app ms1 ms2 : forall s,
  sequence (ms1 ++ ms2) s =
    match sequence ms1 s with
    | (Normal _, s1, evs1) =>
        let '(c, s2, evs2) := sequence ms2 s1 in (c, s2, (evs1 ++ evs2)%list)
    | other => other
    end.
Proof.
  induction ms1 as [|m ms1 IH]; intros s; cbn [app sequence].
  - unfold ret. by destruct (sequence ms2 s) as [[c s2] evs2].
  - unfold bind. destruct (m s) as [[[[]|r|e] s0] evs0]; [|done..].
    rewrite IH. destruct (sequence ms1 s0) as [[[[]|r|e] s1] evs1]; [|done..].
    destruct (sequence ms2 s1) as [[c s2] evs2]. by rewrite app_assoc.
Qed.

(** What throws out of the first stages throws out of them all. *)
Lemma sequence_prefix_throw ms k s e s' evs :
  sequence (firstn k ms) s = (Throw e, s', evs) -> sequence ms s = (Throw e, s', evs).
Proof.
  intros H. rewrite <- (firstn_skipn k ms), sequence_app, H. done.
Qed.

(** After any number of stages that completed normally, the level is what
    the events so far show as progress. *)
Lemma prefix_progress E c k : forall s,
  (k <= 6)%nat ->
  rank (optimizationLevel s) = 0%nat ->
  exists res s' evs,
    sequence (firstn k (stages E c)) s = (res, s', evs)
    /\ (forall r, res <> Return r)
    /\ (res = Normal tt ->
        forall n, exists n',
          fold_left progress_step evs (n, optimizationLevel s) = (n', optimizationLevel s')
          /\ (rank (optimizationLevel s') <= k)%nat).
Proof.
  induction k as [|k IH]; intros s Hk Hrank.
  - cbn [firstn sequence]. eexists _, _, _. split; [reflexivity|]. split; [done|].
    intros _ n. exists n. split; [done | lia].
  - destruct (stages E c !! k) as [m|] eqn:Hm.
    2: { apply lookup_ge_None in Hm. cbn in Hm. lia. }
    rewrite (take_S_r _ _ _ Hm), sequence_snoc.
    destruct (IH s ltac:(lia) Hrank) as (res & s1 & evs1 & Hrun & Hnoret & Hprog).
    rewrite Hrun. destruct res as [[]|r|e].
    + destruct (stages_progress E c k m Hm s1) as (res2 & s2 & evs2 & Hrun2 & Hnoret2 & Hprog2).
      rewrite Hrun2. eexists _, _, _. split; [reflexivity|]. split.
      * destruct res2; [done | by specialize (Hnoret2 r) | done].
      * intros Hres n. destruct res2 as [[]|r|e]; [|done..].
        destruct (Hprog eq_refl n) as (n1 & Hfold1 & Hrank1).
        destruct (Hprog2 eq_refl n1 ltac:(lia)) as (n2 & Hfold2 & Hrank2).
        exists n2. rewrite fold_left_app, Hfold1. done.
    + by specialize (Hnoret r).
    + eexists _, _, _. split; [reflexivity|]. split; [done|]. done.
Qed.

(** C7, as the code has it.  (a) On the path where nothing throws out of
    the stages, the level is, after every stage, the highest stage the
    events so far show as successfully reached.  (b) For the whole of
    [optimize]: when dedup and prune succeed the level ends as the highest
    stage reached.  When one of them throws, whatever had been reached, the
    [catch] clause overwrites the level with "error" and runs the
    last-resort branch on the files the stages left; the level ends at
    "minimal" (and the clause answers) exactly when every step of that
    branch succeeds, and stays at "error" when one of them throws.  (c) No
    stage reads the level: started in states that differ only in the level,
    a stage completes the same way with the same events. *)
Theorem level_records_progress (E : Env) (c : Scope) (s : State) (k : nat) :
  (let '(res, s', evs) := sequence (firstn k (stages E c)) (set_level "none" s) in
   match res with
   | Normal _ => optimizationLevel s' = highest_reached evs
   | Throw _ => snd (early_passes (lib E) (document s)) <> None
   | Return _ => False
   end)
  /\ (let '(res, s', evs) := optimize E c s in
      match snd (early_passes (lib E) (document s)) with
      | None => res = Normal tt /\ optimizationLevel s' = highest_reached evs
      | Some _ =>
          let thrown := sequence (stages E c) (set_level "none" s) in
          match last_resort_output E c (fs (snd (fst thrown))) with
          | Some _ =>
              res = Return (NextResponse_json (minimal_report c "minimal") None)
              /\ optimizationLevel s' = "minimal"
          | None => res = Normal tt /\ optimizationLevel s' = "error"
          end
      end)
  /\ (forall m, In m (stages E c) -> level_blind m).
Proof.
  split; [|split; [|apply stages_level_blind]].
  - assert (Hk : exists k', (k' <= 6)%nat
                   /\ firstn k (stages E c) = firstn k' (stages E c)).
    { destruct (le_lt_dec k 6) as [?|Hgt]; [eauto|].
      exists 6%nat. split; [done|]. rewrite !take_ge by (cbn; lia). done. }
    destruct Hk as (k' & Hk' & ->).
    destruct (prefix_progress E c k' (set_level "none" s) Hk' eq_refl)
      as (res & s' & evs & Hrun & Hnoret & Hprog).
    rewrite Hrun. destruct res as [[]|r|e].
    + destruct (Hprog eq_refl 0%nat) as (n' & Hfold & _).
      unfold highest_reached. cbn [optimizationLevel set_level] in Hfold. by rewrite Hfold.
    + by specialize (Hnoret r).
    + intros Hnone.
      destruct (early_passes (lib E) (document s)) as [d2 r] eqn:Hearly.
      cbn in Hnone. subst r.
      destruct (stages_main_path E c (set_level "none" s) d2 Hearly)
        as (s2 & s3 & s4 & s5 & s6 & T1 & T2 & T3 & T4 & T5 & T6
            & _ & _ & _ & _ & _ & _ & Hseq & _).
      apply sequence_prefix_throw in Hrun. rewrite Hseq in Hrun. discriminate Hrun.
  - destruct (early_passes (lib E) (document s)) as [d2 [e|]] eqn:Hearly; cbn [snd].
    + destruct (stages_early_failure E c (set_level "none" s) d2 e Hearly)
        as (s1 & T0 & p & Hrun & _).
      destruct (on_transform_error_chain E c e s1) as (resH & sH & H & HrunH & _ & _ & Hres).
      unfold optimize, bind at 1, modify, try_catch. rewrite Hrun, HrunH.
      cbn [fst snd].
      destruct (last_resort_output E c (fs s1)) as [out|].
      * by destruct Hres as (-> & -> & _).
      * by destruct Hres as (-> & -> & _).
    + destruct (stages_main_path E c (set_level "none" s) d2 Hearly)
        as (s2 & s3 & s4 & s5 & s6 & T1 & T2 & T3 & T4 & T5 & T6
            & _ & _ & _ & _ & _ & _ & Hseq & _).
      unfold optimize, bind at 1, modify, try_catch. rewrite Hseq. split; [done|].
      destruct (prefix_progress E c 6 (set_level "none" s) ltac:(lia) eq_refl)
        as (res & s' & evs & Hrun & _ & Hprog).
      change (firstn 6 (stages E c)) with (stages E c) in Hrun.
      rewrite Hseq in Hrun. injection Hrun as <- <- <-.
      destruct (Hprog eq_refl 0%nat) as (n' & Hfold & _).
      unfold highest_reached. cbn [optimizationLevel set_level app] in Hfold |- *.
      by rewrite Hfold.
Qed.

(** C7 as stated fails when prune throws after dedup has succeeded: the
    request ends with the level at "error", while the highest stage its
    events show as reached is dedup ("basic"). *)
Lemma level_is_error_after_prune_failure :
  ~ level_tracks_progress (POST env_prune_fails ∅ fresh_globals).
Proof. unfold level_tracks_progress. vm_compute. discriminate. Qed.

Lemma resample_runs_iff_animations_after_prune_witness :
  call_made PResample (events (POST env_bare_good ∅ fresh_globals)) = false
  /\ existsb (call_of PDedup true) (events (POST env_bare_good ∅ fresh_globals)) = true
  /\ existsb (call_of PPrune true) (events (POST env_bare_good ∅ fresh_globals)) = true.
Proof.
  pose proof (resample_runs_iff_animations_after_prune env_bare_good ∅ fresh_globals
                (upload "robot.glb") sample_file (received_scope env_bare_good)
                (snd (fst (received env_bare_good))) (snd (received env_bare_good))
                eq_refl eq_refl eq_refl) as H.
  cbv zeta in H.
  destruct (early_passes (lib env_bare_good) (document (snd (fst (received env_bare_good)))))
    as [d2 r] eqn:Hearly.
  vm_compute in Hearly. injection Hearly as <- <-.
  destruct H as (Hres & Hcalled & _).
  destruct (Hcalled eq_refl) as (Hdedup & Hprune & _).
  split; [exact Hres|]. split; [exact Hdedup | exact Hprune].
Defined.

(** ** C8: the report *)

Lemma POST_cases E files g :
  (exists r s evs,
      POST E files g = (Some r, s, evs)
      /\ (status r = 400 \/ status r = 500)
      /\ forallb setup_event evs = true)
  \/ (exists fd file c s1 T0,
        req_formData E = Resolved fd
        /\ formData_get "file" fd = Some (FormFile file)
        /\ receive E file (initial_state files g) = (Normal c, s1, T0)
        /\ forallb setup_event T0 = true).
Proof.
  destruct (req_formData E) as [fd|e0] eqn:Hfd.
  2: { left. apply POST_not_decoded. intros; congruence. }
  destruct (formData_get "file" fd) as [[text|file]|] eqn:Hget.
  1,3: left; apply POST_not_decoded; intros; congruence.
  destruct (receive_run E file (initial_state files g)) as (res0 & s1 & T0 & Hrec & HT0 & Hnoret).
  destruct res0 as [c|r|e].
  - right. exists fd, file, c, s1, T0. done.
  - exfalso. by eapply Hnoret.
  - left. apply POST_not_decoded.
    intros fd' file' c s1' T0' Hfd' Hget'. rewrite Hfd in Hfd'. injection Hfd' as <-.
    rewrite Hget in Hget'. injection Hget' as <-. rewrite Hrec. congruence.
Qed.

Lemma rank_le_6 lv : (rank lv <= 6)%nat.
Proof. unfold rank. repeat (destruct (String.eqb lv _); [lia|]). lia. Qed.

Lemma draco_level_rank lv : includes ["draco"; "draco-simple"] lv = true -> rank lv = 6%nat.
Proof.
  cbn [includes existsb]. rewrite orb_false_r.
  intros [->%String.eqb_eq | ->%String.eqb_eq]%orb_true_iff; reflexivity.
Qed.

Lemma completes_draco n ev :
  draco_succeeded ev
  = match completes n ev with
    | Some p => includes ["draco"; "draco-simple"] (level_of_pass p)
    | None => false
    end.
Proof.
  destruct ev as [| | | | | | |[] t []| | |i []|[]]; try reflexivity.
  - cbn [completes]. unfold draco_succeeded, call_of.
    by destruct (pass_of_transform t).
  - unfold draco_succeeded, call_of. cbn [completes].
    by destruct (pass_of_transform t).
  - cbn [completes]. by destruct (S i =? n)%nat.
Qed.

(** The level is one of the two Draco levels exactly when a Draco attempt
    has succeeded. *)
Lemma progress_draco evs : forall n lv,
  includes ["draco"; "draco-simple"] (snd (fold_left progress_step evs (n, lv)))
  = includes ["draco"; "draco-simple"] lv || existsb draco_succeeded evs.
Proof.
  induction evs as [|ev evs IH]; intros n lv; cbn [fold_left existsb].
  - by rewrite orb_false_r.
  - unfold progress_step at 2. cbn [fst snd].
    set (n' := match ev with CallListTextures k => k | _ => n end).
    rewrite (completes_draco n' ev).
    destruct (completes n' ev) as [p|]; rewrite IH; [|by rewrite orb_false_l].
    destruct (rank lv <=? rank (level_of_pass p))%nat eqn:Hle.
    + destruct (includes ["draco"; "draco-simple"] lv) eqn:Hlv; [|done].
      apply draco_level_rank in Hlv. rewrite Hlv in Hle. apply Nat.leb_le in Hle.
      rewrite rank_completed in Hle. destruct p; cbn in Hle; try lia; done.
    + destruct (includes ["draco"; "draco-simple"] (level_of_pass p)) eqn:Hp;
        [|by rewrite orb_false_l].
      apply draco_level_rank in Hp. rewrite Hp in Hle. apply Nat.leb_gt in Hle.
      pose proof (rank_le_6 lv). lia.
Qed.

(** What [receive] hands to the pipeline. *)
Lemma receive_scope E file s c s1 T0 :
  receive E file s = (Normal c, s1, T0) ->
  exists bytes,
    file_arrayBuffer file = Resolved bytes
    /\ originalSize c = Z.of_nat (length bytes)
    /\ inputPath c = upload_path E file
    /\ outputPath c = output_path E
    /\ fileId c = uuidv4 E
    /\ useDraco c = modules_available E (globals s).
Proof.
  unfold receive, fs_writeFile, stat_size, NodeIO_read. run_monad.
  destruct (file_arrayBuffer file) as [buffer|e0]; run_monad; [|done].
  fold (upload_path E file). fold (output_path E).
  destruct (writeFile E (upload_path E file) buffer) as [e1|]; run_monad; [done|].
  cbn [fs set_fs]. rewrite lookup_insert_eq. run_monad.
  match goal with
  | |- context [prepare_draco E ?s0] =>
      destruct (prepare_draco_result E s0) as (s2 & evs2 & Hprep & Hevs2 & _ & Hfs2);
      rewrite Hprep
  end.
  rewrite Hfs2. cbn [fs set_fs globals]. rewrite lookup_insert_eq.
  destruct (io_read (lib E) (upload_path E file) buffer) as [d|e2]; run_monad; [|done].
  intros [= <- <- <-]. exists buffer. by repeat split.
Qed.

Lemma progress_monotone evs : forall n lv,
  (rank lv <= rank (snd (fold_left progress_step evs (n, lv))))%nat.
Proof.
  induction evs as [|ev evs IH]; intros n lv; cbn [fold_left]; [done|].
  unfold progress_step at 2. cbn [fst snd].
  destruct (completes _ ev) as [p|]; [|apply IH].
  destruct (rank lv <=? rank (level_of_pass p))%nat eqn:Hle; [|apply IH].
  apply Nat.leb_le in Hle. etransitivity; [exact Hle | apply IH].
Qed.

Lemma progress_after_dedup evs : forall n lv,
  existsb (call_of PDedup true) evs = true ->
  (1 <= rank (snd (fold_left progress_step evs (n, lv))))%nat.
Proof.
  induction evs as [|ev evs IH]; intros n lv; cbn [fold_left existsb]; [done|].
  intros [Hev|Hevs]%orb_true_iff.
  - unfold progress_step at 2. cbn [fst snd].
    destruct ev as [| | | | | | |[] t []| | | |[]];
      cbn [call_of Bool.eqb] in Hev; rewrite ?andb_false_r, ?andb_true_r in Hev;
      try discriminate Hev.
    cbn [completes].
    destruct (pass_of_transform t) eqn:Ht; try discriminate Hev.
    cbn [level_of_pass].
    destruct (rank lv <=? rank "basic")%nat eqn:Hle.
    + etransitivity; [|apply progress_monotone]. done.
    + apply Nat.leb_gt in Hle. etransitivity; [|apply progress_monotone].
      change (rank "basic") with 1%nat in Hle. lia.
  - unfold progress_step at 2. cbn [fst snd].
    destruct (completes _ ev) as [p|]; [|by apply IH].
    destruct (rank lv <=? rank (level_of_pass p))%nat; by apply IH.
Qed.

Lemma asides_no_draco evs : forallb aside evs = true -> existsb draco_succeeded evs = false.
Proof.
  intros H. apply not_true_is_false. intros [ev [Hin Hev]]%existsb_exists.
  unfold draco_succeeded in Hev. apply orb_true_iff in Hev as [Hev|Hev].
  - pose proof (asides_no_call PDraco true evs H) as Hno.
    apply not_true_iff_false in Hno. apply Hno, existsb_exists. eauto.
  - pose proof (asides_no_call PDracoSimple true evs H) as Hno.
    apply not_true_iff_false in Hno. apply Hno, existsb_exists. eauto.
Qed.

Lemma no_late_call_no_draco evs :
  (forall q ok, (3 <= stage_of q)%nat -> existsb (call_of q ok) evs = false) ->
  existsb draco_succeeded evs = false.
Proof.
  intros H. apply not_true_is_false. intros [ev [Hin Hev]]%existsb_exists.
  unfold draco_succeeded in Hev. apply orb_true_iff in Hev as [Hev|Hev].
  - pose proof (H PDraco true ltac:(cbn; lia)) as Hno.
    apply not_true_iff_false in Hno. apply Hno, existsb_exists. eauto.
  - pose proof (H PDracoSimple true ltac:(cbn; lia)) as Hno.
    apply not_true_iff_false in Hno. apply Hno, existsb_exists. eauto.
Qed.

(** The report as the handler computes it.  A request answered with status
    200 gets one of two bodies, both carrying the final optimization level and a note.  The
    minimal answer of the last-resort branch has level "minimal" and neither
    [fileSize] nor [applied].  The full report has [fileSize] with the size
    of the upload, the size of the file written to the output path, their
    relative difference and their difference, and an [applied] object
    computed from the level alone: [dedup] is always true; [resample] is
    true when the level is "advanced", "draco" or "draco-simple"; [simplify]
    when it is "welded" or "pre-quantized"; [draco] (and [dracoEnabled])
    exactly when a Draco attempt of stage 6 succeeded; and [prune] is true
    only when prune succeeded on the request's document. *)
Lemma report_of_a_successful_request (E : Env) (files : gmap string (list Byte.byte))
    (g : Globals) (r : Response) :
  answer (POST E files g) = Some r ->
  status r = 200 ->
  let lv := optimizationLevel (final_state (POST E files g)) in
  let evs := events (POST E files g) in
  json_get "optimizationLevel" (body r) = Some (JStr lv)
  /\ (exists note, json_get "note" (body r) = Some (JStr note))
  /\ ((lv = "minimal"
       /\ json_get "fileSize" (body r) = None
       /\ json_get "applied" (body r) = None)
      \/ ((exists fd file uploaded encoded,
              req_formData E = Resolved fd
              /\ formData_get "file" fd = Some (FormFile file)
              /\ file_arrayBuffer file = Resolved uploaded
              /\ fs (final_state (POST E files g)) !! output_path E = Some encoded
              /\ json_get "fileSize" (body r)
                 = Some (fileSize_json (Z.of_nat (length uploaded))
                                       (Z.of_nat (length encoded))))
          /\ applied_entry "dedup" r = Some (JBool true)
          /\ applied_entry "resample" r
             = Some (JBool (includes ["advanced"; "draco"; "draco-simple"] lv))
          /\ applied_entry "simplify" r
             = Some (JBool (includes ["welded"; "pre-quantized"] lv))
          /\ applied_entry "draco" r = Some (JBool (existsb draco_succeeded evs))
          /\ json_get "dracoEnabled" (body r) = Some (JBool (existsb draco_succeeded evs))
          /\ (exists b, applied_entry "prune" r = Some (JBool b)
                        /\ (b = true -> existsb (call_of PPrune true) evs = true)))).
Proof.
  intros Hans Hst lv evs. subst lv evs.
  destruct (POST_cases E files g)
    as [(r' & s & evs & Hpost & Hbad & _)|(fd & file & c & s1 & T0 & Hfd & Hget & Hrec & HT0)].
  { rewrite Hpost in Hans. cbn in Hans. injection Hans as ->. lia. }
  apply setup_aside in HT0.
  destruct (receive_scope E file _ c s1 T0 Hrec)
    as (uploaded & Hbuf & Horig & _ & Hout & _).
  rewrite (POST_decoded E files g fd file c s1 T0 Hfd Hget Hrec) in Hans |- *.
  assert (Hfull : forall level size s6 tail,
    r = NextResponse_json (full_report c level size) None ->
    String.eqb level "none" = false ->
    includes ["draco"; "draco-simple"] level = existsb draco_succeeded tail ->
    (includes ["intermediate"; "advanced"; "draco"; "draco-simple"; "minimal";
               "welded"; "pre-quantized"] level = true ->
     existsb (call_of PPrune true) tail = true) ->
    forall encoded, size = Z.of_nat (length encoded) ->
    fs s6 !! output_path E = Some encoded ->
    json_get "optimizationLevel" (body r) = Some (JStr level)
    /\ (exists note, json_get "note" (body r) = Some (JStr note))
    /\ ((exists fd0 file0 uploaded0 encoded0,
            req_formData E = Resolved fd0
            /\ formData_get "file" fd0 = Some (FormFile file0)
            /\ file_arrayBuffer file0 = Resolved uploaded0
            /\ fs s6 !! output_path E = Some encoded0
            /\ json_get "fileSize" (body r)
               = Some (fileSize_json (Z.of_nat (length uploaded0))
                                     (Z.of_nat (length encoded0))))
        /\ applied_entry "dedup" r = Some (JBool true)
        /\ applied_entry "resample" r
           = Some (JBool (includes ["advanced"; "draco"; "draco-simple"] level))
        /\ applied_entry "simplify" r
           = Some (JBool (includes ["welded"; "pre-quantized"] level))
        /\ applied_entry "draco" r = Some (JBool (existsb draco_succeeded tail))
        /\ json_get "dracoEnabled" (body r) = Some (JBool (existsb draco_succeeded tail))
        /\ (exists b, applied_entry "prune" r = Some (JBool b)
                      /\ (b = true -> existsb (call_of PPrune true) tail = true)))).
  { intros level size s6 tail -> Hnone Hdraco Hprune encoded -> Hfile.
    split; [reflexivity|]. split; [by eexists|]. split.
    { exists fd, file, uploaded, encoded. repeat split; try done.
      cbn. unfold fileSize_json. by rewrite Horig. }
    unfold applied_entry. cbn [body NextResponse_json full_report json_get applied_json String.eqb
                               Ascii.eqb Bool.eqb].
    rewrite Hnone, <- Hdraco. cbn [negb]. repeat split. eauto. }
  destruct (early_passes (lib E) (document s1)) as [d2 [e|]] eqn:Hearly.
  - destruct (pipeline_early_failure E c s1 d2 e Hearly)
      as (s2 & Te & p0 & resH & sH & H & res' & s'' & tail
          & _ & Hp0 & _ & _ & Hlate & _ & HH & _ & Hpipe & Hend).
    cbv zeta in Hpipe. rewrite Hpipe in Hans |- *.
    unfold answer, final_state, events in *. cbn [fst snd] in *.
    destruct Hend as [(-> & -> & -> & Hlv)|(-> & Hlv & _ & Hfin)].
    + cbn in Hans. injection Hans as <-. rewrite Hlv.
      split; [reflexivity|]. split; [by eexists|]. left. done.
    + unfold finishes in Hfin.
      destruct (io_write (lib E) (outputPath c) (document sH)) as [encoded|e'].
      2: { destruct Hfin as ((r' & -> & Hst') & _). cbn in Hans. injection Hans as ->. lia. }
      destruct Hfin as (-> & -> & R & -> & HR). cbn in Hans. injection Hans as <-.
      cbn [optimizationLevel set_fs]. rewrite Hlv in *.
      assert (Hnodraco : existsb draco_succeeded
                (T0 ++ (Te ++ [CallTransform Main
                                 match p0 with PDedup => dedup | _ => prune end false])
                    ++ H ++ CallWrite Main (outputPath c) true :: R) = false).
      { rewrite !existsb_app. cbn [existsb].
        rewrite (asides_no_draco T0), (asides_no_draco H), (asides_no_draco R),
          (no_late_call_no_draco Te) by (try done; by apply setup_aside).
        by destruct Hp0 as [-> | ->]. }
      assert (Hfile : fs (set_fs (<[outputPath c := encoded]> (fs sH)) sH) !! output_path E
                      = Some encoded).
      { cbn [fs set_fs]. rewrite Hout. apply lookup_insert_eq. }
      pose proof (Hfull "error" (Z.of_nat (length encoded))
                    (set_fs (<[outputPath c := encoded]> (fs sH)) sH) _
                    eq_refl eq_refl (eq_sym Hnodraco) ltac:(discriminate)
                    encoded eq_refl Hfile)
        as (H1 & H2 & H3).
      split; [exact H1|]. split; [exact H2|]. right. exact H3.
  - destruct (stages_main_path E c (set_level "none" s1) d2 Hearly)
      as (s2 & s3 & s4 & s5 & s6 & T1 & T2 & T3 & T4 & T5 & T6
          & _ & _ & _ & _ & _ & _ & Hseq & (S1 & Q1) & (S2 & Q2) & S3 & S4 & S5 & S6).
    destruct (pipeline_main E c s1 d2 Hearly)
      as (s6' & T & res' & s'' & tail & Hseq' & Hpipe & Hfin).
    rewrite Hseq in Hseq'. injection Hseq' as <- <-.
    rewrite Hpipe in Hans |- *.
    unfold answer, final_state, events in *. cbn [fst snd] in *.
    destruct (prefix_progress E c 6 (set_level "none" s1) ltac:(lia) eq_refl)
      as (res & s' & evs & Hrun & _ & Hprog).
    change (firstn 6 (stages E c)) with (stages E c) in Hrun.
    rewrite Hseq in Hrun. injection Hrun as <- <- <-.
    destruct (Hprog eq_refl 0%nat) as (n' & Hfold & _).
    cbn [optimizationLevel set_level] in Hfold.
    set (T := (T1 ++ T2 ++ T3 ++ T4 ++ T5 ++ T6)%list) in *.
    assert (Hlevel : optimizationLevel s6 = snd (fold_left progress_step T (0%nat, "none")))
      by (by rewrite Hfold).
    assert (Hprune : existsb (call_of PPrune true) T = true).
    { subst T. rewrite !existsb_app, (entered_and_quiet 2 PPrune T2) by auto.
      by rewrite ?orb_true_r. }
    assert (Hdedup : existsb (call_of PDedup true) T = true).
    { subst T. rewrite !existsb_app, (entered_and_quiet 1 PDedup T1) by auto. done. }
    unfold finishes in Hfin.
    destruct (io_write (lib E) (outputPath c) (document s6)) as [encoded|e'].
    2: { destruct Hfin as ((r' & -> & Hst') & _). cbn in Hans. injection Hans as ->. lia. }
    destruct Hfin as (-> & -> & R & -> & HR). cbn in Hans. injection Hans as <-.
    cbn [optimizationLevel set_fs].
    assert (Hdraco : includes ["draco"; "draco-simple"] (optimizationLevel s6)
                     = existsb draco_succeeded
                         (T0 ++ T ++ CallWrite Main (outputPath c) true :: R)).
    { rewrite Hlevel, progress_draco, !existsb_app. cbn [existsb].
      rewrite (asides_no_draco T0), (asides_no_draco R) by (try done; by apply setup_aside).
      cbn. by rewrite ?orb_false_r. }
    assert (Hnone : String.eqb (optimizationLevel s6) "none" = false).
    { apply not_true_is_false. intros Hnone%String.eqb_eq.
      pose proof (progress_after_dedup T 0%nat "none" Hdedup) as Hrank.
      rewrite <- Hlevel, Hnone in Hrank. change (rank "none") with 0%nat in Hrank. lia. }
    assert (Hpruned : existsb (call_of PPrune true)
                        (T0 ++ T ++ CallWrite Main (outputPath c) true :: R) = true).
    { rewrite !existsb_app, Hprune. by rewrite ?orb_true_r. }
    assert (Hfile : fs (set_fs (<[outputPath c := encoded]> (fs s6)) s6) !! output_path E
                    = Some encoded).
    { cbn [fs set_fs]. rewrite Hout. apply lookup_insert_eq. }
    pose proof (Hfull (optimizationLevel s6) (Z.of_nat (length encoded))
                  (set_fs (<[outputPath c := encoded]> (fs s6)) s6)
                  (T0 ++ T ++ CallWrite Main (outputPath c) true :: R)%list
                  eq_refl Hnone Hdraco (fun _ => Hpruned) encoded eq_refl Hfile)
      as (H1 & H2 & H3).
    split; [exact H1|]. split; [exact H2|]. right. exact H3.
Qed.

(** The report does not match the run on a document without animations
    for which every call succeeds: it says [resample: true] although
    resample was never called, and [simplify: false] although weld ran and
    succeeded. *)
Lemma report_claims_resample_that_never_ran :
  status (sample_answer env_bare_good) = 200
  /\ answer (POST env_bare_good ∅ fresh_globals) = Some (sample_answer env_bare_good)
  /\ ~ report_matches_run (sample_answer env_bare_good)
         (events (POST env_bare_good ∅ fresh_globals)).
Proof.
  split; [vm_compute; reflexivity|]. split; [vm_compute; reflexivity|].
  intros (_ & _ & _ & _ & Hres & _). vm_compute in Hres. discriminate Hres.
Qed.

Lemma report_of_a_successful_request_witness :
  json_get "optimizationLevel" (body (sample_answer env_all_good)) = Some (JStr "draco")
  /\ applied_entry "draco" (sample_answer env_all_good) = Some (JBool true).
Proof.
  assert (Hans : answer (POST env_all_good ∅ fresh_globals)
                 = Some (sample_answer env_all_good)) by (vm_compute; reflexivity).
  assert (Hst : status (sample_answer env_all_good) = 200) by (vm_compute; reflexivity).
  pose proof (report_of_a_successful_request env_all_good ∅ fresh_globals
                (sample_answer env_all_good) Hans Hst)
    as (Hlevel & _ & Hbody).
  cbv zeta in Hlevel, Hbody. split.
  - rewrite Hlevel. vm_compute. reflexivity.
  - destruct Hbody as [(Hmin & _)|(_ & _ & _ & _ & Hdraco & _)].
    + vm_compute in Hmin. discriminate Hmin.
    + rewrite Hdraco. vm_compute. reflexivity.
Defined.

(** ** C10: the last-resort branch fails too *)

(** C10, as the code has it.  When dedup or prune throws out of the stages
    and the [catch] clause completes without answering (its last-resort
    branch has failed), the handler goes on to write the request's document
    to the output path.  If that write succeeds the request is answered
    with status 200 and the level "error"; if it throws, the outer [catch]
    answers with status 500. *)
Theorem error_level_answer_after_failed_fallback
    (E : Env) (files : gmap string (list Byte.byte)) (g : Globals)
    (fd : FormData) (file : File) (c : Scope) (s1 : State) (T0 : list Event)
    (e : Thrown) (s2 : State) (T : list Event) :
  req_formData E = Resolved fd ->
  formData_get "file" fd = Some (FormFile file) ->
  receive E file (initial_state files g) = (Normal c, s1, T0) ->
  sequence (stages E c) (set_level "none" s1) = (Throw e, s2, T) ->
  fst (fst (on_transform_error E c e s2)) = Normal tt ->
  match io_write (lib E) (output_path E) (document s2) with
  | Resolved encoded =>
      answered_with_error_level (POST E files g)
      /\ fs (final_state (POST E files g)) !! output_path E = Some encoded
      /\ In (CallWrite Main (output_path E) true) (events (POST E files g))
  | Rejected e' =>
      (exists r, answer (POST E files g) = Some r /\ status r = 500)
      /\ final_write_failed (events (POST E files g))
  end.
Proof.
  intros Hfd Hget Hrec Hseq Hfallback.
  destruct (receive_scope E file _ c s1 T0 Hrec) as (_ & _ & _ & _ & Hout & _).
  rewrite (POST_decoded E files g fd file c s1 T0 Hfd Hget Hrec).
  destruct (on_transform_error_run E c e s2)
    as (resH & sH & H & HrunH & _ & _ & HdocH & Hres).
  rewrite HrunH in Hfallback. cbn [fst] in Hfallback. subst resH.
  destruct Hres as [(_ & Hlv & _)|(Hbad & _)]; [|discriminate Hbad].
  assert (Hopt : optimize E c s1 = (Normal tt, sH, (T ++ H)%list)).
  { unfold optimize, bind at 1, modify, try_catch. by rewrite Hseq, HrunH. }
  destruct (finish_run E c sH) as (res & s' & tail & Hfin & Hfinishes).
  unfold pipeline. rewrite (try_catch_bind_normal _ _ _ _ _ _ _ Hopt), Hfin.
  unfold finishes in Hfinishes. rewrite HdocH, Hout in Hfinishes.
  unfold answered_with_error_level, answer, final_state, events. cbn [fst snd].
  destruct (io_write (lib E) (output_path E) (document s2)) as [encoded|e'].
  - destruct Hfinishes as (-> & -> & R & -> & _). rewrite Hlv. split; [|split].
    + eexists. split; [reflexivity|]. split; reflexivity.
    + cbn [fs set_fs]. apply lookup_insert_eq.
    + apply in_or_app. right. apply in_or_app. right. by left.
  - destruct Hfinishes as ((r & -> & Hst) & -> & ->). split; [eauto|].
    exists (T0 ++ T ++ H)%list, (output_path E), e'. by rewrite <- !app_assoc.
Qed.

Lemma error_level_answer_after_failed_fallback_witness :
  answered_with_error_level (POST env_prune_fails ∅ fresh_globals).
Proof.
  set (c := received_scope env_prune_fails).
  set (s1 := snd (fst (received env_prune_fails))).
  set (run := sequence (stages env_prune_fails c) (set_level "none" s1)).
  assert (Hrec : receive env_prune_fails sample_file (initial_state ∅ fresh_globals)
                 = (Normal c, s1, snd (received env_prune_fails)))
    by (vm_compute; reflexivity).
  assert (Hseq : run = (Throw (boom "transform failed"), snd (fst run), snd run))
    by (vm_compute; reflexivity).
  assert (Hfb : fst (fst (on_transform_error env_prune_fails c (boom "transform failed")
                            (snd (fst run)))) = Normal tt)
    by (vm_compute; reflexivity).
  pose proof (error_level_answer_after_failed_fallback env_prune_fails ∅ fresh_globals
                (upload "robot.glb") sample_file c s1 (snd (received env_prune_fails))
                (boom "transform failed") (snd (fst run)) (snd run)
                eq_refl eq_refl Hrec Hseq Hfb) as H.
  exact (proj1 H).
Defined.

(** C10 as stated fails when the final write throws as well: with a full
    disk, prune throws, the last-resort branch fails (the handler logs it)
    and the request is answered with status 500. *)
Lemma failed_fallback_and_failed_write_give_500 :
  existsb (failed_call PPrune) (events (POST env_disk_full ∅ fresh_globals)) = true
  /\ existsb fallback_failed (events (POST env_disk_full ∅ fresh_globals)) = true
  /\ status (sample_answer env_disk_full) = 500
  /\ ~ answered_with_error_level (POST env_disk_full ∅ fresh_globals).
Proof.
  split; [vm_compute; reflexivity|]. split; [vm_compute; reflexivity|].
  split; [vm_compute; reflexivity|].
  intros (r & Hans & Hst & _). vm_compute in Hans. injection Hans as <-.
  vm_compute in Hst. discriminate Hst.
Qed.

(** * Properties of the surrounding code *)

(** ** How the optimisation handler answers *)

Lemma on_error_body e s :
  exists r,
    on_error e s = (Return r, s, [Console console_error "파일 저장 에러:" (ArgThrown e)])
    /\ status r = 500 /\ error_body r.
Proof.
  unfold on_error. run_monad. eexists. split; [reflexivity|]. split; [reflexivity|].
  unfold error_body. cbn [body NextResponse_json].
  destruct e as [m [st|]|v]; eexists _, _; (split; [reflexivity|]); eauto.
Qed.

Lemma finish_run_body E c s :
  exists res s' tail,
    try_catch (encode_and_report E c) on_error s = (res, s', tail)
    /\ match io_write (lib E) (outputPath c) (document s) with
       | Resolved encoded =>
           res = Return (NextResponse_json
                           (full_report c (optimizationLevel s) (Z.of_nat (length encoded)))
                           None)
           /\ s' = set_fs (<[outputPath c := encoded]> (fs s)) s
           /\ exists R, tail = CallWrite Main (outputPath c) true :: R
                        /\ forallb setup_event R = true
       | Rejected e =>
           (exists r, res = Return r /\ status r = 500 /\ error_body r)
           /\ s' = s
           /\ tail = [CallWrite Main (outputPath c) false;
                      Console console_error "파일 저장 에러:" (ArgThrown e)]
       end.
Proof.
  pose proof (encode_and_report_run E c s) as H. unfold try_catch.
  destruct (io_write (lib E) (outputPath c) (document s)) as [bytes|e].
  - destruct H as (R & -> & HR). eexists _, _, _. split; [reflexivity|]. eauto.
  - rewrite H. destruct (on_error_body e s) as (r & -> & Hst & Hbody).
    eexists _, _, _. split; [reflexivity|]. eauto 7.
Qed.

(** The last-resort branch, when it answers, has written its document to
    the output path. *)
Lemma on_transform_error_minimal E c e s r s' H :
  on_transform_error E c e s = (Return r, s', H) ->
  r = NextResponse_json (minimal_report c "minimal") None
  /\ exists encoded d, fs s' !! outputPath c = Some encoded
                       /\ io_write (lib_again E) (outputPath c) d = Resolved encoded.
Proof.
  unfold on_transform_error, minimal_fallback, NodeIO_read, NodeIO_write. run_monad.
  cbn [fs set_level].
  destruct (fs s !! inputPath c) as [bytes|]; run_monad; [|done].
  destruct (io_read (lib_again E) (inputPath c) bytes) as [d2|e2]; run_monad; [|done].
  cbn [transform_all].
  destruct (lib_transform (lib_again E) dedup d2) as [d3 [e3|]]; run_monad; [done|].
  destruct (lib_transform (lib_again E) prune d3) as [d4 [e4|]]; run_monad; [done|].
  destruct (io_write (lib_again E) (outputPath c) d4) as [out|e5] eqn:Hw; run_monad; [|done].
  intros [= <- <- <-]. split; [reflexivity|]. exists out, d4. split; [|done].
  cbn [fs set_level set_fs]. apply lookup_insert_eq.
Qed.

Lemma POST_refused_body E files g :
  (forall fd file c s1 T0,
      req_formData E = Resolved fd ->
      formData_get "file" fd = Some (FormFile file) ->
      receive E file (initial_state files g) <> (Normal c, s1, T0)) ->
  exists r, answer (POST E files g) = Some r
            /\ (status r = 400 \/ status r = 500) /\ error_body r.
Proof.
  intros Hnot. unfold POST, handle.
  assert (H400 : error_body (NextResponse_json (JObj [("error", JStr "파일이 없습니다.")])
                               (Some 400))).
  { eexists _, _. split; [reflexivity|]. by left. }
  destruct (req_formData E) as [fd|e0] eqn:Hfd; cbn [await].
  { rewrite (try_catch_bind_normal (ret fd) _ _ _ fd _ [] eq_refl).
    destruct (formData_get "file" fd) as [[text|file]|] eqn:Hget.
    - destruct text as [|a text].
      + unfold try_catch, return_. eexists. split; [reflexivity|]. split; [by left | done].
      + unfold try_catch, throw.
        match goal with |- context [on_error ?e ?s] =>
          destruct (on_error_body e s) as (r & -> & Hst & Hbody) end.
        eexists. split; [reflexivity|]. split; [by right | done].
    - destruct (receive_run E file (initial_state files g))
        as (res & s1 & T0 & Hrec & HT0 & Hnoret).
      destruct res as [c|r|e].
      + exfalso. by eapply Hnot.
      + exfalso. by eapply Hnoret.
      + rewrite (try_catch_bind_throw _ _ _ _ _ _ _ Hrec).
        destruct (on_error_body e s1) as (r & -> & Hst & Hbody).
        eexists. split; [reflexivity|]. split; [by right | done].
    - unfold try_catch, return_. eexists. split; [reflexivity|]. split; [by left | done]. }
  rewrite (try_catch_bind_throw (throw e0) _ _ _ e0 _ [] eq_refl).
  destruct (on_error_body e0 (initial_state files g)) as (r & -> & Hst & Hbody).
  eexists. split; [reflexivity|]. split; [by right | done].
Qed.

(** Every request is answered in one of three ways. *)
Lemma POST_outcome E files g : Outcome E g (POST E files g).
Proof.
  assert (Hdec : (exists fd file c s1 T0,
                     req_formData E = Resolved fd
                     /\ formData_get "file" fd = Some (FormFile file)
                     /\ receive E file (initial_state files g) = (Normal c, s1, T0))
                 \/ (forall fd file c s1 T0,
                       req_formData E = Resolved fd ->
                       formData_get "file" fd = Some (FormFile file) ->
                       receive E file (initial_state files g) <> (Normal c, s1, T0))).
  { destruct (req_formData E) as [fd|e0] eqn:Hfd; [|right; congruence].
    destruct (formData_get "file" fd) as [[t|file]|] eqn:Hget;
      try (right; intros; congruence).
    destruct (receive E file (initial_state files g)) as [[[c|r|e] s1] T0] eqn:Hrec;
      [left; eauto 10 | |];
      right; intros fd' file' c' s1' T0' [= <-] Hg; rewrite Hget in Hg;
      injection Hg as <-; congruence. }
  destruct Hdec as [(fd & file & c & s1 & T0 & Hfd & Hget & Hrec)|Hnot].
  2: { destruct (POST_refused_body E files g Hnot) as (r & Hans & Hst & Hbody).
       by eapply Refused. }
  assert (HT0 : forallb setup_event T0 = true).
  { destruct (receive_run E file (initial_state files g)) as (res0 & s0 & T0' & Hrec' & HT0 & _).
    rewrite Hrec in Hrec'. by injection Hrec' as <- <- <-. }
  apply setup_aside in HT0.
  destruct (receive_scope E file _ c s1 T0 Hrec) as (uploaded & _ & _ & _ & Hout & Hid & _).
  rewrite (POST_decoded E files g fd file c s1 T0 Hfd Hget Hrec).
  assert (Hend : forall s6 T,
    optimize E c s1 = (Normal tt, s6, T) ->
    includes ["draco"; "draco-simple"] (optimizationLevel s6)
    = existsb draco_succeeded T ->
    Outcome E g (let '(res, s', evs) := pipeline E c s1 in
                 (answer_of res, s', (T0 ++ evs)%list))).
  { intros s6 T Hopt Hdraco. unfold pipeline.
    rewrite (try_catch_bind_normal _ _ _ _ _ _ _ Hopt).
    destruct (finish_run_body E c s6) as (res & s' & tail & -> & Hfin).
    destruct (io_write (lib E) (outputPath c) (document s6)) as [encoded|e'] eqn:Hw.
    - destruct Hfin as (-> & -> & R & -> & HR).
      eapply (Full _ _ _ c encoded); unfold answer, final_state, events; cbn [fst snd answer_of].
      + reflexivity.
      + done.
      + cbn [fs set_fs]. rewrite Hout. apply lookup_insert_eq.
      + cbn [document set_fs]. by rewrite <- Hout.
      + cbn [optimizationLevel set_fs]. rewrite Hdraco, !existsb_app. cbn [existsb].
        rewrite (asides_no_draco T0), (asides_no_draco R) by (try done; by apply setup_aside).
        cbn. by rewrite ?orb_false_r.
    - destruct Hfin as ((r & -> & Hst & Hbody) & -> & ->).
      eapply (Refused _ _ _ r); [reflexivity | by right | done]. }
  destruct (early_passes (lib E) (document s1)) as [d2 [e|]] eqn:Hearly.
  - destruct (pipeline_early_failure E c s1 d2 e Hearly)
      as (s2 & Te & p0 & resH & sH & H & res' & s'' & tail
          & Hseq & Hp0 & _ & _ & Hlate & Hon & HH & _ & _ & Hcase).
    cbv zeta in Hseq.
    assert (Hopt : optimize E c s1
                   = (resH, sH,
                      ((Te ++ [CallTransform Main
                                 match p0 with PDedup => dedup | _ => prune end false])
                       ++ H)%list)).
    { unfold optimize, bind at 1, modify, try_catch. by rewrite Hseq, Hon. }
    destruct Hcase as [(-> & _)|(-> & Hlv & _)].
    + unfold pipeline. rewrite (try_catch_bind_return _ _ _ _ _ _ _ Hopt).
      destruct (on_transform_error_minimal _ _ _ _ _ _ _ Hon) as (_ & encoded & d & Hfile & Hw).
      eapply (Minimal _ _ _ c encoded); unfold answer, final_state; cbn [fst snd answer_of].
      * reflexivity.
      * done.
      * by rewrite <- Hout.
      * exists d. by rewrite <- Hout.
    + apply (Hend _ _ Hopt). rewrite Hlv, !existsb_app. cbn [existsb].
      rewrite (asides_no_draco H), (no_late_call_no_draco Te) by done.
      by destruct Hp0 as [-> | ->].
  - destruct (stages_main_path E c (set_level "none" s1) d2 Hearly)
      as (s2 & s3 & s4 & s5 & s6 & T1 & T2 & T3 & T4 & T5 & T6
          & _ & _ & _ & _ & _ & _ & Hseq & _).
    assert (Hopt : optimize E c s1
                   = (Normal tt, s6, (T1 ++ T2 ++ T3 ++ T4 ++ T5 ++ T6)%list)).
    { unfold optimize, bind at 1, modify, try_catch. by rewrite Hseq. }
    apply (Hend _ _ Hopt).
    destruct (prefix_progress E c 6 (set_level "none" s1) ltac:(lia) eq_refl)
      as (res & s' & evs & Hrun & _ & Hprog).
    change (firstn 6 (stages E c)) with (stages E c) in Hrun.
    rewrite Hseq in Hrun. injection Hrun as <- <- <-.
    destruct (Hprog eq_refl 0%nat) as (n' & Hfold & _).
    cbn [optimizationLevel set_level] in Hfold.
    transitivity (includes ["draco"; "draco-simple"]
                    (snd (fold_left progress_step (T1 ++ T2 ++ T3 ++ T4 ++ T5 ++ T6)%list
                            (0%nat, "none")))).
    { by rewrite Hfold. }
    by rewrite progress_draco.
Qed.

(** ** The optimisation handler: answers *)

Lemma error_body_fields r :
  error_body r ->
  (exists msg, json_get "error" (body r) = Some (JStr msg))
  /\ json_get "message" (body r) = None
  /\ json_get "optimizedModelUrl" (body r) = None
  /\ json_get "dracoEnabled" (body r) = None.
Proof.
  intros (msg & rest & -> & [->|[st ->]]); (split; [by exists msg|]); done.
Qed.

(** X1.  Whatever the request and whatever the libraries do, the
    optimisation handler answers, with status 200, 400 or 500: nothing
    escapes its outer [catch].  An answer with status 200 has a [message]
    and no [error]; any other answer has an [error] text and neither a
    [message] nor an [optimizedModelUrl]. *)
Theorem optimize_request_is_always_answered (E : Env) (files : gmap string (list Byte.byte))
    (g : Globals) :
  exists r,
    answer (POST E files g) = Some r
    /\ (status r = 200 \/ status r = 400 \/ status r = 500)
    /\ (if status r =? 200
        then (exists m, json_get "message" (body r) = Some (JStr m))
             /\ json_get "error" (body r) = None
        else (exists m, json_get "error" (body r) = Some (JStr m))
             /\ json_get "message" (body r) = None
             /\ json_get "optimizedModelUrl" (body r) = None).
Proof.
  destruct (POST_outcome E files g) as [r Hans Hst Hbody|c encoded Hans _ _ _|c encoded Hans _ _ _ _].
  - exists r. split; [done|]. split; [tauto|].
    destruct (error_body_fields r Hbody) as (He & Hm & Hu & _).
    by destruct Hst as [-> | ->].
  - eexists. split; [exact Hans|]. split; [by left|]. cbn. eauto.
  - eexists. split; [exact Hans|]. split; [by left|]. cbn. eauto.
Qed.

(** X2.  A text field named "file": an empty text is refused with 400 like
    a missing file; any other text passes the test [!file], the call of
    [file.arrayBuffer] throws, and the request ends in the outer [catch]
    with status 500 and the text of the TypeError.  Either way nothing is
    written and no library is called. *)
Theorem text_field_in_place_of_the_file (E : Env) (files : gmap string (list Byte.byte))
    (g : Globals) (fd : FormData) (text : string) :
  req_formData E = Resolved fd ->
  formData_get "file" fd = Some (FormText text) ->
  exists r,
    answer (POST E files g) = Some r
    /\ final_state (POST E files g) = initial_state files g
    /\ if String.eqb text ""
       then status r = 400 /\ events (POST E files g) = []
       else status r = 500
            /\ json_get "error" (body r) = Some (JStr "file.arrayBuffer is not a function")
            /\ exists e, events (POST E files g)
                         = [Console console_error "파일 저장 에러:" (ArgThrown e)].
Proof.
  intros Hfd Hget. unfold POST, handle, answer, final_state, events.
  rewrite Hfd. cbn [await].
  rewrite (try_catch_bind_normal (ret fd) _ _ _ fd _ [] eq_refl), Hget.
  destruct text as [|a text]; cbn; eexists; repeat split. by eexists.
Qed.

Lemma text_field_in_place_of_the_file_witness :
  exists r,
    answer (POST env_text_field disk_with_old_file fresh_globals) = Some r
    /\ final_state (POST env_text_field disk_with_old_file fresh_globals)
       = initial_state disk_with_old_file fresh_globals
    /\ status r = 500.
Proof.
  destruct (text_field_in_place_of_the_file env_text_field disk_with_old_file fresh_globals
              [("file", FormText "robot.glb")] "robot.glb" eq_refl eq_refl)
    as (r & Hans & Hfin & Hrest).
  exists r. split; [exact Hans|]. split; [exact Hfin|]. exact (proj1 Hrest).
Defined.

(** ** [initializeDraco] *)

(** X3.  What [initializeDraco] caches, for calls that do not overlap
    (each has ended before the next begins).  When [dracoInitialized] is
    set, the call hands out the cached pair and does nothing else.  When it
    is not set and both modules can be created, the call returns them and
    sets the flag, so that the next call, in whatever environment, creates
    nothing.  When a creation fails, the call answers a pair of nulls and
    leaves the flag unset, so that the next call creates the decoder again;
    a decoder created before the encoder failed stays in the module
    variable all the same.  Only a success is cached. *)
Theorem initializeDraco_caches_only_a_success (E E' : Env) (s : State) :
  let '(res, s1, evs) := initializeDraco E s in
  if dracoInitialized (globals s) then
    res = Normal (decoderModule (globals s), encoderModule (globals s))
    /\ s1 = s /\ evs = []
  else if resolved (createDecoderModule E) && resolved (createEncoderModule E) then
    (exists dec enc, res = Normal (Some dec, Some enc))
    /\ initializeDraco E' s1 = (res, s1, [])
  else
    res = Normal (None, None)
    /\ dracoInitialized (globals s1) = false
    /\ decoderModule (globals s1)
       = match createDecoderModule E with
         | Resolved dec => Some dec
         | Rejected _ => decoderModule (globals s)
         end
    /\ exists ok rest, snd (initializeDraco E' s1) = CallCreateDecoder ok :: rest.
Proof.
  unfold initializeDraco. run_monad.
  destruct (dracoInitialized (globals s)) eqn:Hinit; [done|].
  destruct (createDecoderModule E) as [dec|e1]; run_monad; cbn [resolved andb].
  - destruct (createEncoderModule E) as [enc|e2]; run_monad; cbn [resolved andb globals set_globals
      dracoInitialized decoderModule encoderModule].
    + split; [by eexists _, _|]. done.
    + rewrite Hinit. split; [done|]. split; [done|]. split; [done|].
      destruct (createDecoderModule E') as [dec'|e1']; run_monad.
      * destruct (createEncoderModule E'); run_monad; cbn; eauto.
      * cbn. eauto.
  - rewrite Hinit. split; [done|]. split; [done|]. split; [done|].
    destruct (createDecoderModule E') as [dec'|e1']; run_monad.
    + destruct (createEncoderModule E'); run_monad; cbn; eauto.
    + cbn. eauto.
Qed.

(** ** Files *)

Create HintDb keeps.

Lemma keeps_ret {A} (a : A) : keeps_files (ret a).
Proof. by intros s p H. Qed.

Lemma keeps_throw {A} e : keeps_files (@throw A e).
Proof. by intros s p H. Qed.

Lemma keeps_return {A} r : keeps_files (@return_ A r).
Proof. by intros s p H. Qed.

Lemma keeps_emit ev : keeps_files (emit ev).
Proof. by intros s p H. Qed.

Lemma keeps_console lvl msg arg : keeps_files (console lvl msg arg).
Proof. apply keeps_emit. Qed.

Lemma keeps_gets {A} (f : State -> A) : keeps_files (gets f).
Proof. by intros s p H. Qed.

Lemma keeps_raise_if r : keeps_files (raise_if r).
Proof. destruct r; [apply keeps_throw | apply keeps_ret]. Qed.

Lemma keeps_await {A} (p : Promise A) : keeps_files (await p).
Proof. destruct p; [apply keeps_ret | apply keeps_throw]. Qed.

Lemma keeps_modify f :
  (forall s p, is_Some (fs s !! p) -> is_Some (fs (f s) !! p)) -> keeps_files (modify f).
Proof. intros Hf s p H. by apply Hf. Qed.

Lemma keeps_bind {A B} (m : M A) (k : A -> M B) :
  keeps_files m -> (forall a, keeps_files (k a)) -> keeps_files (bind m k).
Proof.
  intros Hm Hk s p Hp. specialize (Hm s p Hp). unfold bind.
  destruct (m s) as [[[a|r|e] t] evs]; cbn in *; try done.
  specialize (Hk a t p Hm). by destruct (k a t) as [[c u] evs'].
Qed.

Lemma keeps_try_catch {A} (m : M A) (h : Thrown -> M A) :
  keeps_files m -> (forall e, keeps_files (h e)) -> keeps_files (try_catch m h).
Proof.
  intros Hm Hh s p Hp. specialize (Hm s p Hp). unfold try_catch.
  destruct (m s) as [[[a|r|e] t] evs]; cbn in *; try done.
  specialize (Hh e t p Hm). by destruct (h e t) as [[c u] evs'].
Qed.

#[local] Hint Resolve keeps_ret keeps_throw keeps_return keeps_emit keeps_console keeps_gets
  keeps_raise_if keeps_await : keeps.

Ltac keeps :=
  repeat first
    [ solve [auto with keeps]
    | apply keeps_try_catch; [|intros ?]
    | apply keeps_bind; [|intros ?]
    | apply keeps_modify; intros ? ? ?; cbn [fs set_fs set_level set_document set_globals];
      first [ assumption | apply lookup_insert_is_Some'; by right ]
    | match goal with
      | |- keeps_files (if ?b then _ else _) => destruct b
      | |- keeps_files (match ?x with _ => _ end) => destruct x
      end ].

Lemma keeps_transform_all L ts : forall d, keeps_files (transform_all L ts d).
Proof. induction ts as [|t rest IH]; intros d; cbn [transform_all]; keeps. Qed.

Lemma keeps_compress_each L todo : forall index, keeps_files (compress_each L index todo).
Proof.
  induction todo as [|t rest IH]; intros index; cbn [compress_each]; [keeps|].
  apply keeps_bind; [|auto]. unfold compress_one. keeps.
Qed.

Lemma keeps_checkFileSize E c stage : keeps_files (checkFileSize E c stage).
Proof. unfold checkFileSize, NodeIO_write, stat_size. keeps. Qed.

Lemma keeps_document_transform L t : keeps_files (document_transform L t).
Proof. unfold document_transform. keeps. Qed.

#[local] Hint Resolve keeps_transform_all keeps_compress_each keeps_checkFileSize
  keeps_document_transform : keeps.

Lemma keeps_sequence ms : (forall m, In m ms -> keeps_files m) -> keeps_files (sequence ms).
Proof.
  induction ms as [|m rest IH]; intros H; cbn [sequence]; [keeps|].
  apply keeps_bind; [apply H; by left | intros _; apply IH; intros; apply H; by right].
Qed.

Lemma keeps_stages E c m : In m (stages E c) -> keeps_files m.
Proof.
  unfold stages. cbn [In].
  intros [<-|[<-|[<-|[<-|[<-|[<-|[]]]]]]];
    unfold stage_dedup, stage_prune, stage_resample, stage_texture, stage_mesh, stage_draco,
      root_listAnimations, root_listTextures;
    keeps.
Qed.

Lemma keeps_optimize E c : keeps_files (optimize E c).
Proof.
  unfold optimize, on_transform_error, minimal_fallback, NodeIO_read, NodeIO_write.
  apply keeps_bind; [keeps|intros _].
  apply keeps_try_catch; [apply keeps_sequence, keeps_stages|intros e]. keeps.
Qed.

Lemma keeps_encode_and_report E c : keeps_files (encode_and_report E c).
Proof. unfold encode_and_report, NodeIO_write, stat_size. keeps. Qed.

Lemma keeps_on_error e : keeps_files (on_error e).
Proof. unfold on_error. keeps. Qed.

Lemma keeps_pipeline E c : keeps_files (pipeline E c).
Proof.
  unfold pipeline. apply keeps_try_catch; [|apply keeps_on_error].
  apply keeps_bind; [apply keeps_optimize | intros _; apply keeps_encode_and_report].
Qed.

Lemma keeps_receive E file : keeps_files (receive E file).
Proof.
  unfold receive, fs_writeFile, stat_size, prepare_draco, initializeDraco, NodeIO_read. keeps.
Qed.

Lemma keeps_handle E : keeps_files (handle E).
Proof.
  unfold handle. apply keeps_bind; [keeps|intros fd].
  destruct (formData_get "file" fd) as [[[|a text]|file]|]; [keeps..| |keeps].
  apply keeps_bind; [apply keeps_receive|intros c].
  apply keeps_bind; [apply keeps_optimize | intros _; apply keeps_encode_and_report].
Qed.

Lemma POST_final_state E files g :
  final_state (POST E files g)
  = snd (fst (try_catch (handle E) on_error (initial_state files g))).
Proof.
  unfold POST, final_state.
  by destruct (try_catch (handle E) on_error (initial_state files g)) as [[[a|r|e] s] evs].
Qed.

(** What [receive] leaves on disk: the upload, under the input path. *)
Lemma receive_stored E file s c s1 T0 :
  receive E file s = (Normal c, s1, T0) ->
  exists bytes,
    file_arrayBuffer file = Resolved bytes
    /\ fs s1 !! upload_path E file = Some bytes.
Proof.
  unfold receive, fs_writeFile, stat_size, NodeIO_read. run_monad.
  destruct (file_arrayBuffer file) as [buffer|e0]; run_monad; [|done].
  fold (upload_path E file). fold (output_path E).
  destruct (writeFile E (upload_path E file) buffer) as [e1|]; run_monad; [done|].
  cbn [fs set_fs]. rewrite lookup_insert_eq. run_monad.
  match goal with
  | |- context [prepare_draco E ?s0] =>
      destruct (prepare_draco_result E s0) as (s2 & evs2 & Hprep & Hevs2 & _ & Hfs2);
      rewrite Hprep
  end.
  rewrite Hfs2. cbn [fs set_fs globals]. rewrite lookup_insert_eq.
  destruct (io_read (lib E) (upload_path E file) buffer) as [d|e2]; run_monad; [|done].
  intros [= <- <- <-]. exists buffer. split; [done|].
  cbn [fs set_document]. rewrite Hfs2. cbn [fs set_fs]. apply lookup_insert_eq.
Qed.

(** A request with status 200 is one whose upload was stored and decoded. *)
Lemma POST_200_decoded E files g r :
  answer (POST E files g) = Some r -> status r = 200 ->
  exists fd file c s1 T0,
    req_formData E = Resolved fd
    /\ formData_get "file" fd = Some (FormFile file)
    /\ receive E file (initial_state files g) = (Normal c, s1, T0).
Proof.
  intros Hans Hst.
  destruct (req_formData E) as [fd|e0] eqn:Hfd.
  2: { destruct (POST_refused_body E files g) as (r' & Hans' & Hst' & _); [congruence|].
       rewrite Hans in Hans'. injection Hans' as <-. lia. }
  destruct (formData_get "file" fd) as [[t|file]|] eqn:Hget.
  1,3: destruct (POST_refused_body E files g) as (r' & Hans' & Hst' & _);
       [intros; congruence | rewrite Hans in Hans'; injection Hans' as <-; lia].
  destruct (receive E file (initial_state files g)) as [[[c|r0|e] s1] T0] eqn:Hrec;
    [by eauto 10|..];
    (destruct (POST_refused_body E files g) as (r' & Hans' & Hst' & _);
     [intros fd' file' c' s1' T0' Hfd' Hg; rewrite Hfd in Hfd'; injection Hfd' as <-;
      rewrite Hget in Hg; injection Hg as <-; congruence
     | rewrite Hans in Hans'; injection Hans' as <-; lia]).
Qed.

(** X4.  The optimisation handler removes no file: whatever was in the
    file system when the request came is still there when it is answered.
    The upload, the scratch files of [checkFileSize] and the output are
    never cleaned up. *)
Theorem optimize_request_removes_no_file (E : Env) (files : gmap string (list Byte.byte))
    (g : Globals) (p : string) :
  is_Some (files !! p) ->
  is_Some (fs (final_state (POST E files g)) !! p).
Proof.
  intros Hp. rewrite POST_final_state.
  apply (keeps_try_catch _ _ (keeps_handle E) keeps_on_error (initial_state files g) p Hp).
Qed.

Lemma optimize_request_removes_no_file_witness :
  is_Some (fs (final_state (POST env_all_good disk_with_old_file fresh_globals))
             !! "/tmp/old-optimized.glb").
Proof.
  apply (optimize_request_removes_no_file env_all_good disk_with_old_file fresh_globals
           "/tmp/old-optimized.glb").
  exists [Byte.x01; Byte.x02]. vm_compute. reflexivity.
Defined.

(** X5.  After an answer with status 200 the temporary directory holds
    both the stored upload and the output. *)
Theorem answered_request_leaves_its_files (E : Env) (files : gmap string (list Byte.byte))
    (g : Globals) (fd : FormData) (file : File) (r : Response) :
  req_formData E = Resolved fd ->
  formData_get "file" fd = Some (FormFile file) ->
  answer (POST E files g) = Some r ->
  status r = 200 ->
  is_Some (fs (final_state (POST E files g)) !! upload_path E file)
  /\ is_Some (fs (final_state (POST E files g)) !! output_path E).
Proof.
  intros Hfd Hget Hans Hst. split.
  - destruct (POST_200_decoded E files g r Hans Hst)
      as (fd' & file' & c & s1 & T0 & Hfd' & Hget' & Hrec).
    rewrite Hfd in Hfd'. injection Hfd' as <-.
    rewrite Hget in Hget'. injection Hget' as <-.
    destruct (receive_stored E file _ c s1 T0 Hrec) as (bytes & _ & Hstored).
    rewrite (POST_decoded E files g fd file c s1 T0 Hfd Hget Hrec).
    pose proof (keeps_pipeline E c s1 (upload_path E file) ltac:(by eexists)) as Hkeep.
    unfold final_state. by destruct (pipeline E c s1) as [[res s'] evs].
  - destruct (POST_outcome E files g)
      as [r' Hans' Hst' _|c encoded _ _ Hfile _|c encoded _ _ Hfile _ _]; [|by eexists..].
    rewrite Hans in Hans'. injection Hans' as <-. lia.
Qed.

Lemma answered_request_leaves_its_files_witness :
  is_Some (fs (final_state (POST env_all_good ∅ fresh_globals))
             !! upload_path env_all_good sample_file)
  /\ is_Some (fs (final_state (POST env_all_good ∅ fresh_globals)) !! output_path env_all_good).
Proof.
  assert (Hans : answer (POST env_all_good ∅ fresh_globals) = Some (sample_answer env_all_good))
    by (vm_compute; reflexivity).
  assert (Hst : status (sample_answer env_all_good) = 200) by (vm_compute; reflexivity).
  exact (answered_request_leaves_its_files env_all_good ∅ fresh_globals
           (upload "robot.glb") sample_file (sample_answer env_all_good)
           eq_refl eq_refl Hans Hst).
Defined.

(** ** The optimisation handler: paths and the Draco gate *)

Lemma decoded_or_not E files g :
  (exists fd file c s1 T0,
      req_formData E = Resolved fd
      /\ formData_get "file" fd = Some (FormFile file)
      /\ receive E file (initial_state files g) = (Normal c, s1, T0)
      /\ forallb setup_event T0 = true)
  \/ (forall fd file c s1 T0,
        req_formData E = Resolved fd ->
        formData_get "file" fd = Some (FormFile file) ->
        receive E file (initial_state files g) <> (Normal c, s1, T0)).
Proof.
  destruct (req_formData E) as [fd|e0] eqn:Hfd; [|right; congruence].
  destruct (formData_get "file" fd) as [[t|file]|] eqn:Hget;
    try (right; intros; congruence).
  destruct (receive_run E file (initial_state files g)) as (res & s1 & T0 & Hrec & HT0 & _).
  destruct res as [c|r|e]; [left; eauto 10 | |];
    right; intros fd' file' c' s1' T0' [= <-] Hg; rewrite Hget in Hg;
    injection Hg as <-; congruence.
Qed.

(** X6.  An upload whose name is "optimized.glb" is stored under the very
    path the output is written to.  When such a request is answered with
    status 200, the file under that path is no longer the upload but what
    [io.write] made of a document. *)
Theorem upload_named_like_the_output_is_overwritten (E : Env)
    (files : gmap string (list Byte.byte)) (g : Globals) (fd : FormData) (file : File)
    (r : Response) :
  req_formData E = Resolved fd ->
  formData_get "file" fd = Some (FormFile file) ->
  file_name file = "optimized.glb" ->
  answer (POST E files g) = Some r ->
  status r = 200 ->
  upload_path E file = output_path E
  /\ exists L d encoded,
       (L = lib E \/ L = lib_again E)
       /\ io_write L (upload_path E file) d = Resolved encoded
       /\ fs (final_state (POST E files g)) !! upload_path E file = Some encoded.
Proof.
  intros _ _ Hname Hans Hst.
  assert (Hpath : upload_path E file = output_path E).
  { unfold upload_path, output_path. by rewrite Hname. }
  split; [done|]. rewrite Hpath.
  destruct (POST_outcome E files g)
    as [r' Hans' Hst' _|c encoded _ _ Hfile [d Hw]|c encoded _ _ Hfile Hw _].
  - rewrite Hans in Hans'. injection Hans' as <-. lia.
  - exists (lib_again E), d, encoded. auto.
  - exists (lib E), (document (final_state (POST E files g))), encoded. auto.
Qed.

Lemma upload_named_like_the_output_is_overwritten_witness :
  upload_path env_output_named output_named_file = output_path env_output_named
  /\ exists L d encoded,
       (L = lib env_output_named \/ L = lib_again env_output_named)
       /\ io_write L (upload_path env_output_named output_named_file) d = Resolved encoded
       /\ fs (final_state (POST env_output_named ∅ fresh_globals))
            !! upload_path env_output_named output_named_file = Some encoded.
Proof.
  assert (Hans : answer (POST env_output_named ∅ fresh_globals)
                 = Some (sample_answer env_output_named))
    by (vm_compute; reflexivity).
  assert (Hst : status (sample_answer env_output_named) = 200) by (vm_compute; reflexivity).
  exact (upload_named_like_the_output_is_overwritten env_output_named ∅ fresh_globals
           [("file", FormFile output_named_file)] output_named_file
           (sample_answer env_output_named) eq_refl eq_refl eq_refl Hans Hst).
Defined.

Lemma stage6_not_early q ok t ok' :
  stage_of q = 6%nat -> (t = dedup \/ t = prune) -> call_of q ok (CallTransform Main t ok') = false.
Proof. intros Hq [-> | ->]; by destruct q. Qed.

(** Without the modules no call of stage 6 is made. *)
Lemma no_stage6_call_without_modules E files g q ok :
  modules_available E g = false ->
  stage_of q = 6%nat ->
  existsb (call_of q ok) (events (POST E files g)) = false.
Proof.
  intros Hmod Hq.
  destruct (decoded_or_not E files g)
    as [(fd & file & c & s1 & T0 & Hfd & Hget & Hrec & HT0)|Hnot].
  2: { destruct (POST_not_decoded E files g Hnot) as (r & s & evs & -> & _ & Hevs).
       apply asides_no_call. by apply setup_aside. }
  apply setup_aside in HT0.
  destruct (receive_scope E file _ c s1 T0 Hrec) as (_ & _ & _ & _ & _ & _ & Huse).
  cbn [globals initial_state] in Huse. rewrite Hmod in Huse.
  rewrite (POST_decoded E files g fd file c s1 T0 Hfd Hget Hrec).
  destruct (early_passes (lib E) (document s1)) as [d2 [e|]] eqn:Hearly.
  - destruct (pipeline_early_failure E c s1 d2 e Hearly)
      as (s2 & Te & p0 & resH & sH & H & res' & s'' & tail
          & _ & Hp0 & _ & _ & Hlate & _ & HH & _ & Hpipe & Hend).
    cbv zeta in Hpipe. rewrite Hpipe. unfold events. cbn [snd].
    assert (Htail : forallb aside tail = true).
    { destruct Hend as [(_ & _ & -> & _)|(_ & _ & _ & Hfin)]; [done|].
      by destruct (finishes_tail _ _ _ _ _ _ Hfin). }
    rewrite !existsb_app. cbn [existsb].
    rewrite (asides_no_call q ok T0), (asides_no_call q ok H), (asides_no_call q ok tail),
      (Hlate q ok) by (try done; lia).
    rewrite stage6_not_early; [done | done |]. by destruct Hp0 as [-> | ->]; [left|right].
  - destruct (stages_main_path E c (set_level "none" s1) d2 Hearly)
      as (s2 & s3 & s4 & s5 & s6 & T1 & T2 & T3 & T4 & T5 & T6
          & _ & _ & _ & _ & _ & Hdraco & Hseq & (S1 & _) & (S2 & _) & S3 & S4 & S5 & _).
    destruct (pipeline_main E c s1 d2 Hearly)
      as (s6' & T & res' & s'' & tail & Hseq' & Hpipe & Hfin).
    rewrite Hseq in Hseq'. injection Hseq' as <- <-.
    rewrite Hpipe. unfold events. cbn [snd].
    destruct (finishes_tail _ _ _ _ _ _ Hfin) as (Htail & _).
    unfold stage_draco in Hdraco. rewrite Huse in Hdraco. injection Hdraco as _ <-.
    rewrite !existsb_app.
    rewrite (asides_no_call q ok T0), (asides_no_call q ok tail),
      (segment_calls 1 T1 q ok), (segment_calls 2 T2 q ok), (segment_calls 3 T3 q ok),
      (segment_calls 4 T4 q ok), (segment_calls 5 T5 q ok) by (try done; lia).
    done.
Qed.

Lemma full_report_dracoEnabled c lv n :
  json_get "dracoEnabled" (full_report c lv n)
  = Some (JBool (includes ["draco"; "draco-simple"] lv)).
Proof. reflexivity. Qed.

(** X7.  Stage 6 is gated on the modules.  When [initializeDraco] cannot
    hand out both modules (they are not cached and one of them cannot be
    created), the request makes no Draco call of stage 6, neither the first
    attempt nor the retry, and its answer never has [dracoEnabled] true. *)
Theorem no_draco_stage_without_modules (E : Env) (files : gmap string (list Byte.byte))
    (g : Globals) :
  modules_available E g = false ->
  (forall ok, existsb (call_of PDraco ok) (events (POST E files g)) = false)
  /\ (forall ok, existsb (call_of PDracoSimple ok) (events (POST E files g)) = false)
  /\ exists r, answer (POST E files g) = Some r
               /\ json_get "dracoEnabled" (body r) <> Some (JBool true).
Proof.
  intros Hmod.
  pose proof (fun q ok => no_stage6_call_without_modules E files g q ok Hmod) as Hno.
  split; [intros ok; by apply Hno|]. split; [intros ok; by apply Hno|].
  destruct (POST_outcome E files g)
    as [r Hans Hst Hbody|c encoded Hans _ _ _|c encoded Hans _ _ _ Hdraco].
  - exists r. split; [done|]. destruct (error_body_fields r Hbody) as (_ & _ & _ & ->). done.
  - eexists. split; [exact Hans|]. done.
  - eexists. split; [exact Hans|]. cbn [body NextResponse_json].
    rewrite full_report_dracoEnabled, Hdraco.
    assert (Hnone : existsb draco_succeeded (events (POST E files g)) = false).
    { apply not_true_is_false. intros [ev [Hin Hev]]%existsb_exists.
      unfold draco_succeeded in Hev. apply orb_true_iff in Hev as [Hev|Hev].
      - pose proof (Hno PDraco true eq_refl) as H. apply not_true_iff_false in H.
        apply H, existsb_exists. eauto.
      - pose proof (Hno PDracoSimple true eq_refl) as H. apply not_true_iff_false in H.
        apply H, existsb_exists. eauto. }
    rewrite Hnone. done.
Qed.

Lemma no_draco_stage_without_modules_witness :
  (forall ok, existsb (call_of PDraco ok) (events (POST env_no_draco ∅ fresh_globals)) = false)
  /\ (forall ok, existsb (call_of PDracoSimple ok)
                   (events (POST env_no_draco ∅ fresh_globals)) = false)
  /\ exists r, answer (POST env_no_draco ∅ fresh_globals) = Some r
               /\ json_get "dracoEnabled" (body r) <> Some (JBool true).
Proof. exact (no_draco_stage_without_modules env_no_draco ∅ fresh_globals eq_refl). Defined.

(** ** Where status 400 comes from *)

(** A request that has a file is never refused as having none. *)
Lemma POST_with_file_status E files g fd file :
  req_formData E = Resolved fd ->
  formData_get "file" fd = Some (FormFile file) ->
  exists r, answer (POST E files g) = Some r /\ (status r = 200 \/ status r = 500).
Proof.
  intros Hfd Hget.
  destruct (receive_run E file (initial_state files g)) as (res & s1 & T0 & Hrec & HT0 & Hnoret).
  destruct res as [c|r|e].
  - rewrite (POST_decoded E files g fd file c s1 T0 Hfd Hget Hrec).
    destruct (pipeline E c s1) as [[res s'] evs] eqn:Hpipe.
    destruct (pipeline_contained E c s1 T0 _ _ _ PDedup HT0 Hpipe) as (_ & r & -> & Hst).
    exists r. split; [done|]. tauto.
  - exfalso. by eapply Hnoret.
  - unfold POST, handle. rewrite Hfd. cbn [await].
    rewrite (try_catch_bind_normal (ret fd) _ _ _ fd _ [] eq_refl), Hget.
    rewrite (try_catch_bind_throw _ _ _ _ _ _ _ Hrec).
    destruct (on_error_body e s1) as (r & -> & Hst & _).
    exists r. split; [done|]. by right.
Qed.

(** X8.  Status 400 has one cause: the form was read and has no usable
    "file" entry (none at all, or an empty text).  Such a request has
    touched nothing.  A form that cannot be read, an upload that cannot be
    stored or decoded and every failure later on give 500 or 200. *)
Theorem status_400_means_no_file (E : Env) (files : gmap string (list Byte.byte))
    (g : Globals) (r : Response) :
  answer (POST E files g) = Some r ->
  status r = 400 ->
  exists fd,
    req_formData E = Resolved fd
    /\ (formData_get "file" fd = None \/ formData_get "file" fd = Some (FormText ""))
    /\ POST E files g
       = (Some {| status := 400; body := JObj [("error", JStr "파일이 없습니다.")] |},
          initial_state files g, []).
Proof.
  intros Hans Hst.
  destruct (req_formData E) as [fd|e0] eqn:Hfd.
  2: { exfalso. revert Hans. unfold POST, handle. rewrite Hfd. cbn [await].
       rewrite (try_catch_bind_throw (throw e0) _ _ _ e0 _ [] eq_refl).
       destruct (on_error_body e0 (initial_state files g)) as (r' & -> & Hst' & _).
       cbn. intros [= <-]. lia. }
  exists fd. split; [done|].
  destruct (formData_get "file" fd) as [[[|a text]|file]|] eqn:Hget.
  - split; [by right|]. unfold POST, handle. rewrite Hfd. cbn [await].
    by rewrite (try_catch_bind_normal (ret fd) _ _ _ fd _ [] eq_refl), Hget.
  - exfalso. revert Hans. unfold POST, handle. rewrite Hfd. cbn [await].
    rewrite (try_catch_bind_normal (ret fd) _ _ _ fd _ [] eq_refl), Hget.
    cbn. intros [= <-]. cbn in Hst. lia.
  - exfalso. destruct (POST_with_file_status E files g fd file Hfd Hget) as (r' & Hans' & Hst').
    rewrite Hans in Hans'. injection Hans' as <-. lia.
  - split; [by left|]. unfold POST, handle. rewrite Hfd. cbn [await].
    by rewrite (try_catch_bind_normal (ret fd) _ _ _ fd _ [] eq_refl), Hget.
Qed.

Lemma status_400_means_no_file_witness :
  exists fd,
    req_formData env_no_file = Resolved fd
    /\ (formData_get "file" fd = None \/ formData_get "file" fd = Some (FormText ""))
    /\ POST env_no_file ∅ fresh_globals
       = (Some {| status := 400; body := JObj [("error", JStr "파일이 없습니다.")] |},
          initial_state ∅ fresh_globals, []).
Proof.
  assert (Hans : answer (POST env_no_file ∅ fresh_globals) = Some (sample_answer env_no_file))
    by (vm_compute; reflexivity).
  assert (Hst : status (sample_answer env_no_file) = 400) by (vm_compute; reflexivity).
  exact (status_400_means_no_file env_no_file ∅ fresh_globals (sample_answer env_no_file)
           Hans Hst).
Defined.

(** ** The download handler *)

Lemma substring_whole s : String.substring 0 (String.length s) s = s.
Proof. induction s as [|a s IH]; cbn; [done | by rewrite IH]. Qed.

Lemma append_cons a p s : (String a p ++ s)%string = String a (p ++ s).
Proof. reflexivity. Qed.

Lemma prefix_append p s : String.prefix p (p ++ s) = true.
Proof.
  induction p as [|a p IH]; [by destruct s|].
  rewrite append_cons. cbn [String.prefix]. by destruct (Ascii.ascii_dec a a).
Qed.

Lemma length_append p s : String.length (p ++ s) = (String.length p + String.length s)%nat.
Proof. induction p as [|a p IH]; [done|]. rewrite append_cons. cbn. by rewrite IH. Qed.

Lemma substring_append p s n :
  String.substring (String.length p) n (p ++ s) = String.substring 0 n s.
Proof. induction p as [|a p IH]; [done|]. by rewrite append_cons. Qed.

Lemma fileId_of_download_url id : fileId_of_url ("/api/download?fileId=" ++ id) = Some id.
Proof.
  unfold fileId_of_url. rewrite prefix_append, length_append, substring_append.
  by rewrite Nat.add_comm, Nat.add_sub, substring_whole.
Qed.

Lemma GET_serves E files id bytes :
  id <> "" ->
  files !! path_join E (os_tmpdir E) (id ++ "-optimized.glb") = Some bytes ->
  dl_status (GET E files (Some id)) = 200
  /\ dl_body (GET E files (Some id)) = FileBody bytes.
Proof. intros Hid Hfile. unfold GET. destruct id as [|a id]; [done|]. by rewrite Hfile. Qed.

(** X9.  The round trip: when the optimisation handler has answered with
    status 200, a download request for the request's [fileId] is answered
    with status 200 and the very bytes the handler wrote to its output
    path.  The answer either names that [fileId] in its
    [optimizedModelUrl], or (the minimal answer) has no URL at all and
    gives the path on the server instead. *)
Theorem optimized_file_can_be_downloaded (E : Env) (files : gmap string (list Byte.byte))
    (g : Globals) (r : Response) :
  uuidv4 E <> "" ->
  answer (POST E files g) = Some r ->
  status r = 200 ->
  let disk := fs (final_state (POST E files g)) in
  (exists encoded,
      disk !! output_path E = Some encoded
      /\ dl_status (GET E disk (Some (uuidv4 E))) = 200
      /\ dl_body (GET E disk (Some (uuidv4 E))) = FileBody encoded)
  /\ ((json_get "optimizedModelUrl" (body r) = None
       /\ json_get "optimizedPath" (body r) = Some (JStr (output_path E)))
      \/ (exists u, json_get "optimizedModelUrl" (body r) = Some (JStr u)
                    /\ fileId_of_url u = Some (uuidv4 E))).
Proof.
  intros Hid Hans Hst disk. subst disk.
  destruct (POST_outcome E files g)
    as [r' Hans' Hst' _|c encoded Hans' Hpath Hfile _|c encoded Hans' Hc Hfile _ _].
  - rewrite Hans in Hans'. injection Hans' as <-. lia.
  - split.
    + exists encoded. split; [done|]. by apply GET_serves.
    + left. rewrite Hans in Hans'. injection Hans' as ->. cbn. by rewrite Hpath.
  - split.
    + exists encoded. split; [done|]. by apply GET_serves.
    + right. rewrite Hans in Hans'. injection Hans' as ->.
      exists ("/api/download?fileId=" ++ uuidv4 E). split.
      * cbn [body NextResponse_json]. by rewrite <- Hc.
      * apply fileId_of_download_url.
Qed.

Lemma optimized_file_can_be_downloaded_witness :
  exists encoded,
    fs (final_state (POST env_all_good ∅ fresh_globals)) !! output_path env_all_good
    = Some encoded
    /\ dl_body (GET env_all_good (fs (final_state (POST env_all_good ∅ fresh_globals)))
                  (Some "5f1c"))
       = FileBody encoded.
Proof.
  assert (Hid : uuidv4 env_all_good <> "") by discriminate.
  assert (Hans : answer (POST env_all_good ∅ fresh_globals) = Some (sample_answer env_all_good))
    by (vm_compute; reflexivity).
  assert (Hst : status (sample_answer env_all_good) = 200) by (vm_compute; reflexivity).
  destruct (optimized_file_can_be_downloaded env_all_good ∅ fresh_globals
              (sample_answer env_all_good) Hid Hans Hst) as ((encoded & H1 & _ & H3) & _).
  exists encoded. split; [exact H1 | exact H3].
Defined.

(** ** The page against the optimisation handler *)

Lemma with_form_file E file st files g :
  exists r,
    answer (POST (with_form (Page.form_of file st) E) files g) = Some r
    /\ (status r = 200 \/ status r = 500).
Proof. by apply (POST_with_file_status _ files g (Page.form_of file st) file). Qed.

Lemma error_message_of_error_body to_string r :
  error_body r -> Page.error_message to_string (body r) = Resolved "알 수 없는 오류".
Proof. intros (msg & rest & -> & [->|[st ->]]); reflexivity. Qed.

(** X10.  What the page shows after a submit, when its request goes to
    the optimisation handler.  The handler answers 200 or 500 (never 400:
    the page always sends a file).  On 200 the page shows the success line
    and takes [optimizedModelUrl] from the answer.  On 500 it shows
    "에러: 알 수 없는 오류" whatever went wrong: the handler puts its text under
    [error], the page reads [message].  The link of an earlier request is
    left in place. *)
Theorem page_shows_no_reason_for_a_failure (to_string : Json -> string) (E : Env)
    (files : gmap string (list Byte.byte)) (g : Globals) (st : Page.State) (file : File) :
  Page.selectedFile st = Some file ->
  let st' := Page.handleSubmit to_string (send_to_POST E files g) st in
  exists r,
    answer (POST (with_form (Page.form_of file st) E) files g) = Some r
    /\ if status r =? 200
       then Page.message st' = "모델 최적화 및 업로드 성공!"
            /\ Page.optimizedModelUrl st' = json_get "optimizedModelUrl" (body r)
       else status r = 500
            /\ Page.message st' = "에러: 알 수 없는 오류"
            /\ Page.optimizedModelUrl st' = Page.optimizedModelUrl st.
Proof.
  intros Hsel st'. subst st'. unfold Page.handleSubmit, send_to_POST. rewrite Hsel.
  change (Page.form_of file (Page.set_message _ st)) with (Page.form_of file st).
  destruct (with_form_file E file st files g) as (r0 & Hans0 & Hst0).
  destruct (POST_outcome (with_form (Page.form_of file st) E) files g)
    as [r Hans Hst Hbody|c encoded Hans _ _ _|c encoded Hans _ _ _ _];
    rewrite Hans; eexists; (split; [reflexivity|]).
  - rewrite Hans in Hans0. injection Hans0 as <-.
    assert (Hst5 : status r = 500) by lia. rewrite Hst5. cbn [Z.eqb Pos.eqb].
    change (Page.ok 500) with false. cbn iota.
    rewrite (error_message_of_error_body to_string r Hbody). done.
  - done.
  - done.
Qed.

Lemma page_shows_no_reason_for_a_failure_witness :
  exists r,
    answer (POST (with_form (Page.form_of sample_file page_with_file) env_disk_full)
              ∅ fresh_globals) = Some r
    /\ status r = 500
    /\ Page.message (Page.handleSubmit plain_to_string (send_to_POST env_disk_full ∅ fresh_globals)
                       page_with_file)
       = "에러: 알 수 없는 오류".
Proof.
  destruct (page_shows_no_reason_for_a_failure plain_to_string env_disk_full ∅ fresh_globals
              page_with_file sample_file eq_refl) as (r & Hans & Hrest).
  exists r. split; [exact Hans|].
  assert (Hst : status r = 500).
  { assert (Hans' : answer (POST (with_form (Page.form_of sample_file page_with_file)
                                    env_disk_full) ∅ fresh_globals)
                    = Some (sample_answer env_disk_full)) by (vm_compute; reflexivity).
    rewrite Hans in Hans'. injection Hans' as ->. vm_compute. reflexivity. }
  rewrite Hst in Hrest. split; [exact Hst|]. exact (proj1 (proj2 Hrest)).
Defined.

(** X11.  From the page to the file.  After a submit that the handler
    answered with status 200, the page either shows no link (the minimal
    answer has no [optimizedModelUrl], so the success line stands alone),
    or shows a link whose [fileId], sent to the download handler, is
    answered with status 200 and the bytes the optimisation handler wrote
    to its output path. *)
Theorem link_on_the_page_serves_the_output (to_string : Json -> string) (E : Env)
    (files : gmap string (list Byte.byte)) (g : Globals) (st : Page.State) (file : File)
    (r : Response) :
  Page.selectedFile st = Some file ->
  uuidv4 E <> "" ->
  let E' := with_form (Page.form_of file st) E in
  let st' := Page.handleSubmit to_string (send_to_POST E files g) st in
  let disk := fs (final_state (POST E' files g)) in
  answer (POST E' files g) = Some r ->
  status r = 200 ->
  match Page.link_shown st' with
  | None => json_get "optimizedModelUrl" (body r) = None
  | Some link =>
      exists u encoded,
        link = JStr u
        /\ disk !! output_path E = Some encoded
        /\ dl_status (GET E disk (fileId_of_url u)) = 200
        /\ dl_body (GET E disk (fileId_of_url u)) = FileBody encoded
  end.
Proof.
  intros Hsel Hid E' st' disk Hans Hst. subst st' disk.
  unfold Page.handleSubmit, send_to_POST. rewrite Hsel.
  change (Page.form_of file (Page.set_message _ st)) with (Page.form_of file st).
  fold E'.
  destruct (POST_outcome E' files g)
    as [r' Hans' Hst' _|c encoded Hans' _ _ _|c encoded Hans' Hc Hfile _ _].
  - rewrite Hans in Hans'. injection Hans' as <-. lia.
  - rewrite Hans'. rewrite Hans in Hans'. injection Hans' as ->. done.
  - rewrite Hans'. rewrite Hans in Hans'. injection Hans' as ->.
    cbn [status NextResponse_json body]. change (Page.ok 200) with true. cbn iota.
    unfold Page.link_shown.
    cbn [Page.optimizedModelUrl Page.set_optimizedModelUrl full_report json_get String.eqb
         Ascii.eqb Bool.eqb Page.truthy negb].
    exists ("/api/download?fileId=" ++ fileId c), encoded.
    split; [done|]. split; [done|].
    rewrite fileId_of_download_url, Hc.
    by apply (GET_serves E _ (uuidv4 E) encoded).
Qed.

Lemma link_on_the_page_serves_the_output_witness :
  match Page.link_shown (Page.handleSubmit plain_to_string
                           (send_to_POST env_all_good ∅ fresh_globals) page_with_file) with
  | None => True
  | Some link =>
      exists u encoded,
        link = JStr u
        /\ dl_body (GET env_all_good
                      (fs (final_state (POST (with_form (Page.form_of sample_file page_with_file)
                                                env_all_good) ∅ fresh_globals)))
                      (fileId_of_url u)) = FileBody encoded
  end.
Proof.
  assert (Hid : uuidv4 env_all_good <> "") by discriminate.
  assert (Hans : answer (POST (with_form (Page.form_of sample_file page_with_file) env_all_good)
                           ∅ fresh_globals) = Some (sample_answer env_all_good))
    by (vm_compute; reflexivity).
  assert (Hst : status (sample_answer env_all_good) = 200) by (vm_compute; reflexivity).
  pose proof (link_on_the_page_serves_the_output plain_to_string env_all_good ∅ fresh_globals
                page_with_file sample_file (sample_answer env_all_good) eq_refl Hid Hans Hst)
    as H.
  cbv zeta in H.
  destruct (Page.link_shown _) as [link|]; [|exact I].
  destruct H as (u & encoded & H1 & _ & _ & H4). exists u, encoded. split; [exact H1 | exact H4].
Defined.

(** ** The handler that applies all transforms in one call *)

Module SinglePassFacts.
Import SinglePass.

Ltac run_single :=
  cbv beta iota zeta delta
    [SinglePass.bind SinglePass.try_catch SinglePass.ret SinglePass.throw SinglePass.return_
     SinglePass.gets SinglePass.modify SinglePass.emit SinglePass.call].

Lemma transform_run E todo : forall d s,
  exists tevs,
    match run_steps E todo d with
    | Some d' =>
        transform E todo d s = (Normal d', s, tevs)
        /\ steps_called tevs = todo /\ steps_failed tevs = []
    | None =>
        exists e done failing rest,
          transform E todo d s = (Throw e, s, tevs)
          /\ todo = (done ++ failing :: rest)%list
          /\ steps_called tevs = (done ++ [failing])%list
          /\ steps_failed tevs = [failing]
    end.
Proof.
  induction todo as [|st rest IH]; intros d s; cbn [transform run_steps].
  { exists []. done. }
  destruct (step E st d) as [d1 [e|]]; run_single; cbn [succeeded].
  - exists [Stepped st false]. exists e, [], st, rest. done.
  - destruct (IH d1 s) as (tevs & Htevs). exists (Stepped st true :: tevs).
    destruct (run_steps E rest d1) as [d'|].
    + destruct Htevs as (-> & Hc & Hf).
      change (steps_called (Stepped st true :: tevs)) with (st :: steps_called tevs).
      change (steps_failed (Stepped st true :: tevs)) with (steps_failed tevs).
      by rewrite Hc.
    + destruct Htevs as (e & done & failing & rest' & -> & -> & Hc & Hf).
      exists e, (st :: done), failing, rest'.
      change (steps_called (Stepped st true :: tevs)) with (st :: steps_called tevs).
      change (steps_failed (Stepped st true :: tevs)) with (steps_failed tevs).
      by rewrite Hc.
Qed.

Lemma steps_called_app a b : steps_called (a ++ b) = (steps_called a ++ steps_called b)%list.
Proof. apply flat_map_app. Qed.

Lemma steps_failed_app a b : steps_failed (a ++ b) = (steps_failed a ++ steps_failed b)%list.
Proof. apply flat_map_app. Qed.

Lemma cleanup_logged pre e post :
  existsb cleanup_failed
    (pre ++ Log console_error "임시 파일 삭제 중 오류 발생:" (ArgThrown e) :: post) = true.
Proof. rewrite existsb_app. cbn. by rewrite orb_true_r. Qed.

(** The files after the [catch] clause, which found the temporary file
    there or not. *)
Ltac left_files :=
  split;
  [ intros q Hq; cbn [files set_files];
    rewrite ?lookup_delete_ne, ?lookup_insert_ne by done; reflexivity
  | first
      [ left; cbn [files set_files];
        first [ by rewrite lookup_delete_eq | assumption ]
      | right; split; [by eexists|];
        match goal with
        | |- context [Log console_error "임시 파일 삭제 중 오류 발생:" (ArgThrown ?e)] =>
            apply existsb_exists;
            exists (Log console_error "임시 파일 삭제 중 오류 발생:" (ArgThrown e));
            split; [rewrite ?in_app_iff; cbn [In]; tauto | reflexivity]
        end ] ].

(** Every request goes one of three ways. *)
Lemma POST_ran E fs : Ran E fs (POST E fs).
Proof.
  unfold POST, handle, on_error, fs_writeFile, fs_unlink, NodeIO_read. run_single.
  destruct (createDecoderModule E) as [dec|e1]; run_single;
    [|by eapply NoUpload; [reflexivity | right | |]].
  destruct (createEncoderModule E) as [enc|e2]; run_single;
    [|by eapply NoUpload; [reflexivity | right | |]].
  destruct (req_formData E) as [fd|e3] eqn:Hfd; run_single;
    [|by eapply NoUpload; [reflexivity | right | |]].
  destruct (formData_get "model" fd) as [[[|a text]|file]|] eqn:Hget; run_single;
    [by eapply NoUpload; [reflexivity | left | |]
    |by eapply NoUpload; [reflexivity | right | |]
    |
    |by eapply NoUpload; [reflexivity | left | |]].
  fold (temp_path E file).
  destruct (file_arrayBuffer file) as [buffer|e4] eqn:Hbuf; run_single;
    [|by eapply NoUpload; [reflexivity | right | |]].
  cbn [tempFilePath files set_files].
  destruct (unlink_again E (temp_path E file)) as [refused|] eqn:Hagain.
  all: destruct (writeFile E (temp_path E file) buffer) as [e5|]; run_single;
    cbn [tempFilePath files set_files].
  1,3: destruct (fs !! temp_path E file) as [old|] eqn:Hold; run_single;
      cbn [tempFilePath files set_files]; rewrite ?Hagain; run_single;
      cbn [tempFilePath files set_files];
      (eapply (Failed _ _ _ fd file); [done | done | reflexivity | left_files | by left]).
  all: rewrite !lookup_insert_eq.
  all: destruct (io_read E (temp_path E file) buffer) as [d|e6] eqn:Hread; run_single;
    cbn [tempFilePath files set_files]; rewrite ?lookup_insert_eq, ?Hagain; run_single;
    cbn [tempFilePath files set_files].
  2,4: eapply (Failed _ _ _ fd file); [done | done | reflexivity | left_files | by left].
  all: match goal with
       | |- context [transform ?E0 steps ?d0 ?s0] =>
           destruct (transform_run E0 steps d0 s0) as (tevs & Htevs)
       end.
  all: destruct (run_steps E steps d) as [d'|] eqn:Hsteps.
  2,4: destruct Htevs as (e & before & failing & rest & -> & Hdec & Hc & Hf);
       cbn [tempFilePath files set_files]; rewrite ?lookup_insert_eq, ?Hagain; run_single;
       cbn [tempFilePath files set_files];
       (eapply (Failed _ _ _ fd file); [done | done | reflexivity | left_files |]);
       right; left; exists before, failing, rest; (split; [done|]);
       rewrite !steps_called_app, !steps_failed_app, Hc, Hf; cbn;
       by rewrite ?app_nil_r.
  all: destruct Htevs as (-> & Hc & Hf).
  all: destruct (io_writeBinary E d') as [out|e7] eqn:Hout; run_single;
    cbn [tempFilePath files set_files]; rewrite ?lookup_insert_eq, ?Hagain; run_single;
    cbn [tempFilePath files set_files].
  2,4: (eapply (Failed _ _ _ fd file); [done | done | reflexivity | left_files |]);
       right; right; rewrite !steps_called_app, !steps_failed_app, Hc, Hf; cbn;
       by rewrite ?app_nil_r.
  all: destruct (unlink E (temp_path E file)) as [eu|] eqn:Hunlink; run_single;
    cbn [tempFilePath files set_files]; rewrite ?lookup_insert_eq, ?Hagain; run_single;
    cbn [tempFilePath files set_files].
  1,3: (eapply (Failed _ _ _ fd file); [done | done | reflexivity | left_files |]);
       right; right; rewrite !steps_called_app, !steps_failed_app, Hc, Hf; cbn;
       by rewrite ?app_nil_r.
  all: rewrite ?delete_insert_eq;
    eapply (Served _ _ _ fd file buffer d d' out); try done; try reflexivity;
    [ rewrite !steps_called_app, Hc; cbn; by rewrite ?app_nil_r
    | rewrite !steps_failed_app, Hf; done ].
Qed.

End SinglePassFacts.


(** X14.  The one-call handler serves all or nothing.  An answer with
    status 200 carries the encoding of the document after all five
    transforms, applied in the order resample, prune, dedup, draco,
    textureCompress to the decoded upload; a partly optimized file is never
    served. *)
Theorem single_pass_serves_the_full_result (E : SinglePass.Env)
    (fs : gmap string (list Byte.byte)) (r : Download) :
  fst (fst (SinglePass.POST E fs)) = Some r ->
  dl_status r = 200 ->
  exists fd file buffer d d' out,
    SinglePass.req_formData E = Resolved fd
    /\ formData_get "model" fd = Some (FormFile file)
    /\ file_arrayBuffer file = Resolved buffer
    /\ SinglePass.io_read E (SinglePass.temp_path E file) buffer = Resolved d
    /\ SinglePass.run_steps E SinglePass.steps d = Some d'
    /\ SinglePass.io_writeBinary E d' = Resolved out
    /\ r = SinglePass.served file out
    /\ SinglePass.steps_called (snd (SinglePass.POST E fs)) = SinglePass.steps.
Proof.
  intros Hans Hst.
  destruct (SinglePassFacts.POST_ran E fs)
    as [r' evs Hrun Hr _ _|fd file left evs _ _ Hrun _ _
        |fd file buffer d d' out evs Hfd Hget Hbuf Hread Hsteps Hout _ Hrun Hc _];
    rewrite Hrun in Hans |- *; cbn [fst snd] in *; injection Hans as <-.
  - destruct Hr as [-> | ->]; cbn in Hst; lia.
  - cbn in Hst. lia.
  - exists fd, file, buffer, d, d', out. by repeat split.
Qed.

Lemma single_pass_serves_the_full_result_witness :
  exists d',
    SinglePass.run_steps SinglePass.env_good SinglePass.steps sample_document = Some d'
    /\ SinglePass.answer_or_refused (SinglePass.POST SinglePass.env_good ∅)
       = SinglePass.served sample_file (sample_encode d').
Proof.
  assert (Hans : fst (fst (SinglePass.POST SinglePass.env_good ∅))
                 = Some (SinglePass.answer_or_refused (SinglePass.POST SinglePass.env_good ∅)))
    by (vm_compute; reflexivity).
  assert (Hst : dl_status (SinglePass.answer_or_refused (SinglePass.POST SinglePass.env_good ∅))
                = 200) by (vm_compute; reflexivity).
  destruct (single_pass_serves_the_full_result SinglePass.env_good ∅ _ Hans Hst)
    as (fd & file & buffer & d & d' & out & Hfd & Hget & Hbuf & Hread & Hsteps & Hout & Hr & _).
  injection Hfd as <-. injection Hget as <-. injection Hread as <-.
  exists d'. split; [exact Hsteps|].
  rewrite Hr. injection Hout as <-. reflexivity.
Defined.

(** X15.  In the one-call handler a transform that throws ends the
    request: the steps before it were called, no step after it is, and the
    answer is the 500 body. *)
Theorem single_pass_stops_at_a_failing_step (E : SinglePass.Env)
    (fs : gmap string (list Byte.byte)) (s : SinglePass.Step) :
  In s (SinglePass.steps_failed (snd (SinglePass.POST E fs))) ->
  fst (fst (SinglePass.POST E fs)) = Some SinglePass.failed
  /\ exists done rest,
       SinglePass.steps = (done ++ s :: rest)%list
       /\ SinglePass.steps_called (snd (SinglePass.POST E fs)) = (done ++ [s])%list.
Proof.
  intros Hin.
  destruct (SinglePassFacts.POST_ran E fs)
    as [r' evs Hrun _ _ Hf|fd file left evs _ _ Hrun _ Hsteps
        |fd file buffer d d' out evs _ _ _ _ _ _ _ Hrun _ Hf];
    rewrite Hrun in Hin |- *; cbn [fst snd] in *.
  - rewrite Hf in Hin. destruct Hin.
  - split; [done|].
    destruct Hsteps as [(_ & Hf)|[(before & failing & rest & Hdec & Hc & Hf)|(_ & Hf)]];
      rewrite Hf in Hin; [destruct Hin| |destruct Hin].
    destruct Hin as [->|[]]. by exists before, rest.
  - rewrite Hf in Hin. destruct Hin.
Qed.

Lemma single_pass_stops_at_a_failing_step_witness :
  fst (fst (SinglePass.POST SinglePass.env_draco_fails ∅)) = Some SinglePass.failed
  /\ exists done rest,
       SinglePass.steps = (done ++ SinglePass.Apply (draco draco_default) :: rest)%list
       /\ SinglePass.steps_called (snd (SinglePass.POST SinglePass.env_draco_fails ∅))
          = (done ++ [SinglePass.Apply (draco draco_default)])%list.
Proof.
  apply (single_pass_stops_at_a_failing_step SinglePass.env_draco_fails ∅
           (SinglePass.Apply (draco draco_default))).
  vm_compute. left. reflexivity.
Defined.

(** X16.  What the one-call handler leaves of its temporary file.  A
    request that ends before the temporary path is chosen changes no file.
    After that, every file but the temporary one is as the request found
    it, and there is no file under the temporary path when the request
    ends, served or failed, with one exception: when the [fs.unlink] of the
    [catch] clause is refused, the refusal is logged, the answer is the 500
    body and the file stays.  A request that is served has removed its
    temporary file. *)
Theorem single_pass_temporary_file (E : SinglePass.Env)
    (fs : gmap string (list Byte.byte)) :
  let x := SinglePass.POST E fs in
  let final := snd (fst x) in
  match SinglePass.tempFilePath final with
  | None => SinglePass.files final = fs
  | Some path =>
      (forall q, q <> path -> SinglePass.files final !! q = fs !! q)
      /\ (SinglePass.files final !! path = None
          \/ (fst (fst x) = Some SinglePass.failed
              /\ is_Some (SinglePass.unlink_again E path)
              /\ existsb SinglePass.cleanup_failed (snd x) = true))
  end.
Proof.
  destruct (SinglePassFacts.POST_ran E fs)
    as [r evs -> _ _ _|fd file left evs _ _ -> (Hothers & Hpath) _
        |fd file buffer d d' out evs _ _ _ _ _ _ _ -> _ _];
    cbn [fst snd SinglePass.tempFilePath SinglePass.files].
  - reflexivity.
  - split; [exact Hothers|]. destruct Hpath as [?|(? & ?)]; [by left | by right].
  - split; [intros q Hq; by apply lookup_delete_ne|]. left. apply lookup_delete_eq.
Qed.

Lemma single_pass_temporary_file_witness :
  let x := SinglePass.POST SinglePass.env_cleanup_refused ∅ in
  SinglePass.files (snd (fst x)) !! SinglePass.temp_path SinglePass.env_cleanup_refused sample_file
  = Some glb_bytes
  /\ fst (fst x) = Some SinglePass.failed
  /\ existsb SinglePass.cleanup_failed (snd x) = true.
Proof.
  pose proof (single_pass_temporary_file SinglePass.env_cleanup_refused ∅) as H.
  cbv zeta in H |- *.
  assert (Htemp : SinglePass.tempFilePath
                    (snd (fst (SinglePass.POST SinglePass.env_cleanup_refused ∅)))
                  = Some (SinglePass.temp_path SinglePass.env_cleanup_refused sample_file))
    by (vm_compute; reflexivity).
  assert (Hthere : SinglePass.files (snd (fst (SinglePass.POST SinglePass.env_cleanup_refused ∅)))
                     !! SinglePass.temp_path SinglePass.env_cleanup_refused sample_file
                   = Some glb_bytes)
    by (vm_compute; reflexivity).
  rewrite Htemp in H. destruct H as (_ & [Hnone|(Hanswer & _ & Hlogged)]).
  - rewrite Hthere in Hnone. discriminate Hnone.
  - split; [exact Hthere|]. split; [exact Hanswer | exact Hlogged].
Defined.

(** ** What the optimisation handler reads and what it starts over from *)

(** X12.  Of the form, the optimisation handler reads the "file" entry and
    nothing else: two requests whose forms agree there are treated alike.
    The [brand] and the [url] the page sends along are never looked at. *)
Theorem handler_reads_only_the_file_field (E : Env) (files : gmap string (list Byte.byte))
    (g : Globals) (fd1 fd2 : FormData) :
  formData_get "file" fd1 = formData_get "file" fd2 ->
  POST (with_form fd1 E) files g = POST (with_form fd2 E) files g.
Proof.
  intros Hsame. unfold POST, handle. cbn [req_formData with_form await].
  rewrite !(try_catch_bind_normal (ret _) _ _ _ _ _ [] eq_refl), Hsame.
  destruct (formData_get "file" fd2) as [[[|a text]|file]|]; reflexivity.
Qed.

Lemma handler_reads_only_the_file_field_witness :
  POST (with_form (Page.form_of sample_file page_with_file) env_all_good) ∅ fresh_globals
  = POST (with_form (upload "robot.glb") env_all_good) ∅ fresh_globals.
Proof.
  exact (handler_reads_only_the_file_field env_all_good ∅ fresh_globals
           (Page.form_of sample_file page_with_file) (upload "robot.glb") eq_refl).
Defined.

Lemma document_transform_head L t s :
  exists c s1 ok, document_transform L t s = (c, s1, [CallTransform Main t ok]).
Proof.
  unfold document_transform. run_monad.
  destruct (lib_transform L t (document s)) as [d' [e|]]; by eexists _, _, _.
Qed.

Lemma try_catch_bind_head {A B} (m : M A) (k : A -> M B) h s c s1 ev :
  m s = (c, s1, [ev]) ->
  exists res s' rest, try_catch (bind m k) h s = (res, s', ev :: rest).
Proof.
  intros H. unfold try_catch, bind. rewrite H. destruct c as [a|r|e].
  - destruct (k a s1) as [[[b|r|e] s2] evs2]; cbn; [by eexists _, _, _..|].
    destruct (h e s2) as [[c' s3] evs3]. by eexists _, _, _.
  - by eexists _, _, _.
  - destruct (h e s1) as [[c' s3] evs3]. by eexists _, _, _.
Qed.

(** X17.  A registration of the Draco modules that throws is logged and
    then forgotten: [useDraco] is still true, and stage 6, entered with
    [useDraco] true, calls [draco()] with the default options all the
    same. *)
Theorem registration_failure_does_not_disable_draco (E : Env) (s : State) (e : Thrown) :
  registerDependencies E = Some e ->
  modules_available E (globals s) = true ->
  (exists s' evs,
      prepare_draco E s = (Normal true, s', evs)
      /\ In (CallRegisterDependencies false) evs
      /\ In (Console console_warn "Draco 의존성 등록 실패:" (ArgThrown e)) evs)
  /\ forall c s5,
       useDraco c = true ->
       exists ok res s6 rest,
         stage_draco E c s5
         = (res, s6, CallTransform Main (draco draco_default) ok :: rest).
Proof.
  intros Hreg Hmod. split.
  - unfold modules_available in Hmod. unfold prepare_draco, initializeDraco. run_monad.
    rewrite Hreg. cbn [succeeded].
    destruct (dracoInitialized (globals s)).
    + apply andb_true_iff in Hmod as [Hd He].
      apply bool_decide_eq_true in Hd as [dec ->]. apply bool_decide_eq_true in He as [enc ->].
      eexists _, _. split; [reflexivity|]. cbn. tauto.
    + destruct (createDecoderModule E) as [dec|]; [|done].
      destruct (createEncoderModule E) as [enc|]; [|done].
      eexists _, _. split; [reflexivity|]. cbn. tauto.
  - intros c s5 Huse. unfold stage_draco. rewrite Huse.
    destruct (document_transform_head (lib E) (draco draco_default) s5) as (c0 & s1 & ok & Hrun).
    destruct (try_catch_bind_head _
                (fun _ => modify (set_level "draco");;
                          console console_log "✅ Draco 압축 완료" NoArg;;
                          checkFileSize E c "Draco";; ret tt)
                (fun dracoError =>
                   console console_warn "⚠️ Draco 압축 실패:" (ArgThrown dracoError);;
                   try_catch
                     (document_transform (lib E) (draco draco_simple);;
                      modify (set_level "draco-simple");;
                      console console_log "✅ Draco 간단 압축 완료" NoArg;;
                      checkFileSize E c "Draco Simple";;
                      ret tt)
                     (fun dracoError2 =>
                        console console_warn "⚠️ Draco 재시도도 실패:" (ArgThrown dracoError2)))
                _ _ _ _ Hrun)
      as (res & s' & rest & Hall).
    exists ok, res, s', rest. exact Hall.
Qed.

Lemma registration_failure_does_not_disable_draco_witness :
  exists s' evs,
    prepare_draco env_registration_fails (initial_state ∅ fresh_globals) = (Normal true, s', evs)
    /\ In (CallRegisterDependencies false) evs.
Proof.
  destruct (registration_failure_does_not_disable_draco env_registration_fails
              (initial_state ∅ fresh_globals) (boom "registerDependencies failed")
              eq_refl eq_refl) as ((s' & evs & Hrun & Hin & _) & _).
  exists s', evs. split; [exact Hrun | exact Hin].
Defined.

(** X18.  The last-resort branch starts over.  When it answers, its output
    is what the second library makes of the file stored under the input
    path: decoded anew, [dedup] and [prune] applied, encoded.  Nothing of
    what the six stages did to the request's document goes into it, and the
    request's document is left as it was. *)
Theorem minimal_output_comes_from_the_stored_file (E : Env) (c : Scope) (e : Thrown)
    (s s' : State) (r : Response) (H : list Event) :
  on_transform_error E c e s = (Return r, s', H) ->
  exists stored d0 d1 d2 out,
    fs s !! inputPath c = Some stored
    /\ io_read (lib_again E) (inputPath c) stored = Resolved d0
    /\ lib_transform (lib_again E) dedup d0 = (d1, None)
    /\ lib_transform (lib_again E) prune d1 = (d2, None)
    /\ io_write (lib_again E) (outputPath c) d2 = Resolved out
    /\ fs s' = <[outputPath c := out]> (fs s)
    /\ document s' = document s.
Proof.
  unfold on_transform_error, minimal_fallback, NodeIO_read, NodeIO_write. run_monad.
  cbn [fs set_level].
  destruct (fs s !! inputPath c) as [bytes|]; run_monad; [|done].
  destruct (io_read (lib_again E) (inputPath c) bytes) as [d0|e2] eqn:Hrd; run_monad; [|done].
  cbn [transform_all].
  destruct (lib_transform (lib_again E) dedup d0) as [d1 [e3|]] eqn:H1; run_monad; [done|].
  destruct (lib_transform (lib_again E) prune d1) as [d2 [e4|]] eqn:H2; run_monad; [done|].
  destruct (io_write (lib_again E) (outputPath c) d2) as [out|e5] eqn:Hw; run_monad; [|done].
  intros [= <- <- <-]. exists bytes, d0, d1, d2, out. by repeat split.
Qed.

Lemma minimal_output_comes_from_the_stored_file_witness :
  exists out,
    io_write (lib_again env_prune_fails_once) (outputPath sample_scope) bare_document
    = Resolved out
    /\ fs (snd (fst (on_transform_error env_prune_fails_once sample_scope
                       (boom "transform failed") state_stored)))
       = <[outputPath sample_scope := out]> (fs state_stored).
Proof.
  destruct (on_transform_error env_prune_fails_once sample_scope (boom "transform failed")
              state_stored) as [[res s'] H] eqn:Hrun.
  assert (Hres : res = Return (NextResponse_json (minimal_report sample_scope "minimal") None)).
  { apply (f_equal (fun x => fst (fst x))) in Hrun. cbn [fst] in Hrun. rewrite <- Hrun.
    vm_compute. reflexivity. }
  rewrite Hres in Hrun.
  destruct (minimal_output_comes_from_the_stored_file _ _ _ _ _ _ _ Hrun)
    as (stored & d0 & d1 & d2 & out & Hst & Hrd & Hd & Hp & Hw & Hfs & _).
  injection Hrd as <-. injection Hd as <-. injection Hp as <-.
  exists out. split; [exact Hw | exact Hfs].
Defined.

(** ** C1: what a failing pass does to the request *)





(** ** C5: the Draco stage of a request *)

(** C5.  For a request whose upload [receive] has stored and decoded, with
    the scope [receive] hands to the stages: stage 6 is attempted only when
    both Draco modules are available (cached from an earlier request, or
    created now); without them the stage logs that it is skipped and calls
    nothing.  With them, the stage calls [draco()] with the default
    options; when that first attempt throws it makes exactly one more
    attempt, with [quantizePosition: 12] and nothing else set, on the
    document as the first attempt left it, and whether or not the retry
    succeeds the stage completes normally and makes no third call, so a
    second failure leaves the geometry as it is.  With the library defaults
    above 12 bits for positions, the retry quantizes positions strictly
    coarser and everything else as before. *)
Theorem draco_retries_once_with_reduced_parameters
    (E : Env) (file : File) (s0 : State) (c : Scope) (s1 : State) (T0 : list Event)
    (s : State) (defaults : DracoBits) :
  receive E file s0 = (Normal c, s1, T0) ->
  12 < positionBits defaults ->
  (let '(res, s', evs) := stage_draco E c s in
   res = Normal tt
   /\ if modules_available E (globals s0) then
        let '(d1, r1) := lib_transform (lib E) (draco draco_default) (document s) in
        match r1 with
        | None =>
            pass_calls evs = [CallTransform Main (draco draco_default) true]
            /\ document s' = d1
            /\ optimizationLevel s' = "draco"
        | Some _ =>
            let '(d2, r2) := lib_transform (lib E) (draco draco_simple) d1 in
            pass_calls evs = [CallTransform Main (draco draco_default) false;
                              CallTransform Main (draco draco_simple) (succeeded r2)]
            /\ document s' = d2
            /\ optimizationLevel s'
               = (if succeeded r2 then "draco-simple" else optimizationLevel s)
        end
      else evs = [Console console_log "ℹ️ Draco 모듈 없음, 건너뜀" NoArg] /\ s' = s)
  /\ positionBits (effective_bits defaults draco_simple) = 12
  /\ positionBits (effective_bits defaults draco_simple)
       < positionBits (effective_bits defaults draco_default)
  /\ normalBits (effective_bits defaults draco_simple)
       = normalBits (effective_bits defaults draco_default)
  /\ texcoordBits (effective_bits defaults draco_simple)
       = texcoordBits (effective_bits defaults draco_default).
Proof.
  intros Hreceive Hbits.
  destruct (receive_scope E file s0 c s1 T0 Hreceive) as (_ & _ & _ & _ & _ & _ & Huse).
  split; [|repeat split; cbn; lia].
  destruct (modules_available E (globals s0)).
  - destruct (lib_transform (lib E) (draco draco_default) (document s)) as [d1 [e1|]] eqn:Hfirst.
    + destruct (stage_draco_retry E c s defaults d1 e1 Huse Hfirst Hbits) as (Hrun & _).
      destruct (stage_draco E c s) as [[res s'] evs].
      destruct (lib_transform (lib E) (draco draco_simple) d1) as [d2 r2].
      destruct Hrun as (-> & Hcalls & Hdoc & Hlevel). done.
    + unfold stage_draco. rewrite Huse. run_monad. rewrite Hfirst. run_monad.
      rewrite checkFileSize_run. cbv zeta.
      destruct (io_write _ _ _); cbn; done.
  - unfold stage_draco. rewrite Huse. done.
Qed.

Lemma draco_retries_once_with_reduced_parameters_witness :
  pass_calls (snd (stage_draco env_draco_fails (received_scope env_draco_fails)
                     (state_with sample_document)))
  = [CallTransform Main (draco draco_default) false;
     CallTransform Main (draco draco_simple) true]
  /\ positionBits (effective_bits library_draco_defaults draco_simple)
     < positionBits (effective_bits library_draco_defaults draco_default).
Proof.
  assert (Hreceive : receive env_draco_fails sample_file (initial_state ∅ fresh_globals)
                     = (Normal (received_scope env_draco_fails),
                        snd (fst (received env_draco_fails)),
                        snd (received env_draco_fails)))
    by (vm_compute; reflexivity).
  assert (Hbits : 12 < positionBits library_draco_defaults) by (cbn; lia).
  pose proof (draco_retries_once_with_reduced_parameters env_draco_fails sample_file
                (initial_state ∅ fresh_globals) (received_scope env_draco_fails) _ _
                (state_with sample_document) library_draco_defaults Hreceive Hbits)
    as (Hrun & _ & Hcoarser & _).
  split; [|exact Hcoarser].
  destruct (stage_draco env_draco_fails (received_scope env_draco_fails)
              (state_with sample_document)) as [[res s'] evs].
  change (modules_available env_draco_fails (globals (initial_state ∅ fresh_globals)))
    with true in Hrun.
  change (lib_transform (lib env_draco_fails) (draco draco_default)
            (document (state_with sample_document)))
    with (sample_document, Some (boom "transform failed")) in Hrun.
  change (lib_transform (lib env_draco_fails) (draco draco_simple) sample_document)
    with (sample_document, @None Thrown) in Hrun.
  destruct Hrun as (_ & Hcalls & _). exact Hcalls.
Defined.

(** ** C8: the [applied] map against the run *)

(** C8.  The handler computes the [applied] map of its report from the
    final level, not from what ran, and the two disagree.  For an upload
    without animations and without textures on which every call succeeds
    and both Draco modules are there, the request is answered with status
    200 and the level "draco"; its report says [resample: true] although
    resample was never called (the document has no animation), and
    [simplify: false] although weld was called and succeeded, against the
    comment on that entry (set where weld or pre-quantization was
    applied). *)
Theorem applied_map_contradicts_the_run :
  let x := POST env_bare_good ∅ fresh_globals in
  exists r,
    answer x = Some r
    /\ status r = 200
    /\ json_get "optimizationLevel" (body r) = Some (JStr "draco")
    /\ applied_entry "resample" r = Some (JBool true)
    /\ call_made PResample (events x) = false
    /\ applied_entry "simplify" r = Some (JBool false)
    /\ call_made PWeld (events x) = true.
Proof.
  exists (sample_answer env_bare_good).
  split; [vm_compute; reflexivity|]. split; [vm_compute; reflexivity|].
  split; [vm_compute; reflexivity|]. split; [vm_compute; reflexivity|].
  split; [vm_compute; reflexivity|]. split; vm_compute; reflexivity.
Qed.

(** ** [initializeDraco] when requests overlap *)

(** X19.  [initializeDraco] taken apart at its [await]s.  A call that runs
    its three stretches with nothing in between does what [initializeDraco]
    does as a whole: the same result, the same module variables, the same
    events.  When a second request starts while the first is suspended at
    its first [await], and the flag was unset, both calls have passed the
    test of the flag before either sets it, and the decoder module is
    created twice: the cache holds for calls that follow each other, not
    for calls that overlap. *)
Theorem overlapping_calls_both_create_the_decoder (E E2 : Env) (s : State) :
  (let '(res, s', evs) := initializeDraco E s in
   exists result,
     res = Normal result
     /\ draco_steps E 3 AtStart (globals s) = (Finished result, globals s', evs))
  /\ (let '(first, second, g', evs) := overlapping_calls E E2 (globals s) in
      (exists r1 r2, first = Finished r1 /\ second = Finished r2)
      /\ decoder_creations evs = (if dracoInitialized (globals s) then 0 else 2)%nat).
Proof.
  split.
  - unfold initializeDraco, draco_steps, draco_step. run_monad.
    destruct (dracoInitialized (globals s)) eqn:Hinit; [by eexists|].
    destruct (createDecoderModule E) as [dec|e1]; run_monad; [|by eexists].
    destruct (createEncoderModule E) as [enc|e2]; run_monad; by eexists.
  - unfold overlapping_calls, draco_steps, draco_step.
    destruct (globals s) as [dec0 enc0 init].
    cbn [dracoInitialized decoderModule encoderModule]. destruct init.
    + cbn. split; [by eexists _, _|]. done.
    + destruct (createDecoderModule E) as [dec|e1];
        [destruct (createEncoderModule E) as [enc|e2]|];
        (destruct (createDecoderModule E2) as [dec2|e3];
         [destruct (createEncoderModule E2) as [enc2|e4]|]);
        cbn; (split; [by eexists _, _|]); reflexivity.
Qed.
